(** * PRISM notification core: a shallow embedding of [src/notifications]

    The development follows the Python sources file by file:
    [models.py] (the five model classes and their methods), [forms.py]
    (template validation), [signals.py] (the post-save receivers) and
    [tasks.py] (the Celery tasks).  Django's ORM, the channel layer, the
    mail transport and the Celery broker are the environment: tables are
    lists of rows or finite maps keyed by primary key inside a [world],
    every externally visible action is appended to a trace of [event]s,
    and Python exceptions are the [Raised] outcome of a small
    state-and-exception monad. *)

From stdpp Require Import gmap strings list.
From Stdlib Require Import ZArith Lia Ascii String.

Open Scope Z_scope.
Open Scope string_scope.

(** ** Time

    An aware [datetime] is the number of microseconds since the epoch;
    [datetime.time()] is the offset inside the day.  [timedelta(days=n)]
    is [n] days worth of microseconds. *)

Definition datetime := Z.
Definition time := Z.

Definition usec_per_second : Z := 1000000.
Definition usec_per_hour : Z := 3600 * usec_per_second.
Definition usec_per_day : Z := 24 * usec_per_hour.

Definition datetime_time (dt : datetime) : time := dt `mod` usec_per_day.
Definition timedelta_days (n : Z) : Z := n * usec_per_day.
Definition timedelta_hours (n : Z) : Z := n * usec_per_hour.

(** ** Delivery channels and history statuses

    [Channel] is the [choices] list of [NotificationHistory.channel];
    [Status] is [NOTIFICATION_STATUS] together with ['created'], the value
    the creation receiver in [signals.py] writes. *)

Inductive Channel := Email | Push | InApp.

Inductive Status := Created | Sent | Delivered | Read | Clicked | Dismissed | Failed.

#[global] Instance Channel_eq_dec : EqDecision Channel.
Proof. solve_decision. Defined.

#[global] Instance Status_eq_dec : EqDecision Status.
Proof. solve_decision. Defined.

Definition channel_name (c : Channel) : string :=
  match c with Email => "email" | Push => "push" | InApp => "in_app" end.

(** ** [models.py]: [NotificationPreference] *)

Module NotificationPreference.

Record t := mk {
  email_notifications : bool;
  email_frequency : string;
  push_notifications : bool;
  in_app_notifications : bool;
  email_types : gmap string bool;
  push_types : gmap string bool;
  in_app_types : gmap string bool;
  quiet_hours_enabled : bool;
  quiet_start : option time;
  quiet_end : option time;
  do_not_disturb : bool;
  do_not_disturb_until : option datetime
}.

(** [getattr(self, name, {})] restricted to the three JSON maps: an
    attribute name outside them yields the default [{}]. *)
Definition getattr_types (self : t) (name : string) : gmap string bool :=
  if decide (name = "email_types") then email_types self
  else if decide (name = "push_types") then push_types self
  else if decide (name = "in_app_types") then in_app_types self
  else ∅.

(** [get_channel_type]: "the default channel type for preferences". *)
Definition get_channel_type (self : t) : string := "in_app".

(** The do-not-disturb block of [should_send_notification]: true when
    the block executes [return False]. *)
Definition dnd_blocks (self : t) (notification_time : datetime) : bool :=
  if do_not_disturb self then
    match do_not_disturb_until self with
    | Some until => bool_decide (notification_time < until)
    | None => false
    end
  else false.

(** The quiet-hours block: true when it executes [return False]. *)
Definition quiet_hours_block (self : t) (notification_time : datetime) : bool :=
  if quiet_hours_enabled self then
    match quiet_start self, quiet_end self with
    | Some qs, Some qe =>
        let current_time := datetime_time notification_time in
        if bool_decide (qs <= qe)
        then bool_decide (qs <= current_time) && bool_decide (current_time <= qe)
        else bool_decide (current_time >= qs) || bool_decide (current_time <= qe)
    | _, _ => false
    end
  else false.

(** [should_send_notification(self, notification_type, notification_time=None)];
    [now] is what [timezone.now()] returns when no time is passed. *)
Definition should_send_notification (self : t) (notification_type : string)
    (notification_time : option datetime) (now : datetime) : bool :=
  let notification_time := default now notification_time in
  if dnd_blocks self notification_time then false
  else if quiet_hours_block self notification_time then false
  else
    let type_preferences :=
      getattr_types self (get_channel_type self +:+ "_types") in
    match type_preferences !! notification_type with
    | Some allowed => allowed
    | None => true
    end.

(** The field defaults of the model class. *)
Definition defaults : t :=
  {| email_notifications := true; email_frequency := "immediate";
     push_notifications := true; in_app_notifications := true;
     email_types := ∅; push_types := ∅; in_app_types := ∅;
     quiet_hours_enabled := false; quiet_start := None; quiet_end := None;
     do_not_disturb := false; do_not_disturb_until := None |}.

End NotificationPreference.

(** The three type-allow maps by channel, as the model's help texts name
    them ("Notification types to email", "to push", "to show in-app"). *)
Definition channel_types (p : NotificationPreference.t) (c : Channel) : gmap string bool :=
  match c with
  | Email => NotificationPreference.email_types p
  | Push => NotificationPreference.push_types p
  | InApp => NotificationPreference.in_app_types p
  end.

(** Reading a type-allow map: an explicit entry, else allowed. *)
Definition type_allowed (m : gmap string bool) (notification_type : string) : bool :=
  match m !! notification_type with Some b => b | None => true end.

(** [should_deliver(pref, type, channel, at_time)] as the code answers it:
    every channel's dispatch path calls the same method, which has no
    channel argument. *)
Definition should_deliver (p : NotificationPreference.t) (notification_type : string)
    (c : Channel) (at_time : datetime) : bool :=
  NotificationPreference.should_send_notification p notification_type (Some at_time) at_time.

(** ** [models.py]: [NotificationHistory] *)

Module NotificationHistory.

Record t := mk {
  notification : Z;
  user : Z;
  channel : Channel;
  status : Status;
  created_at : datetime;
  delivered_at : option datetime;
  read_at : option datetime;
  clicked_at : option datetime;
  dismissed_at : option datetime;
  metadata : gmap string string
}.

(** [NotificationHistory.objects.create(notification=, user=, channel=,
    status=, metadata=)]: the remaining columns take their defaults and
    [created_at] is stamped ([auto_now_add]). *)
Definition new (n u : Z) (c : Channel) (s : Status) (md : gmap string string)
    (now : datetime) : t :=
  {| notification := n; user := u; channel := c; status := s; created_at := now;
     delivered_at := None; read_at := None; clicked_at := None;
     dismissed_at := None; metadata := md |}.

Definition mark_delivered (now : datetime) (self : t) : t :=
  if decide (status self ≠ Delivered) then
    {| notification := notification self; user := user self; channel := channel self;
       status := Delivered; created_at := created_at self;
       delivered_at := Some now; read_at := read_at self;
       clicked_at := clicked_at self; dismissed_at := dismissed_at self;
       metadata := metadata self |}
  else self.

Definition mark_read (now : datetime) (self : t) : t :=
  if decide (status self ≠ Read) then
    {| notification := notification self; user := user self; channel := channel self;
       status := Read; created_at := created_at self;
       delivered_at := delivered_at self; read_at := Some now;
       clicked_at := clicked_at self; dismissed_at := dismissed_at self;
       metadata := metadata self |}
  else self.

Definition mark_clicked (now : datetime) (self : t) : t :=
  if decide (status self ≠ Clicked) then
    {| notification := notification self; user := user self; channel := channel self;
       status := Clicked; created_at := created_at self;
       delivered_at := delivered_at self; read_at := read_at self;
       clicked_at := Some now; dismissed_at := dismissed_at self;
       metadata := metadata self |}
  else self.

Definition mark_dismissed (now : datetime) (self : t) : t :=
  if decide (status self ≠ Dismissed) then
    {| notification := notification self; user := user self; channel := channel self;
       status := Dismissed; created_at := created_at self;
       delivered_at := delivered_at self; read_at := read_at self;
       clicked_at := clicked_at self; dismissed_at := Some now;
       metadata := metadata self |}
  else self.

End NotificationHistory.

(** The four status-update operations, as data. *)
Inductive mark_op := MarkDelivered | MarkRead | MarkClicked | MarkDismissed.

Definition mark_target (op : mark_op) : Status :=
  match op with
  | MarkDelivered => Delivered | MarkRead => Read
  | MarkClicked => Clicked | MarkDismissed => Dismissed
  end.

Definition apply_mark (op : mark_op) (now : datetime)
    (h : NotificationHistory.t) : NotificationHistory.t :=
  match op with
  | MarkDelivered => NotificationHistory.mark_delivered now h
  | MarkRead => NotificationHistory.mark_read now h
  | MarkClicked => NotificationHistory.mark_clicked now h
  | MarkDismissed => NotificationHistory.mark_dismissed now h
  end.

(** The timestamp column an operation stamps. *)
Definition stamp_of (op : mark_op) (h : NotificationHistory.t) : option datetime :=
  match op with
  | MarkDelivered => NotificationHistory.delivered_at h
  | MarkRead => NotificationHistory.read_at h
  | MarkClicked => NotificationHistory.clicked_at h
  | MarkDismissed => NotificationHistory.dismissed_at h
  end.

(** The forward order of the specification, written from its words:
    created → sent → delivered → read → clicked/dismissed, with [failed]
    terminal.  [spec_rank] places a status on the happy path. *)
Definition spec_rank (s : Status) : Z :=
  match s with
  | Created => 0 | Sent => 1 | Delivered => 2 | Read => 3
  | Clicked => 4 | Dismissed => 4 | Failed => 5
  end.

Definition spec_terminal (s : Status) : bool :=
  match s with Clicked | Dismissed | Failed => true | _ => false end.

Definition spec_forward (s s' : Status) : Prop := spec_rank s <= spec_rank s'.

(** ** Python exceptions and outcomes

    [exn] lists the exception classes the modelled code raises or
    catches; [DoesNotExist m] is the [DoesNotExist] class of model [m]
    (for [MPreference], the error of reading the missing reverse side of
    the one-to-one field, which is a subclass of it).  [Unmodelled] marks
    a run that leaves the fragment of Python's format mini-language
    embedded below (attribute and index access, conversions, format
    specs); no handler catches it. *)

Inductive model := MUser | MNotification | MPreference | MHistory | MTemplate | MBatch.

#[global] Instance model_eq_dec : EqDecision model.
Proof. solve_decision. Defined.

Definition model_name (m : model) : string :=
  match m with
  | MUser => "User" | MNotification => "Notification"
  | MPreference => "User has no notificationpreference"
  | MHistory => "NotificationHistory" | MTemplate => "NotificationTemplate"
  | MBatch => "NotificationBatch"
  end.

Inductive exn :=
| DoesNotExist (m : model)
| MultipleObjectsReturned (m : model)
| AttributeError (msg : string)
| KeyError (key : string)
| IndexError (msg : string)
| ValueError (msg : string)
| NameError (name : string)
| TransportError (msg : string)
| DatabaseError (msg : string).

#[global] Instance exn_eq_dec : EqDecision exn.
Proof. solve_decision. Defined.

(** [str(e)] for the classes whose text the code reports. *)
Definition exn_str (e : exn) : string :=
  match e with
  | DoesNotExist MPreference => model_name MPreference +:+ "."
  | DoesNotExist m => model_name m +:+ " matching query does not exist."
  | MultipleObjectsReturned m => "get() returned more than one " +:+ model_name m
  | AttributeError msg => msg
  | KeyError key => "'" +:+ key +:+ "'"
  | IndexError msg => msg
  | ValueError msg => msg
  | NameError name => "name '" +:+ name +:+ "' is not defined"
  | TransportError msg => msg
  | DatabaseError msg => msg
  end.

Inductive outcome (A : Type) :=
| Done (a : A)
| Raised (e : exn)
| Unmodelled.

Arguments Done {A} a.
Arguments Raised {A} e.
Arguments Unmodelled {A}.

(** ** Characters and the regular expression of [forms.py]

    Strings are sequences of 8-bit characters read as code points
    0..255.  [is_word] is the class [\w] of a [str] pattern on that
    range: alphanumeric characters (in the sense of [str.isalnum]) and
    the underscore. *)

Definition is_digit (c : ascii) : bool :=
  let n := N_of_ascii c in ((48 <=? n) && (n <=? 57))%N.

Definition is_word (c : ascii) : bool :=
  let n := N_of_ascii c in
  (is_digit c
   || ((65 <=? n) && (n <=? 90)) || ((97 <=? n) && (n <=? 122)) || (n =? 95)
   || (n =? 170) || (n =? 178) || (n =? 179) || (n =? 181) || (n =? 185) || (n =? 186)
   || ((188 <=? n) && (n <=? 190))
   || ((192 <=? n) && (n <=? 214)) || ((216 <=? n) && (n <=? 246))
   || ((248 <=? n) && (n <=? 255)))%N.

Definition snoc (s : string) (c : ascii) : string := s +:+ String c "".

(** [re.findall(r'\{(\w+)\}', s)] as one left-to-right pass.  [st] is
    [Some acc] while a candidate match is open ([acc] is the run of word
    characters read since its brace).  A candidate fails on the first
    character that is neither a word character nor a closing brace after
    a non-empty run; the characters skipped were word characters, so the
    search resumes at the failing character, which opens a new candidate
    exactly when it is an opening brace. *)
Fixpoint findall_from (s : string) (st : option string) : list string :=
  match s with
  | "" => []
  | String c rest =>
      match st with
      | None =>
          if decide (c = "{"%char) then findall_from rest (Some "")
          else findall_from rest None
      | Some acc =>
          if is_word c then findall_from rest (Some (snoc acc c))
          else if bool_decide (c = "}"%char) && negb (bool_decide (acc = ""))
               then acc :: findall_from rest None
          else if decide (c = "{"%char) then findall_from rest (Some "")
          else findall_from rest None
      end
  end.

Definition findall_placeholders (s : string) : list string := findall_from s None.

(** ** [str.format] with keyword arguments

    The markup iterator of [str.format], one character at a time.
    [Text]: literal text.  [Open]: an opening brace was read (doubled it
    is a literal brace, otherwise a replacement field starts).  [Close]:
    a closing brace was read outside a field and must be doubled.
    [Field name]: inside a replacement field. *)

Inductive fstate := Text | Open | Close | Field (name : string).

Fixpoint all_digits (s : string) : bool :=
  match s with
  | "" => true
  | String c rest => is_digit c && all_digits rest
  end.

(** The index a digit string denotes, as [str.format] prints it in its
    error: leading zeros dropped; the empty name is the first automatic
    index, 0. *)
Fixpoint strip_zeros (s : string) : string :=
  match s with
  | "" => ""
  | String c rest => if decide (c = "0"%char) then strip_zeros rest else s
  end.

Definition index_text (name : string) : string :=
  if bool_decide (strip_zeros name = "") then "0" else strip_zeros name.

(** Resolving a field name against a call with keyword arguments only:
    an empty or numeric name indexes the (empty) positional arguments,
    any other name is a keyword.  Numbers of more than 18 digits are
    left outside the fragment (the index parser has its own overflow
    error). *)
Definition get_field (name : string) (kwargs : gmap string string) : outcome string :=
  if all_digits name then
    if bool_decide (String.length name ≤ 18)%nat
    then Raised (IndexError ("Replacement index " +:+ index_text name
                             +:+ " out of range for positional args tuple"))
    else Unmodelled
  else
    match kwargs !! name with
    | Some v => Done v
    | None => Raised (KeyError name)
    end.

Inductive field_char := FieldEnd | FieldBrace | FieldBeyond | FieldPlain.

Definition classify (c : ascii) : field_char :=
  if decide (c = "}"%char) then FieldEnd
  else if decide (c = "{"%char) then FieldBrace
  else if bool_decide (c = "["%char) || bool_decide (c = "."%char)
          || bool_decide (c = "!"%char) || bool_decide (c = ":"%char) then FieldBeyond
  else FieldPlain.

Fixpoint format_from (s : string) (st : fstate) (out : string)
    (kwargs : gmap string string) : outcome string :=
  match s with
  | "" =>
      match st with
      | Text => Done out
      | Open => Raised (ValueError "Single '{' encountered in format string")
      | Close => Raised (ValueError "Single '}' encountered in format string")
      | Field _ => Raised (ValueError "expected '}' before end of string")
      end
  | String c rest =>
      let in_field (name : string) :=
        match classify c with
        | FieldEnd =>
            match get_field name kwargs with
            | Done v => format_from rest Text (out +:+ v) kwargs
            | Raised e => Raised e
            | Unmodelled => Unmodelled
            end
        | FieldBrace => Raised (ValueError "unexpected '{' in field name")
        | FieldBeyond => Unmodelled
        | FieldPlain => format_from rest (Field (snoc name c)) out kwargs
        end in
      match st with
      | Text =>
          if decide (c = "{"%char) then format_from rest Open out kwargs
          else if decide (c = "}"%char) then format_from rest Close out kwargs
          else format_from rest Text (snoc out c) kwargs
      | Open =>
          if decide (c = "{"%char) then format_from rest Text (snoc out c) kwargs
          else in_field ""
      | Close =>
          if decide (c = "}"%char) then format_from rest Text (snoc out c) kwargs
          else Raised (ValueError "Single '}' encountered in format string")
      | Field name => in_field name
      end
  end.

Definition str_format (template : string) (kwargs : gmap string string) : outcome string :=
  format_from template Text "" kwargs.

(** The keyword names a format string looks up, in order, when the whole
    string is literal text, doubled braces and replacement fields that
    are plain keyword names; [None] for every other string. *)
Fixpoint format_keys_from (s : string) (st : fstate) : option (list string) :=
  match s with
  | "" => match st with Text => Some [] | _ => None end
  | String c rest =>
      let in_field (name : string) :=
        match classify c with
        | FieldEnd =>
            if all_digits name then None
            else cons name <$> format_keys_from rest Text
        | FieldBrace | FieldBeyond => None
        | FieldPlain => format_keys_from rest (Field (snoc name c))
        end in
      match st with
      | Text =>
          if decide (c = "{"%char) then format_keys_from rest Open
          else if decide (c = "}"%char) then format_keys_from rest Close
          else format_keys_from rest Text
      | Open =>
          if decide (c = "{"%char) then format_keys_from rest Text
          else in_field ""
      | Close =>
          if decide (c = "}"%char) then format_keys_from rest Text
          else None
      | Field name => in_field name
      end
  end.

Definition format_keys (template : string) : option (list string) :=
  format_keys_from template Text.

Definition obind {A B : Type} (o : outcome A) (k : A → outcome B) : outcome B :=
  match o with
  | Done a => k a
  | Raised e => Raised e
  | Unmodelled => Unmodelled
  end.

(** ** [django.contrib.auth]: [User]

    [full_name] is what [get_full_name()] returns.
    [notificationpreference] is the reverse side of the one-to-one field
    ([None]: no preference row, the attribute access raises).
    [push_notification_token] is [None] when the object has no such
    attribute. *)

Module User.

Record t := mk {
  id : Z;
  username : string;
  full_name : string;
  email : string;
  notificationpreference : option NotificationPreference.t;
  push_notification_token : option string
}.

End User.

(** Truthiness of a [str]. *)
Definition str_truthy (s : string) : bool := negb (bool_decide (s = "")).

(** [a or b] on strings. *)
Definition str_or (a b : string) : string := if str_truthy a then a else b.

(** ** [models.py]: [Notification] *)

Module Notification.

(** The columns of the model class.  The JSON payload [data] is only
    copied into messages and is left out. *)
Record t := mk {
  id : Z;
  user : Z;
  title : string;
  message : string;
  notification_type : string;
  is_read : bool;
  is_priority : bool;
  is_archived : bool;
  created_at : datetime;
  read_at : option datetime;
  expires_at : option datetime;
  source : string;
  target_url : string;
  action_required : bool
}.

Definition is_expired (self : t) (now : datetime) : bool :=
  match expires_at self with
  | Some e => bool_decide (now > e)
  | None => false
  end.

End Notification.

(** ** [models.py]: [NotificationTemplate] *)

(** The dictionary [render] returns. *)
Record rendered := mk_rendered {
  r_title : string;
  r_message : string;
  r_notification_type : string;
  r_is_priority : bool;
  r_action_required : bool;
  r_target_url : string
}.

Module NotificationTemplate.

Record t := mk {
  id : Z;
  name : string;
  title_template : string;
  message_template : string;
  notification_type : string;
  template_variables : gmap string string;
  is_priority : bool;
  default_target_url : string;
  action_required : bool;
  usage_count : Z;
  last_used : option datetime
}.

(** [render(self, context=None)]: the title is formatted first, then the
    message; the first exception ends the call. *)
Definition render (self : t) (context : option (gmap string string)) : outcome rendered :=
  let context := default ∅ context in
  obind (str_format (title_template self) context) (λ title,
  obind (str_format (message_template self) context) (λ message,
  Done {| r_title := title; r_message := message;
          r_notification_type := notification_type self;
          r_is_priority := is_priority self;
          r_action_required := action_required self;
          r_target_url := default (default_target_url self) (context !! "target_url") |})).

(** In-memory effect of the usage update of [create_notification]. *)
Definition bump_usage (now : datetime) (self : t) : t :=
  {| id := id self; name := name self; title_template := title_template self;
     message_template := message_template self;
     notification_type := notification_type self;
     template_variables := template_variables self;
     is_priority := is_priority self; default_target_url := default_target_url self;
     action_required := action_required self;
     usage_count := usage_count self + 1; last_used := Some now |}.

(** [save(update_fields=['usage_count', 'last_used'])] seen from the
    stored row: only the two columns are written. *)
Definition write_usage (self row : t) : t :=
  {| id := id row; name := name row; title_template := title_template row;
     message_template := message_template row;
     notification_type := notification_type row;
     template_variables := template_variables row;
     is_priority := is_priority row; default_target_url := default_target_url row;
     action_required := action_required row;
     usage_count := usage_count self; last_used := last_used self |}.

End NotificationTemplate.

(** ** [forms.py]: [NotificationTemplateForm.clean]

    [template_variables] is the cleaned value of the JSON field: [None]
    when the field produced no value, else the declared map.  The result
    is [inl missing] when a [ValidationError] is raised for the set
    [missing], and [inr tt] when the cleaned data is returned. *)

Definition dict_truthy {V : Type} (d : option (gmap string V)) : bool :=
  match d with
  | Some m => negb (bool_decide (m = ∅))
  | None => false
  end.

Definition template_placeholders (title_template message_template : string) : gset string :=
  let title_vars : gset string := list_to_set (findall_placeholders title_template) in
  let message_vars : gset string := list_to_set (findall_placeholders message_template) in
  title_vars ∪ message_vars.

Definition NotificationTemplateForm_clean (title_template message_template : string)
    (template_variables : option (gmap string string)) : gset string + unit :=
  let all_vars := template_placeholders title_template message_template in
  if dict_truthy template_variables then
    let template_vars : gset string := dom (default ∅ template_variables) in
    let missing_vars := all_vars ∖ template_vars in
    if bool_decide (missing_vars ≠ ∅) then inl missing_vars else inr tt
  else inr tt.

(** ** [models.py]: [NotificationBatch] *)

Inductive batch_status := Pending | Sending | Completed | BatchFailed.

#[global] Instance batch_status_eq_dec : EqDecision batch_status.
Proof. solve_decision. Defined.

(** An entry of [metadata['user_ids']]: a value Django converts to a
    primary key, or one it rejects with [ValueError]. *)
Inductive recipient_id := Pk (pk : Z) | Malformed (raw : string).

Module NotificationBatch.

Record t := mk {
  id : Z;
  name : string;
  total_count : Z;
  sent_count : Z;
  delivered_count : Z;
  read_count : Z;
  failed_count : Z;
  status : batch_status;
  created_at : datetime;
  started_at : option datetime;
  completed_at : option datetime;
  template : option Z;
  context : gmap string string;
  user_ids : option (list recipient_id)
}.

Definition set_status (s : batch_status) (started completed : option datetime) (self : t) : t :=
  {| id := id self; name := name self; total_count := total_count self;
     sent_count := sent_count self; delivered_count := delivered_count self;
     read_count := read_count self; failed_count := failed_count self;
     status := s; created_at := created_at self;
     started_at := started; completed_at := completed;
     template := template self; context := context self; user_ids := user_ids self |}.

Definition set_counts (sent failed : Z) (self : t) : t :=
  {| id := id self; name := name self; total_count := total_count self;
     sent_count := sent; delivered_count := delivered_count self;
     read_count := read_count self; failed_count := failed;
     status := status self; created_at := created_at self;
     started_at := started_at self; completed_at := completed_at self;
     template := template self; context := context self; user_ids := user_ids self |}.

(** In-memory effect of [start_sending], [complete] and [fail]. *)
Definition start_sending (now : datetime) (self : t) : t :=
  set_status Sending (Some now) (completed_at self) self.

Definition complete (now : datetime) (self : t) : t :=
  set_status Completed (started_at self) (Some now) self.

Definition fail (now : datetime) (self : t) : t :=
  set_status BatchFailed (started_at self) (Some now) self.

(** [batch.sent_count += 1] and [batch.failed_count += 1]. *)
Definition incr_sent (self : t) : t := set_counts (sent_count self + 1) (failed_count self) self.
Definition incr_failed (self : t) : t := set_counts (sent_count self) (failed_count self + 1) self.

End NotificationBatch.

(** [create_notification_batch] of [views.py] (and [send_batch_notification]):
    the row a bulk-send request stores, [total_count=len(user_ids)]. *)
Definition new_batch (id : Z) (name : string) (template : Z)
    (context : gmap string string) (user_ids : list recipient_id) (now : datetime)
    : NotificationBatch.t :=
  {| NotificationBatch.id := id; NotificationBatch.name := name;
     NotificationBatch.total_count := Z.of_nat (List.length user_ids);
     NotificationBatch.sent_count := 0; NotificationBatch.delivered_count := 0;
     NotificationBatch.read_count := 0; NotificationBatch.failed_count := 0;
     NotificationBatch.status := Pending; NotificationBatch.created_at := now;
     NotificationBatch.started_at := None; NotificationBatch.completed_at := None;
     NotificationBatch.template := Some template;
     NotificationBatch.context := context;
     NotificationBatch.user_ids := Some user_ids |}.

(** ** The world

    Database tables, the trace of externally visible actions and the
    auto-increment counter of the notification table. *)

Inductive level := Info | Warning | Error.

Inductive event :=
| GroupSend (user_id notification_id : Z)
| SendMail (subject body recipient : string)
| HelperDelay (c : Channel) (notification_id user_id : Z)
| TaskDelay (c : Channel) (notification_id user_id : Z)
| Log (l : level) (msg : string).

#[global] Instance level_eq_dec : EqDecision level.
Proof. solve_decision. Defined.

#[global] Instance event_eq_dec : EqDecision event.
Proof. solve_decision. Defined.

Record world := mk_world {
  users : gmap Z User.t;
  notifications : list Notification.t;
  history : list NotificationHistory.t;
  templates : gmap Z NotificationTemplate.t;
  batches : gmap Z NotificationBatch.t;
  trace : list event;
  notification_seq : Z
}.

Definition with_notifications (ns : list Notification.t) (seq : Z) (w : world) : world :=
  mk_world (users w) ns (history w) (templates w) (batches w) (trace w) seq.

Definition with_history (h : list NotificationHistory.t) (w : world) : world :=
  mk_world (users w) (notifications w) h (templates w) (batches w) (trace w)
           (notification_seq w).

Definition with_templates (ts : gmap Z NotificationTemplate.t) (w : world) : world :=
  mk_world (users w) (notifications w) (history w) ts (batches w) (trace w)
           (notification_seq w).

Definition with_batches (bs : gmap Z NotificationBatch.t) (w : world) : world :=
  mk_world (users w) (notifications w) (history w) (templates w) bs (trace w)
           (notification_seq w).

Definition with_trace (tr : list event) (w : world) : world :=
  mk_world (users w) (notifications w) (history w) (templates w) (batches w) tr
           (notification_seq w).

(** The environment of one run: the clock ([timezone.now()]), and for
    each transport whether a call goes through ([None]) or raises. *)
Record env := mk_env {
  now : datetime;
  group_send_error : option exn;
  send_mail_error : option exn;
  broker_error : option exn
}.

(** ** A state-and-exception monad

    [M S A]: a computation over state [S] that returns an [A], raises, or
    leaves the modelled fragment.  State changes made before an exception
    stay (the database is in autocommit mode). *)

Definition M (S A : Type) : Type := S → outcome A * S.

Definition ret {S A : Type} (a : A) : M S A := λ s, (Done a, s).

Definition bind {S A B : Type} (m : M S A) (k : A → M S B) : M S B :=
  λ s, match m s with
       | (Done a, s') => k a s'
       | (Raised e, s') => (Raised e, s')
       | (Unmodelled, s') => (Unmodelled, s')
       end.

Definition raise {S A : Type} (e : exn) : M S A := λ s, (Raised e, s).

Definition lift {S A : Type} (o : outcome A) : M S A := λ s, (o, s).

Definition gets {S A : Type} (f : S → A) : M S A := λ s, (Done (f s), s).

Definition modify {S : Type} (f : S → S) : M S unit := λ s, (Done tt, f s).

(** [try: body except ...: handler]: the handler sees the exception and
    re-raises what its clauses do not match. *)
Definition try_except {S A : Type} (body : M S A) (handler : exn → M S A) : M S A :=
  λ s, match body s with
       | (Raised e, s') => handler e s'
       | r => r
       end.

Notation "'let*' x ':=' m 'in' k" := (bind m (λ x, k))
  (at level 10, x pattern, m at level 100, k at level 200).
Notation "m ';;' k" := (bind m (λ _, k))
  (at level 100, k at level 200, right associativity).

Section WithEnv.

Variable E : env.

(** *** Transports and logging *)

Definition emit (e : event) : M world unit :=
  modify (λ w, with_trace (trace w ++ [e]) w).

Definition log (l : level) (msg : string) : M world unit := emit (Log l msg).

Definition external (err : option exn) (e : event) : M world unit :=
  match err with
  | Some x => raise x
  | None => emit e
  end.

(** [async_to_sync(channel_layer.group_send)(...)]. *)
Definition group_send (user_id notification_id : Z) : M world unit :=
  external (group_send_error E) (GroupSend user_id notification_id).

(** [send_mail(subject, message, from_email, [user.email], ...)]. *)
Definition send_mail (subject body recipient : string) : M world unit :=
  external (send_mail_error E) (SendMail subject body recipient).

(** [<task>.delay(notification_id, user_id)] on a Celery task of
    [tasks.py]: the call is handed to the broker. *)
Definition task_delay (c : Channel) (notification_id user_id : Z) : M world unit :=
  external (broker_error E) (TaskDelay c notification_id user_id).

(** [send_notification_email_task.delay(...)] and
    [send_notification_push_task.delay(...)] in [signals.py]: the two
    helpers are plain module-level functions, which have no attribute
    [delay]; the statement is recorded and raises [AttributeError]. *)
Definition helper_delay (c : Channel) (notification_id user_id : Z) : M world unit :=
  emit (HelperDelay c notification_id user_id) ;;
  raise (AttributeError "'function' object has no attribute 'delay'").

(** *** ORM queries *)

Definition User_objects_get (rid : recipient_id) : M world User.t :=
  match rid with
  | Pk pk =>
      let* us := gets users in
      match us !! pk with
      | Some u => ret u
      | None => raise (DoesNotExist MUser)
      end
  | Malformed raw => raise (ValueError ("Field 'id' expected a number but got " +:+ raw))
  end.

Definition Notification_objects_get (notification_id : Z) : M world Notification.t :=
  let* ns := gets notifications in
  match List.find (λ n, bool_decide (Notification.id n = notification_id)) ns with
  | Some n => ret n
  | None => raise (DoesNotExist MNotification)
  end.

(** [user.notificationpreference]. *)
Definition user_preference (u : User.t) : M world NotificationPreference.t :=
  match User.notificationpreference u with
  | Some p => ret p
  | None => raise (DoesNotExist MPreference)
  end.

Definition NotificationHistory_objects_create (row : NotificationHistory.t) : M world unit :=
  modify (λ w, with_history (history w ++ [row]) w).

(** [NotificationHistory.objects.get(notification=, user=, status=)]:
    the matching row with its position in the table. *)
Definition NotificationHistory_objects_get (notification_id user_id : Z) (s : Status)
    : M world (nat * NotificationHistory.t) :=
  let* h := gets history in
  match List.filter (λ ir : nat * NotificationHistory.t,
                       bool_decide (NotificationHistory.notification ir.2 = notification_id)
                       && bool_decide (NotificationHistory.user ir.2 = user_id)
                       && bool_decide (NotificationHistory.status ir.2 = s))
                    (imap pair h) with
  | [] => raise (DoesNotExist MHistory)
  | [ir] => ret ir
  | _ => raise (MultipleObjectsReturned MHistory)
  end.

(** [history.save(update_fields=...)] for the row at position [i]. *)
Definition NotificationHistory_save (i : nat) (row : NotificationHistory.t) : M world unit :=
  modify (λ w, with_history (<[i := row]> (history w)) w).

(** *** [signals.py] *)

Definition create_notification_history (instance : Notification.t) (created : bool)
    : M world unit :=
  if created then
    NotificationHistory_objects_create
      (NotificationHistory.new (Notification.id instance) (Notification.user instance)
         InApp Created ∅ (now E))
  else ret tt.

(** [instance.user]. *)
Definition instance_user (instance : Notification.t) : M world User.t :=
  User_objects_get (Pk (Notification.user instance)).

(** [hasattr(user, 'push_notification_token') and user.push_notification_token]. *)
Definition has_push_token (u : User.t) : bool :=
  match User.push_notification_token u with
  | Some tok => str_truthy tok
  | None => false
  end.

(** The two [except] clauses of [send_notification_via_channels]. *)
Definition dispatch_handler (e : exn) : M world unit :=
  match e with
  | DoesNotExist MPreference => log Warning "No notification preferences found"
  | _ => log Error "Error sending notification"
  end.

Definition send_notification_via_channels (instance : Notification.t) (created : bool)
    : M world unit :=
  if negb created then ret tt
  else
    try_except
      (let* user := instance_user instance in
       let* preference := user_preference user in
       if negb (NotificationPreference.should_send_notification preference
                  (Notification.notification_type instance) None (now E))
       then log Info "Skipping notification - type disabled"
       else
         (if NotificationPreference.in_app_notifications preference then
            group_send (User.id user) (Notification.id instance) ;;
            try_except
              (let* ir := NotificationHistory_objects_get
                            (Notification.id instance) (User.id user) Created in
               NotificationHistory_save ir.1
                 (NotificationHistory.mark_delivered (now E) ir.2))
              (λ e, match e with
                    | DoesNotExist MHistory =>
                        NotificationHistory_objects_create
                          (NotificationHistory.new (Notification.id instance)
                             (User.id user) InApp Delivered ∅ (now E))
                    | _ => raise e
                    end)
          else ret tt) ;;
         (if NotificationPreference.email_notifications preference
             && bool_decide (NotificationPreference.email_frequency preference = "immediate")
          then helper_delay Email (Notification.id instance) (User.id user)
          else ret tt) ;;
         (if NotificationPreference.push_notifications preference then
            if has_push_token user
            then helper_delay Push (Notification.id instance) (User.id user)
            else ret tt
          else ret tt) ;;
         log Info "Notification sent")
      dispatch_handler.

(** [instance.scheduled_time]: class [Notification] declares no such
    field and nothing sets the attribute on the instance that
    [objects.create] builds, so the read raises [AttributeError]. *)
Definition scheduled_time_error : exn :=
  AttributeError "'Notification' object has no attribute 'scheduled_time'".

Definition Notification_scheduled_time (instance : Notification.t)
    : M world (option datetime) :=
  raise scheduled_time_error.

(** [not created or not instance.scheduled_time] reads the attribute
    only when [created] is true. *)
Definition handle_scheduled_notifications (instance : Notification.t) (created : bool)
    : M world unit :=
  if negb created then ret tt
  else
    let* scheduled_time := Notification_scheduled_time instance in
    match scheduled_time with
    | None => ret tt
    | Some scheduled =>
        if bool_decide (scheduled > now E) then log Info "Scheduled notification"
        else
          let* user := instance_user instance in
          task_delay InApp (Notification.id instance) (User.id user) ;;
          try_except
            (let* preference := user_preference user in
             (if NotificationPreference.email_notifications preference
              then task_delay Email (Notification.id instance) (User.id user)
              else ret tt) ;;
             (if NotificationPreference.push_notifications preference
                 && bool_decide (is_Some (User.push_notification_token user))
              then task_delay Push (Notification.id instance) (User.id user)
              else ret tt))
            (λ e, match e with
                  | DoesNotExist MPreference => ret tt
                  | _ => raise e
                  end) ;;
          log Info "Sent scheduled notification"
    end.

(** [Notification.objects.create(...)]: the row is inserted, then the
    post-save receivers run in registration order with [created=True];
    an exception a receiver lets out ends the call, the row stays.
    (The pre-save receiver only acts on rows that already exist.) *)
Definition Notification_objects_create (user : Z) (title message notification_type : string)
    (is_priority action_required : bool) (target_url source : string)
    : M world Notification.t :=
  let* seq := gets notification_seq in
  let instance :=
    {| Notification.id := seq + 1; Notification.user := user;
       Notification.title := title; Notification.message := message;
       Notification.notification_type := notification_type;
       Notification.is_read := false; Notification.is_priority := is_priority;
       Notification.is_archived := false; Notification.created_at := now E;
       Notification.read_at := None; Notification.expires_at := None;
       Notification.source := source; Notification.target_url := target_url;
       Notification.action_required := action_required |} in
  modify (λ w, with_notifications (notifications w ++ [instance]) (seq + 1) w) ;;
  create_notification_history instance true ;;
  send_notification_via_channels instance true ;;
  handle_scheduled_notifications instance true ;;
  ret instance.

(** *** [models.py]: [NotificationTemplate.create_notification]

    Returns the notification together with [self] after the call.
    [save(update_fields=...)] updates the stored row of the template and
    raises [DatabaseError] when there is none. *)
Definition create_notification (self : NotificationTemplate.t) (user : User.t)
    (context : option (gmap string string))
    : M world (Notification.t * NotificationTemplate.t) :=
  let* rendered := lift (NotificationTemplate.render self context) in
  let* notification :=
    Notification_objects_create (User.id user) (r_title rendered) (r_message rendered)
      (r_notification_type rendered) (r_is_priority rendered)
      (r_action_required rendered) (r_target_url rendered)
      ("template:" +:+ NotificationTemplate.name self) in
  let self' := NotificationTemplate.bump_usage (now E) self in
  let* ts := gets templates in
  match ts !! NotificationTemplate.id self' with
  | Some _ =>
      modify (λ w, with_templates
                     (alter (NotificationTemplate.write_usage self')
                            (NotificationTemplate.id self') (templates w)) w)
  | None => raise (DatabaseError "Save with update_fields did not affect any rows.")
  end ;;
  ret (notification, self').

(** *** [tasks.py]: the channel senders

    A task returns a dictionary: [success], a [reason] on failure, and
    integer entries otherwise. *)

Record report := mk_report {
  success : bool;
  reason : option string;
  counts : list (string * Z)
}.

Definition ok_report (entries : list (string * Z)) : report :=
  {| success := true; reason := None; counts := entries |}.

Definition not_ok (why : string) : report :=
  {| success := false; reason := Some why; counts := [] |}.

(** The preference block shared by the three senders, for the master
    switch [enabled] of the sender's channel: [Some r] when the block
    returns [r], [None] when control falls through to the send. *)
Definition preference_gate (enabled : NotificationPreference.t → bool) (disabled : string)
    (user : User.t) (notification : Notification.t) : M world (option report) :=
  try_except
    (let* preference := user_preference user in
     if negb (enabled preference
              && NotificationPreference.should_send_notification preference
                   (Notification.notification_type notification) None (now E))
     then ret (Some (not_ok disabled))
     else ret None)
    (λ _, ret (Some (not_ok "User preferences not found"))).

(** The three outer [except] clauses the senders share. *)
Definition sender_handler (task : string) (e : exn) : M world report :=
  match e with
  | DoesNotExist MNotification =>
      log Error "Notification not found" ;; ret (not_ok "Notification not found")
  | DoesNotExist MUser =>
      log Error "User not found" ;; ret (not_ok "User not found")
  | _ => log Error ("Error in " +:+ task +:+ " task") ;; ret (not_ok (exn_str e))
  end.

Definition send_notification_email (notification_id user_id : Z) : M world report :=
  try_except
    (let* notification := Notification_objects_get notification_id in
     let* user := User_objects_get (Pk user_id) in
     let* gate := preference_gate NotificationPreference.email_notifications
                    "Email notifications disabled for this type" user notification in
     match gate with
     | Some r => ret r
     | None =>
         try_except
           (send_mail (Notification.title notification) (Notification.message notification)
              (User.email user) ;;
            NotificationHistory_objects_create
              (NotificationHistory.new notification_id user_id Email Sent ∅ (now E)) ;;
            log Info "Email notification sent" ;;
            ret (ok_report [("user_id", user_id); ("notification_id", notification_id)]))
           (λ e,
            log Error "Failed to send email" ;;
            NotificationHistory_objects_create
              (NotificationHistory.new notification_id user_id Email Failed
                 {[ "error" := exn_str e ]} (now E)) ;;
            ret (not_ok (exn_str e)))
     end)
    (sender_handler "send_notification_email").

Definition send_notification_push (notification_id user_id : Z) : M world report :=
  try_except
    (let* notification := Notification_objects_get notification_id in
     let* user := User_objects_get (Pk user_id) in
     let* gate := preference_gate NotificationPreference.push_notifications
                    "Push notifications disabled for this type" user notification in
     match gate with
     | Some r => ret r
     | None =>
         if negb (has_push_token user)
         then log Warning "No push token found" ;; ret (not_ok "No push token found")
         else
           NotificationHistory_objects_create
             (NotificationHistory.new notification_id user_id Push Sent ∅ (now E)) ;;
           log Info "Push notification sent" ;;
           ret (ok_report [("user_id", user_id); ("notification_id", notification_id)])
     end)
    (sender_handler "send_notification_push").

Definition send_realtime_notification (notification_id user_id : Z) : M world report :=
  try_except
    (let* notification := Notification_objects_get notification_id in
     let* user := User_objects_get (Pk user_id) in
     let* gate := preference_gate NotificationPreference.in_app_notifications
                    "In-app notifications disabled for this type" user notification in
     match gate with
     | Some r => ret r
     | None =>
         group_send user_id (Notification.id notification) ;;
         NotificationHistory_objects_create
           (NotificationHistory.new notification_id user_id InApp Delivered ∅ (now E)) ;;
         log Info "Real-time notification sent" ;;
         ret (ok_report [("user_id", user_id); ("notification_id", notification_id)])
     end)
    (sender_handler "send_realtime_notification").

(** *** [tasks.py]: [process_notification_batch]

    The task's local objects live in a [frame] next to the world:
    [batch] (unbound until the row is loaded), the template instance
    reached through [batch.template] (fetched on first access, then the
    same object), and the list [created_notifications]. *)

Record frame := mk_frame {
  f_world : world;
  batch : option NotificationBatch.t;
  template_cache : option NotificationTemplate.t;
  created_notifications : list Notification.t
}.

Definition in_world {A : Type} (m : M world A) : M frame A :=
  λ f, let (r, w) := m (f_world f) in
       (r, mk_frame w (batch f) (template_cache f) (created_notifications f)).

Definition bind_batch (b : NotificationBatch.t) : M frame unit :=
  modify (λ f, mk_frame (f_world f) (Some b) (template_cache f) (created_notifications f)).

(** Reading the local [batch]. *)
Definition the_batch : M frame NotificationBatch.t :=
  let* b := gets batch in
  match b with
  | Some b => ret b
  | None => raise (NameError "batch")
  end.

(** A method call that updates the in-memory [batch] and saves the
    columns [write] copies from it into the stored row;
    [save(update_fields=...)] raises [DatabaseError] when the row is
    gone. *)
Definition batch_update (f : NotificationBatch.t → NotificationBatch.t)
    (write : NotificationBatch.t → NotificationBatch.t → NotificationBatch.t)
    : M frame unit :=
  let* b := the_batch in
  bind_batch (f b) ;;
  let* bs := in_world (gets batches) in
  match bs !! NotificationBatch.id b with
  | Some _ =>
      in_world (modify (λ w, with_batches
                               (alter (write (f b)) (NotificationBatch.id b) (batches w)) w))
  | None => raise (DatabaseError "Save with update_fields did not affect any rows.")
  end.

Definition write_started (self row : NotificationBatch.t) : NotificationBatch.t :=
  NotificationBatch.set_status (NotificationBatch.status self)
    (NotificationBatch.started_at self) (NotificationBatch.completed_at row) row.

Definition write_completed (self row : NotificationBatch.t) : NotificationBatch.t :=
  NotificationBatch.set_status (NotificationBatch.status self)
    (NotificationBatch.started_at row) (NotificationBatch.completed_at self) row.

Definition write_sent (self row : NotificationBatch.t) : NotificationBatch.t :=
  NotificationBatch.set_counts (NotificationBatch.sent_count self)
    (NotificationBatch.failed_count row) row.

Definition write_failed (self row : NotificationBatch.t) : NotificationBatch.t :=
  NotificationBatch.set_counts (NotificationBatch.sent_count row)
    (NotificationBatch.failed_count self) row.

(** [batch.template]. *)
Definition batch_template : M frame NotificationTemplate.t :=
  let* cached := gets template_cache in
  match cached with
  | Some t => ret t
  | None =>
      let* b := the_batch in
      match NotificationBatch.template b with
      | None => raise (AttributeError "'NoneType' object has no attribute 'create_notification'")
      | Some tid =>
          let* ts := in_world (gets templates) in
          match ts !! tid with
          | Some t =>
              modify (λ f, mk_frame (f_world f) (batch f) (Some t) (created_notifications f)) ;;
              ret t
          | None => raise (DoesNotExist MTemplate)
          end
      end
  end.

Fixpoint for_each {S A : Type} (l : list A) (body : A → M S unit) : M S unit :=
  match l with
  | [] => ret tt
  | x :: rest => body x ;; for_each rest body
  end.

(** The two [except] clauses of the loop body. *)
Definition recipient_handler (e : exn) : M frame unit :=
  match e with
  | DoesNotExist MUser =>
      in_world (log Warning "User not found, skipping") ;;
      batch_update NotificationBatch.incr_failed write_failed
  | _ =>
      in_world (log Error "Error creating notification for user") ;;
      batch_update NotificationBatch.incr_failed write_failed
  end.

(** The body of the [for user_id in user_ids] loop. *)
Definition process_recipient (user_id : recipient_id) : M frame unit :=
  try_except
    (let* user := in_world (User_objects_get user_id) in
     let* b := the_batch in
     let context :=
       <["user_email" := User.email user]>
         (<["user_name" := str_or (User.full_name user) (User.username user)]>
            (NotificationBatch.context b)) in
     let* template := batch_template in
     let* created := in_world (create_notification template user (Some context)) in
     modify (λ f, mk_frame (f_world f) (batch f) (Some created.2)
                    (created_notifications f ++ [created.1])) ;;
     batch_update NotificationBatch.incr_sent write_sent ;;
     in_world (task_delay InApp (Notification.id created.1) (User.id user)) ;;
     let* p := in_world (user_preference user) in
     (if NotificationPreference.email_notifications p
      then in_world (task_delay Email (Notification.id created.1) (User.id user))
      else ret tt) ;;
     let* p := in_world (user_preference user) in
     (if NotificationPreference.push_notifications p
      then in_world (task_delay Push (Notification.id created.1) (User.id user))
      else ret tt))
    recipient_handler.

Definition process_notification_batch_body (batch_id : Z) : M frame report :=
  try_except
    (let* bs := in_world (gets batches) in
     match bs !! batch_id with
     | None => raise (DoesNotExist MBatch)
     | Some b =>
         bind_batch b ;;
         if bool_decide (NotificationBatch.status b ≠ Pending)
         then in_world (log Error "Batch is not in pending status") ;;
              ret (not_ok "Batch not in pending status")
         else
           batch_update (NotificationBatch.start_sending (now E)) write_started ;;
           let user_ids := default [] (NotificationBatch.user_ids b) in
           match user_ids with
           | [] =>
               in_world (log Error "No user IDs found in batch") ;;
               batch_update (NotificationBatch.fail (now E)) write_completed ;;
               ret (not_ok "No user IDs found")
           | _ =>
               for_each user_ids process_recipient ;;
               batch_update (NotificationBatch.complete (now E)) write_completed ;;
               in_world (log Info "Batch processed successfully") ;;
               let* created := gets created_notifications in
               let* b := the_batch in
               ret (ok_report [("batch_id", batch_id);
                               ("created_count", Z.of_nat (List.length created));
                               ("failed_count", NotificationBatch.failed_count b)])
           end
     end)
    (λ e,
     match e with
     | DoesNotExist MBatch =>
         in_world (log Error "Batch not found") ;; ret (not_ok "Batch not found")
     | _ =>
         in_world (log Error "Error in process_notification_batch task") ;;
         let* b := gets batch in
         (match b with
          | Some _ => batch_update (NotificationBatch.fail (now E)) write_completed
          | None => ret tt
          end) ;;
         ret (not_ok (exn_str e))
     end).

Definition process_notification_batch (batch_id : Z) : M world report :=
  λ w, let (r, f) := process_notification_batch_body batch_id (mk_frame w None None []) in
       (r, f_world f).

(** *** [tasks.py]: [cleanup_old_notifications] *)

(** [Notification.objects.filter(...).delete()[0]]: the matching rows go,
    and with them the history rows that reference them (the foreign key
    cascades); the count covers both. *)
Definition delete_notifications (doomed : Notification.t → bool) : M world Z :=
  λ w, let gone := List.map Notification.id (List.filter doomed (notifications w)) in
       let cascaded (h : NotificationHistory.t) :=
         bool_decide (NotificationHistory.notification h ∈ gone) in
       (Done (Z.of_nat (List.length gone)
              + Z.of_nat (List.length (List.filter cascaded (history w)))),
        with_history (List.filter (λ h, negb (cascaded h)) (history w))
          (with_notifications (List.filter (λ n, negb (doomed n)) (notifications w))
             (notification_seq w) w)).

(** [NotificationHistory.objects.filter(...).delete()[0]]. *)
Definition delete_history (doomed : NotificationHistory.t → bool) : M world Z :=
  λ w, (Done (Z.of_nat (List.length (List.filter doomed (history w)))),
        with_history (List.filter (λ h, negb (doomed h)) (history w)) w).

(** The three sweeps' filters. *)
Definition expired (n : Notification.t) : bool :=
  match Notification.expires_at n with
  | Some e => bool_decide (e < now E)
  | None => false
  end.

Definition old_history (h : NotificationHistory.t) : bool :=
  bool_decide (NotificationHistory.created_at h < now E - timedelta_days 90).

Definition old_archived (n : Notification.t) : bool :=
  Notification.is_archived n
  && bool_decide (Notification.created_at n < now E - timedelta_days 180).

(** Evaluating the names an f-string interpolates, left to right, in the
    scope [scope]: the first unbound name raises [NameError]. *)
Definition eval_names (scope names : list string) : M world unit :=
  for_each names (λ x, if bool_decide (x ∈ scope) then ret tt else raise (NameError x)).

(** The names bound where the task logs its summary: its locals, then
    the module globals of [tasks.py]. *)
Definition cleanup_scope : list string :=
  ["Notification"; "NotificationHistory"; "expired_count"; "ninety_days_ago";
   "old_history_count"; "one_eighty_days_ago"; "archived_count";
   "absolute_import"; "unicode_literals"; "shared_task"; "send_mail"; "settings";
   "render_to_string"; "timezone"; "User"; "Q"; "get_channel_layer"; "async_to_sync";
   "json"; "logging"; "logger"; "send_notification_email"; "send_notification_push";
   "send_realtime_notification"; "process_notification_batch";
   "cleanup_old_notifications"; "generate_notification_analytics";
   "check_scheduled_notifications"; "send_user_activity_notification"].

Definition cleanup_old_notifications : M world report :=
  try_except
    (let* expired_count := delete_notifications expired in
     let* old_history_count := delete_history old_history in
     let* archived_count := delete_notifications old_archived in
     eval_names cleanup_scope ["expired_count"; "old_history_count"; "archared_count"] ;;
     log Info "Cleanup completed" ;;
     ret (ok_report [("expired_count", expired_count);
                     ("old_history_count", old_history_count);
                     ("archived_count", archived_count)]))
    (λ e, log Error "Error in cleanup_old_notifications task" ;; ret (not_ok (exn_str e))).

End WithEnv.

(** The store after one run of the cleanup task. *)
Definition swept (E : env) (w : world) : world := (cleanup_old_notifications E w).2.

(** The events that hand a notification to the email channel. *)
Definition is_email_send (e : event) : bool :=
  match e with
  | HelperDelay Email _ _ | TaskDelay Email _ _ | SendMail _ _ _ => true
  | _ => false
  end.

Definition email_sends (tr : list event) : list event := List.filter is_email_send tr.

(** * Specifications of runs *)

(** A run that stays inside the modelled fragment: from state [s] it
    returns with [Q] or raises with [R]. *)
Definition returns {S A : Type} (m : M S A) (s : S)
    (Q : A → S → Prop) (R : exn → S → Prop) : Prop :=
  match m s with
  | (Done a, s') => Q a s'
  | (Raised e, s') => R e s'
  | (Unmodelled, _) => False
  end.

(** A template whose two texts are well-formed format strings with
    keyword fields only, the fragment of [str.format] embedded above. *)
Definition well_formed (t : NotificationTemplate.t) : Prop :=
  is_Some (format_keys (NotificationTemplate.title_template t))
  ∧ is_Some (format_keys (NotificationTemplate.message_template t)).

(** The state of a batch run: the local [batch] has key [bid] and
    template [tpl] and agrees with its stored row on the counters, the
    row has total [total] and status [st], the template of the batch is
    well-formed where it is stored or cached, and [P] relates
    [sent_count], [failed_count] and the length of
    [created_notifications]. *)
Definition batch_inv (bid total : Z) (tpl : option Z) (P : Z → Z → Z → Prop)
    (st : batch_status) (f : frame) : Prop :=
  (∀ tid t, tpl = Some tid → templates (f_world f) !! tid = Some t → well_formed t)
  ∧ (∀ t, template_cache f = Some t → well_formed t)
  ∧ ∃ b row,
      batch f = Some b
      ∧ NotificationBatch.id b = bid
      ∧ NotificationBatch.template b = tpl
      ∧ batches (f_world f) !! bid = Some row
      ∧ NotificationBatch.total_count row = total
      ∧ NotificationBatch.status row = st
      ∧ NotificationBatch.sent_count row = NotificationBatch.sent_count b
      ∧ NotificationBatch.failed_count row = NotificationBatch.failed_count b
      ∧ P (NotificationBatch.sent_count b) (NotificationBatch.failed_count b)
          (Z.of_nat (List.length (created_notifications f))).

(** After [n] passes of the loop: [n] recipients counted, all as
    failed, and no notification kept in [created_notifications]. *)
Definition failed_only (n : Z) (sent failed created : Z) : Prop :=
  sent = 0 ∧ failed = n ∧ created = 0.

(** The run of the batch task cut after the first [k] passes of its
    loop: the pending batch is loaded and started, and the first [k]
    recipients are processed.  The stored row at the end of such a run is
    what the table shows at that point of the whole run; inside a pass
    the row is written once. *)
Definition batch_prefix (E : env) (batch_id : Z) (k : nat) : M frame unit :=
  let* bs := in_world (gets batches) in
  match bs !! batch_id with
  | None => raise (DoesNotExist MBatch)
  | Some b =>
      bind_batch b ;;
      batch_update (NotificationBatch.start_sending (now E)) write_started ;;
      for_each (take k (default [] (NotificationBatch.user_ids b))) (process_recipient E)
  end.

(** * Concrete inputs

    The records and worlds at which the properties below are evaluated. *)

(** A preference record that allows every type in-app and refuses
    ['info'] by email. *)
Definition pref_no_info_email : NotificationPreference.t :=
  {| NotificationPreference.email_notifications := true;
     NotificationPreference.email_frequency := "immediate";
     NotificationPreference.push_notifications := true;
     NotificationPreference.in_app_notifications := true;
     NotificationPreference.email_types := {[ "info" := false ]};
     NotificationPreference.push_types := ∅;
     NotificationPreference.in_app_types := ∅;
     NotificationPreference.quiet_hours_enabled := false;
     NotificationPreference.quiet_start := None;
     NotificationPreference.quiet_end := None;
     NotificationPreference.do_not_disturb := false;
     NotificationPreference.do_not_disturb_until := None |}.

(** A record with do-not-disturb switched on and no end time. *)
Definition pref_dnd_open : NotificationPreference.t :=
  {| NotificationPreference.email_notifications := true;
     NotificationPreference.email_frequency := "immediate";
     NotificationPreference.push_notifications := true;
     NotificationPreference.in_app_notifications := true;
     NotificationPreference.email_types := ∅;
     NotificationPreference.push_types := ∅;
     NotificationPreference.in_app_types := ∅;
     NotificationPreference.quiet_hours_enabled := false;
     NotificationPreference.quiet_start := None;
     NotificationPreference.quiet_end := None;
     NotificationPreference.do_not_disturb := true;
     NotificationPreference.do_not_disturb_until := None |}.

(** A history row that has reached [read], and one that has failed. *)
Definition row_read : NotificationHistory.t :=
  {| NotificationHistory.notification := 1; NotificationHistory.user := 7;
     NotificationHistory.channel := InApp; NotificationHistory.status := Read;
     NotificationHistory.created_at := 10;
     NotificationHistory.delivered_at := Some 11;
     NotificationHistory.read_at := Some 12;
     NotificationHistory.clicked_at := None; NotificationHistory.dismissed_at := None;
     NotificationHistory.metadata := ∅ |}.

Definition row_failed : NotificationHistory.t :=
  NotificationHistory.new 1 7 Email Failed {[ "error" := "timeout" ]} 10.

(** A run at time 1000 in which every transport works. *)
Definition env_ok : env :=
  {| now := 1000; group_send_error := None; send_mail_error := None;
     broker_error := None |}.

(** Two users: Ada has no preference row, Bob has the default one. *)
Definition user_ada : User.t :=
  {| User.id := 7; User.username := "ada"; User.full_name := "Ada Lovelace";
     User.email := "ada@example.org"; User.notificationpreference := None;
     User.push_notification_token := None |}.

Definition user_bob : User.t :=
  {| User.id := 8; User.username := "bob"; User.full_name := "";
     User.email := "bob@example.org";
     User.notificationpreference := Some NotificationPreference.defaults;
     User.push_notification_token := None |}.

Definition template_welcome : NotificationTemplate.t :=
  {| NotificationTemplate.id := 1; NotificationTemplate.name := "welcome";
     NotificationTemplate.title_template := "Hi {user_name}";
     NotificationTemplate.message_template := "Welcome, {user_name}!";
     NotificationTemplate.notification_type := "info";
     NotificationTemplate.template_variables := {[ "user_name" := "display name" ]};
     NotificationTemplate.is_priority := false;
     NotificationTemplate.default_target_url := "";
     NotificationTemplate.action_required := false;
     NotificationTemplate.usage_count := 0; NotificationTemplate.last_used := None |}.

(** A pending batch for the single recipient Ada, as the bulk-send
    request stores it. *)
Definition batch_ada : NotificationBatch.t :=
  new_batch 1 "Batch" 1 ∅ [Pk 7] 900.

Definition world_batch : world :=
  {| users := {[ 7 := user_ada; 8 := user_bob ]};
     notifications := []; history := [];
     templates := {[ 1 := template_welcome ]};
     batches := {[ 1 := batch_ada ]};
     trace := []; notification_seq := 0 |}.

(** Carol has do-not-disturb on until one hour after [env_ok]'s clock,
    with in-app delivery enabled. *)
Definition pref_dnd_hour : NotificationPreference.t :=
  {| NotificationPreference.email_notifications := true;
     NotificationPreference.email_frequency := "immediate";
     NotificationPreference.push_notifications := true;
     NotificationPreference.in_app_notifications := true;
     NotificationPreference.email_types := ∅;
     NotificationPreference.push_types := ∅;
     NotificationPreference.in_app_types := {[ "info" := true ]};
     NotificationPreference.quiet_hours_enabled := false;
     NotificationPreference.quiet_start := None;
     NotificationPreference.quiet_end := None;
     NotificationPreference.do_not_disturb := true;
     NotificationPreference.do_not_disturb_until := Some (1000 + timedelta_hours 1) |}.

Definition user_carol : User.t :=
  {| User.id := 9; User.username := "carol"; User.full_name := "Carol";
     User.email := "carol@example.org";
     User.notificationpreference := Some pref_dnd_hour;
     User.push_notification_token := Some "device-token" |}.

(** Ada with the default preference row. *)
Definition user_ada_defaults : User.t :=
  {| User.id := 7; User.username := "ada"; User.full_name := "Ada Lovelace";
     User.email := "ada@example.org";
     User.notificationpreference := Some NotificationPreference.defaults;
     User.push_notification_token := None |}.

(** An ['info'] notification just created for user [uid]. *)
Definition notification_for (nid uid : Z) : Notification.t :=
  {| Notification.id := nid; Notification.user := uid;
     Notification.title := "Hello"; Notification.message := "Hello there";
     Notification.notification_type := "info";
     Notification.is_read := false; Notification.is_priority := false;
     Notification.is_archived := false; Notification.created_at := 1000;
     Notification.read_at := None; Notification.expires_at := None;
     Notification.source := "test"; Notification.target_url := "";
     Notification.action_required := false |}.

(** A world right after the three notifications were inserted and the
    creation receiver wrote their ['created'] rows. *)
Definition world_hello (ada : User.t) : world :=
  {| users := {[ 7 := ada; 8 := user_bob; 9 := user_carol ]};
     notifications := [notification_for 1 7; notification_for 2 8; notification_for 3 9];
     history := [NotificationHistory.new 1 7 InApp Created ∅ 1000;
                 NotificationHistory.new 2 8 InApp Created ∅ 1000;
                 NotificationHistory.new 3 9 InApp Created ∅ 1000];
     templates := {[ 1 := template_welcome ]};
     batches := ∅; trace := []; notification_seq := 3 |}.

(** A template whose title carries a stray closing brace. *)
Definition template_stray : NotificationTemplate.t :=
  {| NotificationTemplate.id := 2; NotificationTemplate.name := "stray";
     NotificationTemplate.title_template := "Hi {name}}";
     NotificationTemplate.message_template := "Welcome, {name}!";
     NotificationTemplate.notification_type := "info";
     NotificationTemplate.template_variables := {[ "name" := "display name" ]};
     NotificationTemplate.is_priority := false;
     NotificationTemplate.default_target_url := "";
     NotificationTemplate.action_required := false;
     NotificationTemplate.usage_count := 0; NotificationTemplate.last_used := None |}.

(** Dora refuses ['info'] by email only; one ['info'] notification is
    stored for her. *)
Definition user_dora : User.t :=
  {| User.id := 10; User.username := "dora"; User.full_name := "Dora";
     User.email := "dora@example.org";
     User.notificationpreference := Some pref_no_info_email;
     User.push_notification_token := None |}.

Definition world_dora : world :=
  {| users := {[ 10 := user_dora ]};
     notifications := [notification_for 4 10];
     history := [NotificationHistory.new 4 10 InApp Created ∅ 1000];
     templates := ∅; batches := ∅; trace := []; notification_seq := 4 |}.

(** A pending batch of three recipient ids, one of which does not
    exist; the two users that exist have preference rows. *)
Definition world_three : world :=
  {| users := {[ 8 := user_bob; 9 := user_carol ]};
     notifications := []; history := [];
     templates := {[ 1 := template_welcome ]};
     batches := {[ 5 := new_batch 5 "Batch" 1 ∅ [Pk 8; Pk 99; Pk 9] 900 ]};
     trace := []; notification_seq := 0 |}.

(** * Further code

    The remaining methods of [models.py], the validators of [forms.py],
    the other receivers of [signals.py] and tasks of [tasks.py], and the
    callers in [__init__.py] and [consumers.py] that go through them. *)

(** ** Names matched by [\w+] *)

Fixpoint all_word (s : string) : bool :=
  match s with
  | "" => true
  | String c rest => is_word c && all_word rest
  end.

(** Text without braces. *)
Fixpoint no_braces (s : string) : bool :=
  match s with
  | "" => true
  | String c rest =>
      negb (bool_decide (c = "{"%char)) && negb (bool_decide (c = "}"%char))
      && no_braces rest
  end.

(** ** [forms.py]: [NotificationForm.clean_scheduled_time] and
    [clean_expires_at]

    A validator returns [inl message] when it raises [ValidationError]
    and [inr value] when it returns the cleaned value.  Each reads the
    clock itself ([now]). *)

Definition clean_scheduled_time (scheduled_time : option datetime) (now : datetime)
    : string + option datetime :=
  match scheduled_time with
  | Some t =>
      if bool_decide (t <= now) then inl "Scheduled time must be in the future"
      else inr scheduled_time
  | None => inr scheduled_time
  end.

(** [scheduled_time] is [cleaned_data.get('scheduled_time')]. *)
Definition clean_expires_at (expires_at scheduled_time : option datetime) (now : datetime)
    : string + option datetime :=
  match expires_at, scheduled_time with
  | Some e, Some s =>
      if bool_decide (e <= s) then inl "Expiration time must be after scheduled time"
      else inr expires_at
  | Some e, None =>
      if bool_decide (e <= now) then inl "Expiration time must be in the future"
      else inr expires_at
  | None, _ => inr expires_at
  end.

(** The two validators as the form runs them, [scheduled_time] first:
    a field whose validator raised is absent from [cleaned_data].  The
    result is the pair of outcomes. *)
Definition NotificationForm_clean_times (scheduled_time expires_at : option datetime)
    (now1 now2 : datetime) : (string + option datetime) * (string + option datetime) :=
  let scheduled := clean_scheduled_time scheduled_time now1 in
  let cleaned_scheduled :=
    match scheduled with
    | inr v => v
    | inl _ => None
    end in
  (scheduled, clean_expires_at expires_at cleaned_scheduled now2).

(** A template whose texts hold no field. *)
Definition template_plain : NotificationTemplate.t :=
  {| NotificationTemplate.id := 3; NotificationTemplate.name := "maintenance";
     NotificationTemplate.title_template := "Maintenance tonight";
     NotificationTemplate.message_template := "The service restarts at 22:00.";
     NotificationTemplate.notification_type := "system";
     NotificationTemplate.template_variables := ∅;
     NotificationTemplate.is_priority := false;
     NotificationTemplate.default_target_url := "";
     NotificationTemplate.action_required := false;
     NotificationTemplate.usage_count := 0; NotificationTemplate.last_used := None |}.

(** Quiet hours from [qs] to [qe] and nothing else set. *)
Definition pref_quiet (qs qe : time) : NotificationPreference.t :=
  {| NotificationPreference.email_notifications := true;
     NotificationPreference.email_frequency := "immediate";
     NotificationPreference.push_notifications := true;
     NotificationPreference.in_app_notifications := true;
     NotificationPreference.email_types := ∅;
     NotificationPreference.push_types := ∅;
     NotificationPreference.in_app_types := ∅;
     NotificationPreference.quiet_hours_enabled := true;
     NotificationPreference.quiet_start := Some qs;
     NotificationPreference.quiet_end := Some qe;
     NotificationPreference.do_not_disturb := false;
     NotificationPreference.do_not_disturb_until := None |}.

(** ** [tasks.py]: the three senders by channel *)

Definition sender (E : env) (c : Channel) : Z → Z → M world report :=
  match c with
  | Email => send_notification_email E
  | Push => send_notification_push E
  | InApp => send_realtime_notification E
  end.

(** The master switch each sender reads, and the reason it reports when
    its preference block refuses. *)
Definition master_switch (c : Channel) : NotificationPreference.t → bool :=
  match c with
  | Email => NotificationPreference.email_notifications
  | Push => NotificationPreference.push_notifications
  | InApp => NotificationPreference.in_app_notifications
  end.

Definition disabled_reason (c : Channel) : string :=
  match c with
  | Email => "Email notifications disabled for this type"
  | Push => "Push notifications disabled for this type"
  | InApp => "In-app notifications disabled for this type"
  end.

(** Log lines, as opposed to the events that reach a transport or the
    broker. *)
Definition is_log (e : event) : bool :=
  match e with
  | Log _ _ => true
  | _ => false
  end.

(** A run in which the channel layer is down. *)
Definition env_channel_down : env :=
  {| now := 1000; group_send_error := Some (TransportError "channel layer down");
     send_mail_error := None; broker_error := None |}.

(** ** [models.py]: the methods of [Notification]

    The attribute assignments of the four methods, then the columns
    [save(update_fields=...)] copies from the instance [self] into the
    stored row. *)

Definition set_read (is_read : bool) (read_at : option datetime) (self : Notification.t)
    : Notification.t :=
  {| Notification.id := Notification.id self; Notification.user := Notification.user self;
     Notification.title := Notification.title self;
     Notification.message := Notification.message self;
     Notification.notification_type := Notification.notification_type self;
     Notification.is_read := is_read;
     Notification.is_priority := Notification.is_priority self;
     Notification.is_archived := Notification.is_archived self;
     Notification.created_at := Notification.created_at self;
     Notification.read_at := read_at;
     Notification.expires_at := Notification.expires_at self;
     Notification.source := Notification.source self;
     Notification.target_url := Notification.target_url self;
     Notification.action_required := Notification.action_required self |}.

Definition set_archived (is_archived : bool) (self : Notification.t) : Notification.t :=
  {| Notification.id := Notification.id self; Notification.user := Notification.user self;
     Notification.title := Notification.title self;
     Notification.message := Notification.message self;
     Notification.notification_type := Notification.notification_type self;
     Notification.is_read := Notification.is_read self;
     Notification.is_priority := Notification.is_priority self;
     Notification.is_archived := is_archived;
     Notification.created_at := Notification.created_at self;
     Notification.read_at := Notification.read_at self;
     Notification.expires_at := Notification.expires_at self;
     Notification.source := Notification.source self;
     Notification.target_url := Notification.target_url self;
     Notification.action_required := Notification.action_required self |}.

(** [update_fields=['is_read', 'read_at']] and [update_fields=['is_archived']]. *)
Definition write_read (self row : Notification.t) : Notification.t :=
  set_read (Notification.is_read self) (Notification.read_at self) row.

Definition write_archived (self row : Notification.t) : Notification.t :=
  set_archived (Notification.is_archived self) row.

(** A full [save()] writes every column. *)
Definition write_all (self row : Notification.t) : Notification.t := self.

(** The rows with primary key [pk], and the [UPDATE ... WHERE id = pk]. *)
Definition has_pk (pk : Z) (n : Notification.t) : bool := bool_decide (Notification.id n = pk).

Definition update_rows (pk : Z) (f : Notification.t → Notification.t)
    (ns : list Notification.t) : list Notification.t :=
  List.map (λ row, if has_pk pk row then f row else row) ns.

Section Saving.

Variable E : env.

(** *** [signals.py]: the pre-save receiver

    [instance.pk] is falsy when it is [0].  The message sent to the
    user's group here is the ['read'] message. *)
Definition handle_notification_status_change (instance : Notification.t) : M world unit :=
  try_except
    (let* existing :=
       if bool_decide (Notification.id instance = 0) then ret None
       else let* n := Notification_objects_get (Notification.id instance) in ret (Some n) in
     match existing with
     | Some existing =>
         if negb (Notification.is_read existing) && Notification.is_read instance then
           let* user := instance_user instance in
           log Info "Notification marked as read" ;;
           group_send E (User.id user) (Notification.id instance) ;;
           try_except
             (let* ir := NotificationHistory_objects_get
                           (Notification.id instance) (User.id user) Delivered in
              NotificationHistory_save ir.1 (NotificationHistory.mark_read (now E) ir.2))
             (λ e, match e with
                   | DoesNotExist MHistory => log Warning "No history record found"
                   | _ => raise e
                   end)
         else ret tt
     | None => ret tt
     end)
    (λ e, match e with
          | DoesNotExist MNotification => ret tt
          | _ => raise e
          end).

(** The post-save receivers in registration order. *)
Definition post_save (instance : Notification.t) (created : bool) : M world unit :=
  create_notification_history E instance created ;;
  send_notification_via_channels E instance created ;;
  handle_scheduled_notifications E instance created.

(** [self.save(update_fields=...)]: pre-save receiver, the update of the
    row with the instance's key, post-save receivers.  When no row has
    the key Django raises [DatabaseError]. *)
Definition Notification_save (instance : Notification.t)
    (write : Notification.t → Notification.t → Notification.t) : M world unit :=
  handle_notification_status_change instance ;;
  let* ns := gets notifications in
  if existsb (has_pk (Notification.id instance)) ns then
    modify (λ w, with_notifications
                   (update_rows (Notification.id instance) (write instance) (notifications w))
                   (notification_seq w) w) ;;
    post_save instance false
  else raise (DatabaseError "Save with update_fields did not affect any rows.").

(** [self.save()] of an instance loaded from the database: the row is
    updated, or inserted when the update matches none. *)
Definition Notification_save_all (instance : Notification.t) : M world unit :=
  handle_notification_status_change instance ;;
  let* ns := gets notifications in
  if existsb (has_pk (Notification.id instance)) ns then
    modify (λ w, with_notifications
                   (update_rows (Notification.id instance) (write_all instance)
                      (notifications w))
                   (notification_seq w) w) ;;
    post_save instance false
  else
    modify (λ w, with_notifications (notifications w ++ [instance]) (notification_seq w) w) ;;
    post_save instance true.

(** The four methods return [self] after the call. *)
Definition mark_as_read (self : Notification.t) : M world Notification.t :=
  if negb (Notification.is_read self) then
    let self := set_read true (Some (now E)) self in
    Notification_save self write_read ;; ret self
  else ret self.

Definition mark_as_unread (self : Notification.t) : M world Notification.t :=
  if Notification.is_read self then
    let self := set_read false None self in
    Notification_save self write_read ;; ret self
  else ret self.

Definition archive (self : Notification.t) : M world Notification.t :=
  let self := set_archived true self in
  Notification_save self write_archived ;; ret self.

Definition unarchive (self : Notification.t) : M world Notification.t :=
  let self := set_archived false self in
  Notification_save self write_archived ;; ret self.

(** *** [consumers.py]: the read operations of [NotificationConsumer]

    [user] is the key of [self.user]. *)
Definition mark_notification_as_read (user notification_id : Z) : M world bool :=
  try_except
    (let* ns := gets notifications in
     match List.filter (λ n, has_pk notification_id n
                             && bool_decide (Notification.user n = user)
                             && negb (Notification.is_read n)) ns with
     | [] => raise (DoesNotExist MNotification)
     | [notification] =>
         Notification_save_all
           (set_read true (Notification.read_at notification) notification) ;;
         ret true
     | _ => raise (MultipleObjectsReturned MNotification)
     end)
    (λ e, match e with
          | DoesNotExist MNotification => ret false
          | _ => raise e
          end).

(** [filter(user=, is_read=False).update(is_read=True)]: one statement,
    no receiver runs. *)
Definition mark_all_notifications_as_read (user : Z) : M world unit :=
  modify (λ w, with_notifications
                 (List.map (λ n, if bool_decide (Notification.user n = user)
                                    && negb (Notification.is_read n)
                                 then set_read true (Notification.read_at n) n else n)
                    (notifications w))
                 (notification_seq w) w).

(** [get_unread_notifications] before ordering and the cut at 50: the
    rows the query's [filter] keeps. *)
Definition unread_notifications (user : Z) (w : world) : list Notification.t :=
  List.filter (λ n, bool_decide (Notification.user n = user)
                    && negb (Notification.is_read n)) (notifications w).

End Saving.

(** The primary key is unique in the notification table. *)
Definition unique_ids (w : world) : Prop :=
  NoDup (List.map Notification.id (notifications w)).

(** Bob's notification after the dispatcher delivered it in-app. *)
Definition world_delivered : world :=
  {| users := {[ 8 := user_bob ]};
     notifications := [notification_for 2 8];
     history := [NotificationHistory.mark_delivered 1000
                   (NotificationHistory.new 2 8 InApp Created ∅ 1000)];
     templates := ∅; batches := ∅; trace := []; notification_seq := 2 |}.

(** A run in which the broker refuses every task. *)
Definition env_broker_down : env :=
  {| now := 1000; group_send_error := None; send_mail_error := None;
     broker_error := Some (TransportError "broker unreachable") |}.

(** A store with an expired notification and a live one, each with its
    history row. *)
Definition world_stale : world :=
  {| users := {[ 8 := user_bob ]};
     notifications :=
       [Notification.mk 1 8 "Old" "Old news" "info" false false false 100 None
          (Some 500) "test" "" false;
        notification_for 2 8];
     history := [NotificationHistory.new 1 8 InApp Created ∅ 990;
                 NotificationHistory.new 2 8 InApp Created ∅ 1000];
     templates := ∅; batches := ∅; trace := []; notification_seq := 2 |}.

(** ** [models.py]: sequences of history updates *)

Definition apply_marks (ops : list (mark_op * datetime)) (h : NotificationHistory.t)
    : NotificationHistory.t :=
  foldl (λ h o, apply_mark o.1 o.2 h) h ops.

(** ** [signals.py]: preferences of a new user

    The keyword arguments the receiver passes to
    [NotificationPreference.objects.create]; the other columns take the
    model's defaults. *)

Definition six_types : gmap string bool :=
  {[ "info" := true; "success" := true; "warning" := true; "error" := true;
     "application" := true; "message" := true ]}.

Definition ten_types : gmap string bool :=
  {[ "info" := true; "success" := true; "warning" := true; "error" := true;
     "application" := true; "message" := true; "deadline" := true; "system" := true;
     "collaboration" := true; "metrics" := true ]}.

Definition signup_preferences : NotificationPreference.t :=
  {| NotificationPreference.email_notifications := true;
     NotificationPreference.email_frequency := "immediate";
     NotificationPreference.push_notifications := true;
     NotificationPreference.in_app_notifications := true;
     NotificationPreference.email_types := six_types;
     NotificationPreference.push_types := six_types;
     NotificationPreference.in_app_types := ten_types;
     NotificationPreference.quiet_hours_enabled :=
       NotificationPreference.quiet_hours_enabled NotificationPreference.defaults;
     NotificationPreference.quiet_start :=
       NotificationPreference.quiet_start NotificationPreference.defaults;
     NotificationPreference.quiet_end :=
       NotificationPreference.quiet_end NotificationPreference.defaults;
     NotificationPreference.do_not_disturb :=
       NotificationPreference.do_not_disturb NotificationPreference.defaults;
     NotificationPreference.do_not_disturb_until :=
       NotificationPreference.do_not_disturb_until NotificationPreference.defaults |}.

(** [create_default_notification_preferences]: the user as the
    one-to-one relation shows it after the receiver ran. *)
Definition create_default_notification_preferences (instance : User.t) (created : bool)
    : User.t :=
  if created then
    {| User.id := User.id instance; User.username := User.username instance;
       User.full_name := User.full_name instance; User.email := User.email instance;
       User.notificationpreference := Some signup_preferences;
       User.push_notification_token := User.push_notification_token instance |}
  else instance.

Section FromTemplateCode.

Variable E : env.

(** ** [__init__.py]: [create_notification_from_template] *)

(** [NotificationTemplate.objects.get(name=template_name)]. *)
Definition NotificationTemplate_objects_get (template_name : string)
    : M world NotificationTemplate.t :=
  let* ts := gets templates in
  match List.filter (λ kt : Z * NotificationTemplate.t,
                       bool_decide (NotificationTemplate.name kt.2 = template_name))
                    (map_to_list ts) with
  | [] => raise (DoesNotExist MTemplate)
  | [kt] => ret kt.2
  | _ => raise (MultipleObjectsReturned MTemplate)
  end.

(** Called without further keyword arguments; [context or {}]. *)
Definition create_notification_from_template (user : User.t) (template_name : string)
    (context : option (gmap string string)) : M world Notification.t :=
  try_except
    (let* template := NotificationTemplate_objects_get template_name in
     let* created := create_notification E template user (Some (default ∅ context)) in
     ret created.1)
    (λ e, match e with
          | DoesNotExist MTemplate =>
              raise (ValueError ("Template '" +:+ template_name +:+ "' not found"))
          | _ => raise e
          end).

End FromTemplateCode.

(** The row [Notification.objects.create] inserts. *)
Definition created_row (E : env) (user : Z) (title message notification_type : string)
    (is_priority action_required : bool) (target_url source : string) (w : world)
    : Notification.t :=
  {| Notification.id := notification_seq w + 1; Notification.user := user;
     Notification.title := title; Notification.message := message;
     Notification.notification_type := notification_type;
     Notification.is_read := false; Notification.is_priority := is_priority;
     Notification.is_archived := false; Notification.created_at := now E;
     Notification.read_at := None; Notification.expires_at := None;
     Notification.source := source; Notification.target_url := target_url;
     Notification.action_required := action_required |}.

(** * Properties *)

(** ** Lists *)

Lemma filter_none {A : Type} (f : A → bool) (l : list A) :
  List.Forall (λ x, f x = false) l → List.filter f l = [].
Proof.
  induction 1 as [|x l Hx _ IH]; [reflexivity|]. simpl. rewrite Hx. exact IH.
Qed.

Lemma filter_all {A : Type} (f : A → bool) (l : list A) :
  List.Forall (λ x, f x = false) l → List.filter (λ x, negb (f x)) l = l.
Proof.
  induction 1 as [|x l Hx _ IH]; [reflexivity|]. simpl. rewrite Hx. simpl.
  f_equal. exact IH.
Qed.

Lemma filter_const_false {A : Type} (l : list A) : List.filter (λ _, false) l = [].
Proof. induction l as [|x l IH]; [reflexivity|exact IH]. Qed.

Lemma filter_const_true {A : Type} (l : list A) : List.filter (λ _, true) l = l.
Proof. induction l as [|x l IH]; [reflexivity|simpl; f_equal; exact IH]. Qed.

Lemma Forall_filter_negb {A : Type} (f : A → bool) (l : list A) :
  List.Forall (λ x, f x = false) (List.filter (λ x, negb (f x)) l).
Proof.
  induction l as [|x l IH]; [constructor|]. simpl.
  destruct (f x) eqn:Hx; simpl; [exact IH|]. constructor; assumption.
Qed.

Lemma Forall_filter_keep {A : Type} (P : A → Prop) (g : A → bool) (l : list A) :
  List.Forall P l → List.Forall P (List.filter g l).
Proof.
  induction 1 as [|x l Hx _ IH]; [constructor|]. simpl.
  destruct (g x); [constructor; assumption|exact IH].
Qed.

(** ** Preference resolution *)

Lemma getattr_types_default_channel (p : NotificationPreference.t) :
  NotificationPreference.getattr_types p
    (NotificationPreference.get_channel_type p +:+ "_types")
  = NotificationPreference.in_app_types p.
Proof. reflexivity. Qed.

Lemma should_send_notification_unfold (p : NotificationPreference.t)
    (notification_type : string) (nt : option datetime) (now : datetime) :
  NotificationPreference.should_send_notification p notification_type nt now
  = negb (NotificationPreference.dnd_blocks p (default now nt))
    && negb (NotificationPreference.quiet_hours_block p (default now nt))
    && type_allowed (NotificationPreference.in_app_types p) notification_type.
Proof.
  unfold NotificationPreference.should_send_notification.
  rewrite getattr_types_default_channel. unfold type_allowed.
  destruct (NotificationPreference.dnd_blocks p _); [reflexivity|].
  destruct (NotificationPreference.quiet_hours_block p _); reflexivity.
Qed.

(** C1, as stated, fails: with ['info'] refused in [email_types] and no
    entry in [in_app_types], no suppression is active and the email
    channel's own map says [false], yet the answer is [true], and the
    email sender task mails the notification. *)
Lemma should_deliver_ignores_channel_map :
  NotificationPreference.dnd_blocks pref_no_info_email 0 = false
  ∧ NotificationPreference.quiet_hours_block pref_no_info_email 0 = false
  ∧ type_allowed (channel_types pref_no_info_email Email) "info" = false
  ∧ should_deliver pref_no_info_email "info" Email 0 = true
  ∧ (send_notification_email env_ok 4 10 world_dora).1
    = Done (ok_report [("user_id", 10); ("notification_id", 4)])
  ∧ trace (send_notification_email env_ok 4 10 world_dora).2
    = [SendMail "Hello" "Hello there" "dora@example.org";
       Log Info "Email notification sent"].
Proof. repeat split; vm_compute; reflexivity. Qed.

(** C1 (amended): when neither do-not-disturb nor quiet hours suppress
    delivery, [should_deliver] answers from [in_app_types], the map of the
    default channel type, whichever channel is being dispatched: the
    map's boolean when the type has an entry, [true] when it has none. *)
Theorem should_deliver_consults_in_app_types (p : NotificationPreference.t)
    (c : Channel) (notification_type : string) (at_time : datetime) :
  NotificationPreference.dnd_blocks p at_time = false →
  NotificationPreference.quiet_hours_block p at_time = false →
  should_deliver p notification_type c at_time
  = match NotificationPreference.in_app_types p !! notification_type with
    | Some allowed => allowed
    | None => true
    end.
Proof.
  intros Hdnd Hquiet. unfold should_deliver.
  rewrite should_send_notification_unfold. simpl.
  rewrite Hdnd, Hquiet. reflexivity.
Qed.

Lemma should_deliver_consults_in_app_types_witness :
  NotificationPreference.dnd_blocks pref_no_info_email 0 = false
  ∧ NotificationPreference.quiet_hours_block pref_no_info_email 0 = false
  ∧ should_deliver pref_no_info_email "info" Email 0
    = match NotificationPreference.in_app_types pref_no_info_email !! "info" with
      | Some allowed => allowed
      | None => true
      end.
Proof.
  split; [reflexivity|]. split; [reflexivity|].
  apply (should_deliver_consults_in_app_types pref_no_info_email Email "info" 0);
    reflexivity.
Defined.

(** C2, as stated, fails: with [do_not_disturb] set and
    [do_not_disturb_until] unset the notification is not suppressed. *)
Lemma dnd_without_until_does_not_suppress :
  NotificationPreference.do_not_disturb pref_dnd_open = true
  ∧ NotificationPreference.do_not_disturb_until pref_dnd_open = None
  ∧ NotificationPreference.should_send_notification pref_dnd_open "info" (Some 0) 0 = true.
Proof. repeat split; vm_compute; reflexivity. Qed.

Lemma should_send_notification_dnd (p : NotificationPreference.t)
    (notification_type : string) (notification_time : option datetime)
    (now until : datetime) :
  NotificationPreference.do_not_disturb p = true →
  NotificationPreference.do_not_disturb_until p = Some until →
  default now notification_time < until →
  NotificationPreference.should_send_notification p notification_type notification_time now
  = false.
Proof.
  intros Hdnd Huntil Hlt. rewrite should_send_notification_unfold.
  unfold NotificationPreference.dnd_blocks. rewrite Hdnd, Huntil.
  rewrite bool_decide_eq_true_2 by exact Hlt. reflexivity.
Qed.

(** C2 (amended): with [do_not_disturb] set and [do_not_disturb_until]
    set to a time later than the evaluation time, the answer is [false]
    for every notification type, whatever the quiet-hours settings and
    the type-allow maps. *)
Theorem dnd_until_suppresses (p : NotificationPreference.t) (notification_type : string)
    (notification_time : option datetime) (now until : datetime) :
  NotificationPreference.do_not_disturb p = true →
  NotificationPreference.do_not_disturb_until p = Some until →
  default now notification_time < until →
  NotificationPreference.should_send_notification p notification_type notification_time now
  = false.
Proof. apply should_send_notification_dnd. Qed.

Lemma dnd_until_suppresses_witness :
  NotificationPreference.should_send_notification
    {| NotificationPreference.email_notifications := true;
       NotificationPreference.email_frequency := "immediate";
       NotificationPreference.push_notifications := true;
       NotificationPreference.in_app_notifications := true;
       NotificationPreference.email_types := ∅;
       NotificationPreference.push_types := ∅;
       NotificationPreference.in_app_types := {[ "info" := true ]};
       NotificationPreference.quiet_hours_enabled := false;
       NotificationPreference.quiet_start := None;
       NotificationPreference.quiet_end := None;
       NotificationPreference.do_not_disturb := true;
       NotificationPreference.do_not_disturb_until := Some 3600 |}
    "info" (Some 10) 10 = false.
Proof.
  apply (dnd_until_suppresses _ "info" (Some 10) 10 3600); [reflexivity|reflexivity|].
  simpl. lia.
Defined.

(** Overnight quiet hours 22:00 to 06:00: 23:00 is suppressed, 12:00 is
    not. *)
Example quiet_hours_overnight :
  let p := {| NotificationPreference.email_notifications := true;
              NotificationPreference.email_frequency := "immediate";
              NotificationPreference.push_notifications := true;
              NotificationPreference.in_app_notifications := true;
              NotificationPreference.email_types := ∅;
              NotificationPreference.push_types := ∅;
              NotificationPreference.in_app_types := ∅;
              NotificationPreference.quiet_hours_enabled := true;
              NotificationPreference.quiet_start := Some (timedelta_hours 22);
              NotificationPreference.quiet_end := Some (timedelta_hours 6);
              NotificationPreference.do_not_disturb := false;
              NotificationPreference.do_not_disturb_until := None |} in
  NotificationPreference.should_send_notification p "info"
    (Some (timedelta_days 3 + timedelta_hours 23)) 0 = false
  ∧ NotificationPreference.should_send_notification p "info"
      (Some (timedelta_days 3 + timedelta_hours 12)) 0 = true.
Proof. split; vm_compute; reflexivity. Qed.

(** ** History status updates *)

(** C7, as stated, fails: [mark_delivered] moves a row that has reached
    [read] back to [delivered], and [mark_read] moves a failed row to
    [read]; neither call is rejected. *)
Lemma mark_moves_backward :
  NotificationHistory.status (apply_mark MarkDelivered 20 row_read) = Delivered
  ∧ ¬ spec_forward (NotificationHistory.status row_read)
        (NotificationHistory.status (apply_mark MarkDelivered 20 row_read))
  ∧ NotificationHistory.status (apply_mark MarkRead 20 row_failed) = Read.
Proof.
  split; [reflexivity|]. split; [|reflexivity].
  unfold spec_forward. simpl. lia.
Qed.

(** C7 (amended): each status-update operation sets the status to its
    own target from any prior status, stamping the matching timestamp, and
    leaves the row unchanged when the status already is that target;
    nothing is checked against the prior status and no call is rejected. *)
Theorem mark_sets_target (op : mark_op) (now : datetime) (h : NotificationHistory.t) :
  NotificationHistory.status (apply_mark op now h) = mark_target op
  ∧ if decide (NotificationHistory.status h = mark_target op)
    then apply_mark op now h = h
    else stamp_of op (apply_mark op now h) = Some now.
Proof.
  destruct op; simpl;
    unfold NotificationHistory.mark_delivered, NotificationHistory.mark_read,
      NotificationHistory.mark_clicked, NotificationHistory.mark_dismissed;
    destruct (decide (NotificationHistory.status h = _)) as [Heq|Hne];
    repeat case_decide; try contradiction; simpl; auto.
Qed.

(** ** Template definition-time validation *)

(** C6, as stated, fails: with an empty declared map the placeholder
    [name] is extracted and undeclared, and the definition is accepted. *)
Lemma clean_accepts_empty_declaration :
  "name" ∈ template_placeholders "Hi {name}" "Welcome, {name}!"
  ∧ (∅ : gmap string string) !! "name" = None
  ∧ NotificationTemplateForm_clean "Hi {name}" "Welcome, {name}!" (Some ∅) = inr tt.
Proof.
  split; [|split; reflexivity].
  unfold template_placeholders. vm_compute findall_placeholders. set_solver.
Qed.

Lemma elem_of_template_placeholders (title_template message_template v : string) :
  v ∈ template_placeholders title_template message_template
  ↔ v ∈ findall_placeholders title_template ∨ v ∈ findall_placeholders message_template.
Proof. unfold template_placeholders. set_solver. Qed.

(** C6 (amended): validation extracts the placeholders of both the title
    and the message template and, when the declared map is not empty,
    rejects the definition whenever an extracted placeholder is absent
    from it, reporting that placeholder among the missing ones. *)
Theorem clean_rejects_undeclared (title_template message_template v : string)
    (declared : gmap string string) :
  declared ≠ ∅ →
  v ∈ findall_placeholders title_template ∨ v ∈ findall_placeholders message_template →
  declared !! v = None →
  ∃ missing, NotificationTemplateForm_clean title_template message_template (Some declared)
             = inl missing
             ∧ v ∈ missing.
Proof.
  intros Hne Hv Hnone.
  apply elem_of_template_placeholders in Hv.
  unfold NotificationTemplateForm_clean, dict_truthy.
  rewrite bool_decide_eq_false_2 by exact Hne. simpl.
  assert (Hin : v ∈ template_placeholders title_template message_template ∖ dom declared).
  { apply elem_of_difference. split; [exact Hv|].
    rewrite elem_of_dom, Hnone. intros [x Hx]. discriminate. }
  assert (Hmissing : template_placeholders title_template message_template ∖ dom declared ≠ ∅)
    by (intros Hempty; rewrite Hempty in Hin; set_solver).
  rewrite (bool_decide_eq_true_2 _ Hmissing).
  eexists. split; [reflexivity|exact Hin].
Qed.

Lemma clean_rejects_undeclared_witness :
  ∃ missing, NotificationTemplateForm_clean "Hi {name}" "Bye {who}"
               (Some {[ "name" := "display name" ]}) = inl missing
             ∧ "who" ∈ missing.
Proof.
  apply (clean_rejects_undeclared "Hi {name}" "Bye {who}" "who").
  - intros H. apply (f_equal (λ m : gmap string string, m !! "name")) in H.
    vm_compute in H. discriminate.
  - right. vm_compute. apply list_elem_of_here.
  - reflexivity.
Defined.

(** ** Template rendering *)

Section Format.

Variable kwargs : gmap string string.

Lemma format_from_done (s : string) :
  ∀ (st : fstate) (out : string) (ks : list string),
    format_keys_from s st = Some ks →
    (∀ k, k ∈ ks → is_Some (kwargs !! k)) →
    ∃ r, format_from s st out kwargs = Done r.
Proof.
  induction s as [|c rest IH]; intros st out ks Hk Hall; simpl in *.
  - destruct st; try discriminate. eauto.
  - destruct st as [| | |name].
    + repeat case_decide; eauto.
    + case_decide; [eauto|].
      destruct (classify c); try discriminate; eauto.
    + case_decide; [eauto|discriminate].
    + destruct (classify c); try discriminate; [|eauto].
      destruct (all_digits name) eqn:Hd; [discriminate|].
      destruct (format_keys_from rest Text) as [ks'|] eqn:Hrest; [|discriminate].
      simpl in Hk. injection Hk as <-.
      unfold get_field. rewrite Hd.
      destruct (Hall name (list_elem_of_here _ _)) as [v ->].
      apply (IH Text _ ks' Hrest). intros k Hin. apply Hall, list_elem_of_further, Hin.
Qed.

Lemma format_from_missing (s : string) :
  ∀ (st : fstate) (out : string) (ks : list string),
    format_keys_from s st = Some ks →
    (∃ k, k ∈ ks ∧ kwargs !! k = None) →
    ∃ k, k ∈ ks ∧ kwargs !! k = None ∧ format_from s st out kwargs = Raised (KeyError k).
Proof.
  induction s as [|c rest IH]; intros st out ks Hk Hmiss; simpl in *.
  - destruct st; try discriminate. injection Hk as <-.
    destruct Hmiss as (k & Hin & _). apply elem_of_nil in Hin. contradiction.
  - destruct st as [| | |name].
    + repeat case_decide; eauto.
    + case_decide; [eauto|].
      destruct (classify c); try discriminate; eauto.
    + case_decide; [eauto|discriminate].
    + destruct (classify c); try discriminate; [|eauto].
      destruct (all_digits name) eqn:Hd; [discriminate|].
      destruct (format_keys_from rest Text) as [ks'|] eqn:Hrest; [|discriminate].
      simpl in Hk. injection Hk as <-.
      unfold get_field. rewrite Hd.
      destruct (kwargs !! name) as [v|] eqn:Hname.
      * destruct Hmiss as (k & Hin & Hnone).
        apply elem_of_cons in Hin as [->|Hin]; [congruence|].
        destruct (IH Text (out +:+ v) ks' Hrest) as (k' & Hin' & Hnone' & Hrun); [eauto|].
        exists k'. split; [apply list_elem_of_further, Hin'|]. split; assumption.
      * exists name. split; [apply list_elem_of_here|]. split; [assumption|reflexivity].
Qed.

End Format.

Lemma render_done (self : NotificationTemplate.t) (context : option (gmap string string))
    (tk mk : list string) :
  format_keys (NotificationTemplate.title_template self) = Some tk →
  format_keys (NotificationTemplate.message_template self) = Some mk →
  (∀ k, k ∈ (tk ++ mk)%list → is_Some (default ∅ context !! k)) →
  ∃ r, NotificationTemplate.render self context = Done r.
Proof.
  intros Ht Hm Hall. unfold NotificationTemplate.render, str_format.
  destruct (format_from_done (default ∅ context) _ Text "" tk Ht) as [title ->].
  { intros k Hin. apply Hall, elem_of_app. left. exact Hin. }
  destruct (format_from_done (default ∅ context) _ Text "" mk Hm) as [message ->].
  { intros k Hin. apply Hall, elem_of_app. right. exact Hin. }
  simpl. eauto.
Qed.

Lemma render_missing (self : NotificationTemplate.t) (context : option (gmap string string))
    (tk mk : list string) :
  format_keys (NotificationTemplate.title_template self) = Some tk →
  format_keys (NotificationTemplate.message_template self) = Some mk →
  (∃ k, k ∈ (tk ++ mk)%list ∧ default ∅ context !! k = None) →
  ∃ k, k ∈ (tk ++ mk)%list ∧ default ∅ context !! k = None
       ∧ NotificationTemplate.render self context = Raised (KeyError k).
Proof.
  intros Ht Hm Hmiss. unfold NotificationTemplate.render, str_format.
  destruct (decide (Exists (λ k, default ∅ context !! k = None) tk)) as [Hex|Hall].
  - apply Exists_exists in Hex.
    destruct (format_from_missing (default ∅ context) _ Text "" tk Ht Hex)
      as (k & Hin & Hnone & ->).
    exists k. split; [apply elem_of_app; left; exact Hin|]. split; [exact Hnone|reflexivity].
  - apply not_Exists_Forall in Hall; [|intros k; apply _].
    rewrite Forall_forall in Hall.
    destruct (format_from_done (default ∅ context) _ Text "" tk Ht) as [title ->].
    { intros k Hin. apply not_eq_None_Some, (Hall k Hin). }
    simpl.
    assert (Hmiss' : ∃ k, k ∈ mk ∧ default ∅ context !! k = None).
    { destruct Hmiss as (k & Hin & Hnone). exists k. split; [|exact Hnone].
      apply elem_of_app in Hin as [Hin|Hin]; [|exact Hin].
      exfalso. exact (Hall k Hin Hnone). }
    destruct (format_from_missing (default ∅ context) _ Text "" mk Hm Hmiss')
      as (k & Hin & Hnone & ->).
    exists k. split; [apply elem_of_app; right; exact Hin|]. split; [exact Hnone|reflexivity].
Qed.

(** Template [welcome]: rendered with a name, then with nothing. *)
Example render_welcome :
  let t := {| NotificationTemplate.id := 3; NotificationTemplate.name := "welcome";
              NotificationTemplate.title_template := "Hi {name}";
              NotificationTemplate.message_template := "Welcome, {name}!";
              NotificationTemplate.notification_type := "info";
              NotificationTemplate.template_variables := {[ "name" := "..." ]};
              NotificationTemplate.is_priority := false;
              NotificationTemplate.default_target_url := "";
              NotificationTemplate.action_required := false;
              NotificationTemplate.usage_count := 0;
              NotificationTemplate.last_used := None |} in
  NotificationTemplate.render t (Some {[ "name" := "Ada" ]})
  = Done {| r_title := "Hi Ada"; r_message := "Welcome, Ada!";
            r_notification_type := "info"; r_is_priority := false;
            r_action_required := false; r_target_url := "" |}
  ∧ NotificationTemplate.render t (Some ∅) = Raised (KeyError "name")
  ∧ NotificationTemplate.render t None = Raised (KeyError "name").
Proof. repeat split; vm_compute; reflexivity. Qed.

(** ** Dispatch *)

Section Dispatch.

Variable E : env.

Ltac run :=
  unfold send_notification_via_channels, send_notification_email,
    send_notification_push, send_realtime_notification, preference_gate,
    sender_handler, instance_user, User_objects_get, Notification_objects_get,
    user_preference, NotificationHistory_objects_create, NotificationHistory_save,
    NotificationHistory_objects_get, helper_delay, task_delay, group_send, send_mail,
    external, log, emit, try_except, bind, ret, raise, gets, modify, lift;
  simpl.

Lemma dispatch_handler_trace (e : exn) (w : world) :
  ∃ l msg, dispatch_handler e w = (Done tt, with_trace (trace w ++ [Log l msg]) w).
Proof.
  destruct e as [[]| | | | | | | |]; do 2 eexists; reflexivity.
Qed.

Ltac handler_trace :=
  repeat match goal with
         | |- context [dispatch_handler ?e ?s] =>
             destruct (dispatch_handler_trace e s) as (?l & ?msg & ->)
         end.

Ltac leaf :=
  eexists; split;
  [ simpl; rewrite <- ?app_assoc; reflexivity
  | simpl; intros ev Hev Hsent;
    repeat (apply elem_of_cons in Hev as [->|Hev]);
    try (apply elem_of_nil in Hev; contradiction);
    try discriminate Hsent ].

Lemma dispatch_missing_preference (instance : Notification.t) (user : User.t) (w : world) :
  users w !! Notification.user instance = Some user →
  User.notificationpreference user = None →
  send_notification_via_channels E instance true w
  = (Done tt, with_trace (trace w ++ [Log Warning "No notification preferences found"]) w).
Proof.
  intros Hu Hp. run. rewrite Hu, Hp. reflexivity.
Qed.

Lemma sender_missing_preference (notification_id user_id : Z) (n : Notification.t)
    (user : User.t) (w : world) :
  List.find (λ n, bool_decide (Notification.id n = notification_id)) (notifications w)
  = Some n →
  users w !! user_id = Some user →
  User.notificationpreference user = None →
  send_notification_email E notification_id user_id w
  = (Done (not_ok "User preferences not found"), w)
  ∧ send_notification_push E notification_id user_id w
    = (Done (not_ok "User preferences not found"), w)
  ∧ send_realtime_notification E notification_id user_id w
    = (Done (not_ok "User preferences not found"), w).
Proof.
  intros Hn Hu Hp. run. rewrite Hn, Hu, Hp. simpl. auto.
Qed.

Lemma dispatch_trace_shape (instance : Notification.t) (user : User.t)
    (p : NotificationPreference.t) (w : world) :
  users w !! Notification.user instance = Some user →
  User.notificationpreference user = Some p →
  ∃ l : list event,
    trace (send_notification_via_channels E instance true w).2 = (trace w ++ l)%list
    ∧ ∀ ev, ev ∈ l → is_email_send ev = true →
        ev = HelperDelay Email (Notification.id instance) (User.id user)
        ∧ NotificationPreference.email_notifications p = true
        ∧ NotificationPreference.email_frequency p = "immediate".
Proof.
  intros Hu Hp. run. rewrite Hu, Hp. simpl.
  destruct (NotificationPreference.should_send_notification p _ None (now E)); simpl.
  2:{ eexists; split; [reflexivity|]. intros ev Hev Hmail.
      apply list_elem_of_singleton in Hev as ->. discriminate. }
  destruct (NotificationPreference.email_notifications p
            && bool_decide (NotificationPreference.email_frequency p = "immediate"))
    eqn:Himm.
  - apply andb_true_iff in Himm as [Hmail Hfreq]. apply bool_decide_eq_true in Hfreq.
    destruct (NotificationPreference.in_app_notifications p);
      [destruct (group_send_error E); simpl;
       [|destruct (List.filter _ _) as [|ir [|ir' rest]]; simpl]|];
      handler_trace; simpl; leaf; auto.
  - destruct (NotificationPreference.in_app_notifications p);
      [destruct (group_send_error E); simpl;
       [|destruct (List.filter _ _) as [|ir [|ir' rest]]; simpl]|];
      destruct (NotificationPreference.push_notifications p);
      try destruct (has_push_token user);
      handler_trace; simpl; leaf.
Qed.

Lemma create_missing_preference (user : User.t) (title message notification_type : string)
    (is_priority action_required : bool) (target_url source : string) (w : world) :
  users w !! User.id user = Some user →
  User.notificationpreference user = None →
  ∃ n w', Notification_objects_create E (User.id user) title message notification_type
            is_priority action_required target_url source w
          = (Raised scheduled_time_error, w')
          ∧ notifications w' = (notifications w ++ [n])%list
          ∧ Notification.user n = User.id user
          ∧ trace w' = (trace w ++ [Log Warning "No notification preferences found"])%list.
Proof.
  intros Hu Hp. unfold Notification_objects_create, create_notification_history,
    handle_scheduled_notifications, Notification_scheduled_time. run. rewrite Hu, Hp. simpl.
  do 2 eexists. split; [reflexivity|]. simpl. split; [reflexivity|]. split; reflexivity.
Qed.

(** C3 (amended): for a notification whose user has no preference row,
    the dispatcher sends on no channel: it logs a warning and returns,
    leaving tables untouched; each channel sender task returns the failure
    report "User preferences not found" and changes nothing; and the
    lookup does not block notification creation: in a creation for that
    user the row is stored and the dispatcher has returned with its
    warning when the call ends, in the error of the receiver that runs
    after it. *)
Theorem missing_preference_skips_dispatch (instance n : Notification.t) (user : User.t)
    (title message notification_type : string) (w : world) :
  users w !! Notification.user instance = Some user →
  User.id user = Notification.user instance →
  User.notificationpreference user = None →
  List.find (λ x, bool_decide (Notification.id x = Notification.id instance))
    (notifications w) = Some n →
  send_notification_via_channels E instance true w
  = (Done tt, with_trace (trace w ++ [Log Warning "No notification preferences found"]) w)
  ∧ send_notification_email E (Notification.id instance) (Notification.user instance) w
    = (Done (not_ok "User preferences not found"), w)
  ∧ send_notification_push E (Notification.id instance) (Notification.user instance) w
    = (Done (not_ok "User preferences not found"), w)
  ∧ send_realtime_notification E (Notification.id instance) (Notification.user instance) w
    = (Done (not_ok "User preferences not found"), w)
  ∧ ∃ created w',
      Notification_objects_create E (Notification.user instance) title message
        notification_type false false "" "" w = (Raised scheduled_time_error, w')
      ∧ notifications w' = (notifications w ++ [created])%list
      ∧ trace w' = (trace w ++ [Log Warning "No notification preferences found"])%list.
Proof.
  intros Hu Hid Hp Hn.
  split; [exact (dispatch_missing_preference instance user w Hu Hp)|].
  destruct (sender_missing_preference _ _ n user w Hn Hu Hp) as (He & Hpush & Hrt).
  repeat (split; [assumption|]).
  rewrite <- Hid in Hu |- *.
  destruct (create_missing_preference user title message notification_type
              false false "" "" w Hu Hp) as (c & w' & Hc & Hns & _ & Htr).
  exists c, w'. auto.
Qed.

Lemma sender_history_dnd (notification_id user_id : Z) (user : User.t)
    (p : NotificationPreference.t) (w : world) :
  users w !! user_id = Some user →
  User.notificationpreference user = Some p →
  (∀ ty, NotificationPreference.should_send_notification p ty None (now E) = false) →
  history (send_notification_email E notification_id user_id w).2 = history w
  ∧ history (send_notification_push E notification_id user_id w).2 = history w
  ∧ history (send_realtime_notification E notification_id user_id w).2 = history w.
Proof.
  intros Hu Hp Hs. run.
  destruct (List.find _ (notifications w)) as [n|]; simpl; [|auto].
  rewrite Hu, Hp. simpl. rewrite Hs, !andb_false_r. simpl. auto.
Qed.

(** C8: for a user whose preference row has [do_not_disturb] set and
    [do_not_disturb_until] one hour after the current time, dispatching a
    notification now adds no history row and changes none, on every path
    that checks do-not-disturb (the dispatcher and the three channel
    sender tasks), whatever the other fields, [in_app_notifications]
    included. *)
Theorem dnd_dispatch_creates_no_history (instance : Notification.t) (user : User.t)
    (p : NotificationPreference.t) (w : world) :
  users w !! Notification.user instance = Some user →
  User.notificationpreference user = Some p →
  NotificationPreference.do_not_disturb p = true →
  NotificationPreference.do_not_disturb_until p = Some (now E + timedelta_hours 1) →
  history (send_notification_via_channels E instance true w).2 = history w
  ∧ history (send_realtime_notification E (Notification.id instance)
               (Notification.user instance) w).2 = history w
  ∧ history (send_notification_email E (Notification.id instance)
               (Notification.user instance) w).2 = history w
  ∧ history (send_notification_push E (Notification.id instance)
               (Notification.user instance) w).2 = history w.
Proof.
  intros Hu Hp Hdnd Huntil.
  assert (Hs : ∀ ty, NotificationPreference.should_send_notification p ty None (now E)
                     = false).
  { intros ty. apply (should_send_notification_dnd p ty None (now E) _ Hdnd Huntil).
    simpl. unfold timedelta_hours, usec_per_hour, usec_per_second. lia. }
  split.
  - run. rewrite Hu, Hp. simpl. rewrite Hs. reflexivity.
  - destruct (sender_history_dnd (Notification.id instance) _ user p w Hu Hp Hs)
      as (He & Hpush & Hrt). auto.
Qed.

Lemma dispatch_immediate_email (instance : Notification.t) (user : User.t)
    (p : NotificationPreference.t) (w : world) :
  users w !! Notification.user instance = Some user →
  User.notificationpreference user = Some p →
  NotificationPreference.should_send_notification p
    (Notification.notification_type instance) None (now E) = true →
  NotificationPreference.email_notifications p = true →
  NotificationPreference.email_frequency p = "immediate" →
  NotificationPreference.in_app_notifications p = false →
  trace (send_notification_via_channels E instance true w).2
  = (trace w ++ [HelperDelay Email (Notification.id instance) (User.id user);
                 Log Error "Error sending notification"])%list.
Proof.
  intros Hu Hp Hs Hmail Hfreq Hin. run. rewrite Hu, Hp. simpl.
  rewrite Hs, Hin, Hmail, Hfreq. simpl. rewrite <- app_assoc. reflexivity.
Qed.

(** C10: for a newly created notification whose user has a preference
    row with [email_notifications] set and the type allowed, the
    dispatcher reaches the email sender only when [email_frequency] is
    ['immediate']: with any other frequency the run adds no email event;
    every email event a run adds is the dispatcher's call for this
    notification under frequency ['immediate']; and with frequency
    ['immediate'] (in-app delivery switched off) that call is made. *)
Theorem email_only_when_immediate (instance : Notification.t) (user : User.t)
    (p : NotificationPreference.t) (w : world) :
  users w !! Notification.user instance = Some user →
  User.notificationpreference user = Some p →
  NotificationPreference.email_notifications p = true →
  NotificationPreference.should_send_notification p
    (Notification.notification_type instance) None (now E) = true →
  (NotificationPreference.email_frequency p ≠ "immediate" →
   email_sends (trace (send_notification_via_channels E instance true w).2)
   = email_sends (trace w))
  ∧ (∀ ev, ev ∈ email_sends (trace (send_notification_via_channels E instance true w).2) →
           ev ∈ email_sends (trace w)
           ∨ (ev = HelperDelay Email (Notification.id instance) (User.id user)
              ∧ NotificationPreference.email_frequency p = "immediate"))
  ∧ (NotificationPreference.email_frequency p = "immediate" →
     NotificationPreference.in_app_notifications p = false →
     HelperDelay Email (Notification.id instance) (User.id user)
     ∈ email_sends (trace (send_notification_via_channels E instance true w).2)).
Proof.
  intros Hu Hp Hmail Hs.
  destruct (dispatch_trace_shape instance user p w Hu Hp) as (l & Htr & Hl).
  split; [|split].
  - intros Hfreq. rewrite Htr. unfold email_sends. rewrite List.filter_app.
    assert (Hnone : List.filter is_email_send l = []).
    { clear Htr. induction l as [|ev l IH]; [reflexivity|]. simpl.
      destruct (is_email_send ev) eqn:Hev.
      - destruct (Hl ev (list_elem_of_here _ _) Hev) as (_ & _ & Himm). contradiction.
      - apply IH. intros ev' Hin. apply Hl. apply list_elem_of_further, Hin. }
    rewrite Hnone. apply app_nil_r.
  - intros ev Hev. rewrite Htr in Hev. unfold email_sends in *.
    rewrite List.filter_app in Hev. apply elem_of_app in Hev as [Hev|Hev]; [left; exact Hev|].
    right. apply list_elem_of_In, List.filter_In in Hev as [Hin Hsent].
    apply list_elem_of_In in Hin.
    destruct (Hl ev Hin Hsent) as (-> & _ & Himm). split; [reflexivity|exact Himm].
  - intros Hfreq Hin. rewrite (dispatch_immediate_email instance user p w Hu Hp Hs Hmail Hfreq Hin).
    unfold email_sends. rewrite List.filter_app. apply elem_of_app. right.
    simpl. apply list_elem_of_here.
Qed.

Lemma dispatch_total (instance : Notification.t) (w : world) :
  ∃ w', send_notification_via_channels E instance true w = (Done tt, w')
        ∧ users w' = users w ∧ notifications w' = notifications w
        ∧ templates w' = templates w ∧ batches w' = batches w
        ∧ notification_seq w' = notification_seq w.
Proof.
  run.
  destruct (users w !! Notification.user instance) as [user|]; simpl;
    [|handler_trace; eexists; split; [reflexivity|repeat split]].
  destruct (User.notificationpreference user) as [p|]; simpl;
    [|handler_trace; eexists; split; [reflexivity|repeat split]].
  destruct (NotificationPreference.should_send_notification p _ None (now E)); simpl;
    [|eexists; split; [reflexivity|repeat split]].
  destruct (NotificationPreference.in_app_notifications p);
    [destruct (group_send_error E); simpl;
     [|destruct (List.filter _ _) as [|ir [|ir' rest]]; simpl]|];
    destruct (NotificationPreference.email_notifications p
              && bool_decide (NotificationPreference.email_frequency p = "immediate"));
    destruct (NotificationPreference.push_notifications p);
    try destruct (has_push_token user);
    handler_trace; simpl; eexists; (split; [reflexivity|repeat split]).
Qed.

(** Every creation ends in the error of the third receiver, after the
    insert and after the first two receivers have run. *)
Lemma objects_create_raises (user : Z) (title message notification_type : string)
    (is_priority action_required : bool) (target_url source : string) (w : world) :
  ∃ w', Notification_objects_create E user title message notification_type
          is_priority action_required target_url source w
        = (Raised scheduled_time_error, w')
        ∧ notifications w'
          = (notifications w
             ++ [created_row E user title message notification_type is_priority
                   action_required target_url source w])%list
        ∧ users w' = users w ∧ templates w' = templates w ∧ batches w' = batches w
        ∧ notification_seq w' = notification_seq w + 1.
Proof.
  unfold Notification_objects_create, create_notification_history,
    handle_scheduled_notifications, Notification_scheduled_time,
    NotificationHistory_objects_create, bind, ret, raise, gets, modify.
  simpl.
  match goal with
  | |- context [send_notification_via_channels E ?i true ?w0] =>
      destruct (dispatch_total i w0) as (w' & -> & Hu & Hn & Ht & Hb & Hs)
  end.
  eexists. split; [reflexivity|].
  rewrite Hu, Hn, Ht, Hb, Hs. repeat split.
Qed.

(** Creation under do-not-disturb: the only history row written is the
    ['created'] row of the creation receiver, which checks nothing; the
    dispatcher logs that it skips and nothing is sent. *)
Lemma creation_under_dnd (user : User.t) (p : NotificationPreference.t)
    (title message notification_type : string) (w : world) :
  users w !! User.id user = Some user →
  User.notificationpreference user = Some p →
  NotificationPreference.do_not_disturb p = true →
  NotificationPreference.do_not_disturb_until p = Some (now E + timedelta_hours 1) →
  ∃ w', Notification_objects_create E (User.id user) title message notification_type
          false false "" "" w = (Raised scheduled_time_error, w')
        ∧ history w'
          = (history w
             ++ [NotificationHistory.new (notification_seq w + 1) (User.id user)
                   InApp Created ∅ (now E)])%list
        ∧ trace w' = (trace w ++ [Log Info "Skipping notification - type disabled"])%list.
Proof.
  intros Hu Hp Hdnd Huntil.
  assert (Hs : ∀ ty, NotificationPreference.should_send_notification p ty None (now E)
                     = false).
  { intros ty. apply (should_send_notification_dnd p ty None (now E) _ Hdnd Huntil).
    simpl. unfold timedelta_hours, usec_per_hour, usec_per_second. lia. }
  unfold Notification_objects_create, create_notification_history,
    handle_scheduled_notifications, Notification_scheduled_time. run.
  rewrite Hu, Hp. simpl. rewrite Hs. simpl.
  eexists. split; [reflexivity|]. split; reflexivity.
Qed.

(** The same at creation time: the whole post-save pipeline of a new
    notification adds no email event when the frequency is not
    ['immediate']. *)
Lemma creation_adds_no_email (user : User.t) (p : NotificationPreference.t)
    (title message notification_type : string) (is_priority action_required : bool)
    (target_url source : string) (w : world) :
  users w !! User.id user = Some user →
  User.notificationpreference user = Some p →
  NotificationPreference.email_frequency p ≠ "immediate" →
  ∃ w', Notification_objects_create E (User.id user) title message notification_type
          is_priority action_required target_url source w
        = (Raised scheduled_time_error, w')
        ∧ email_sends (trace w') = email_sends (trace w).
Proof.
  intros Hu Hp Hfreq.
  unfold Notification_objects_create, create_notification_history,
    handle_scheduled_notifications, Notification_scheduled_time,
    NotificationHistory_objects_create, bind, ret, raise, gets, modify.
  simpl.
  match goal with
  | |- context [send_notification_via_channels E ?i true ?w0] =>
      destruct (dispatch_total i w0) as (w' & Hrun & _);
      destruct (dispatch_trace_shape i user p w0 Hu Hp) as (l & Htr & Hl);
      rewrite Hrun in Htr |- *
  end.
  eexists. split; [reflexivity|]. simpl in Htr |- *. rewrite Htr.
  unfold email_sends. rewrite List.filter_app.
  rewrite (filter_none is_email_send l); [apply app_nil_r|].
  apply List.Forall_forall. intros ev Hin. apply list_elem_of_In in Hin.
  destruct (is_email_send ev) eqn:Hev; [|reflexivity].
  destruct (Hl ev Hin Hev) as (_ & _ & Himm). contradiction.
Qed.

End Dispatch.

(** C3, as stated, fails: for Ada, who has no preference row, the
    dispatcher only logs a warning and the in-app sender reports a
    failure, while with the default row the same notification is pushed
    to her live channel. *)
Lemma missing_preference_is_not_default :
  User.notificationpreference user_ada = None
  ∧ trace (send_notification_via_channels env_ok (notification_for 1 7) true
             (world_hello user_ada)).2
    = [Log Warning "No notification preferences found"]
  ∧ send_realtime_notification env_ok 1 7 (world_hello user_ada)
    = (Done (not_ok "User preferences not found"), world_hello user_ada)
  ∧ GroupSend 7 1 ∈ trace (send_notification_via_channels env_ok (notification_for 1 7) true
                             (world_hello user_ada_defaults)).2.
Proof.
  split; [reflexivity|]. split; [vm_compute; reflexivity|].
  split; [vm_compute; reflexivity|].
  vm_compute. apply list_elem_of_here.
Qed.

Lemma missing_preference_skips_dispatch_witness :
  users (world_hello user_ada) !! Notification.user (notification_for 1 7) = Some user_ada
  ∧ User.notificationpreference user_ada = None
  ∧ send_notification_via_channels env_ok (notification_for 1 7) true (world_hello user_ada)
    = (Done tt, with_trace (trace (world_hello user_ada)
                            ++ [Log Warning "No notification preferences found"])
                  (world_hello user_ada))
  ∧ send_notification_email env_ok 1 7 (world_hello user_ada)
    = (Done (not_ok "User preferences not found"), world_hello user_ada).
Proof.
  split; [reflexivity|]. split; [reflexivity|].
  destruct (missing_preference_skips_dispatch env_ok (notification_for 1 7)
              (notification_for 1 7) user_ada "t" "m" "info" (world_hello user_ada))
    as (Hd & He & _); try reflexivity.
  split; [exact Hd|exact He].
Defined.

Lemma dnd_dispatch_creates_no_history_witness :
  users (world_hello user_ada) !! Notification.user (notification_for 3 9) = Some user_carol
  ∧ NotificationPreference.do_not_disturb pref_dnd_hour = true
  ∧ NotificationPreference.do_not_disturb_until pref_dnd_hour
    = Some (now env_ok + timedelta_hours 1)
  ∧ NotificationPreference.in_app_notifications pref_dnd_hour = true
  ∧ history (send_notification_via_channels env_ok (notification_for 3 9) true
               (world_hello user_ada)).2 = history (world_hello user_ada)
  ∧ history (send_realtime_notification env_ok 3 9 (world_hello user_ada)).2
    = history (world_hello user_ada).
Proof.
  split; [reflexivity|]. split; [reflexivity|]. split; [reflexivity|].
  split; [reflexivity|].
  destruct (dnd_dispatch_creates_no_history env_ok (notification_for 3 9) user_carol
              pref_dnd_hour (world_hello user_ada))
    as (Hd & Hrt & _); try reflexivity.
  split; [exact Hd|exact Hrt].
Defined.

(** Bob has the default preferences: the dispatcher pushes in-app,
    reaches the email call, and the call's [AttributeError] ends the
    run in the generic handler. *)
Example dispatch_default_preferences :
  trace (send_notification_via_channels env_ok (notification_for 2 8) true
           (world_hello user_ada)).2
  = [GroupSend 8 2; HelperDelay Email 2 8; Log Error "Error sending notification"].
Proof. vm_compute. reflexivity. Qed.

Lemma email_only_when_immediate_witness :
  users (world_hello user_ada) !! Notification.user (notification_for 2 8) = Some user_bob
  ∧ NotificationPreference.email_notifications NotificationPreference.defaults = true
  ∧ NotificationPreference.should_send_notification NotificationPreference.defaults
      "info" None (now env_ok) = true
  ∧ ∀ ev, ev ∈ email_sends (trace (send_notification_via_channels env_ok
                                     (notification_for 2 8) true (world_hello user_ada)).2) →
          ev ∈ email_sends (trace (world_hello user_ada))
          ∨ (ev = HelperDelay Email 2 8
             ∧ NotificationPreference.email_frequency NotificationPreference.defaults
               = "immediate").
Proof.
  split; [reflexivity|]. split; [reflexivity|]. split; [reflexivity|].
  destruct (email_only_when_immediate env_ok (notification_for 2 8) user_bob
              NotificationPreference.defaults (world_hello user_ada))
    as (_ & Honly & _); try reflexivity.
  exact Honly.
Defined.

(** ** Creating a notification from a template *)

Section TemplateUse.

Variable E : env.

Lemma create_notification_render_raised (self : NotificationTemplate.t) (user : User.t)
    (context : option (gmap string string)) (e : exn) (w : world) :
  NotificationTemplate.render self context = Raised e →
  create_notification E self user context w = (Raised e, w).
Proof. intros Hr. unfold create_notification, bind, lift. rewrite Hr. reflexivity. Qed.

(** Past a successful render the call inserts the rendered row and
    ends in the error of the creation, before the usage update. *)
Lemma create_notification_rendered (self : NotificationTemplate.t) (user : User.t)
    (context : option (gmap string string)) (r : rendered) (w : world) :
  NotificationTemplate.render self context = Done r →
  ∃ w', create_notification E self user context w = (Raised scheduled_time_error, w')
        ∧ notifications w'
          = (notifications w
             ++ [created_row E (User.id user) (r_title r) (r_message r)
                   (r_notification_type r) (r_is_priority r) (r_action_required r)
                   (r_target_url r) ("template:" +:+ NotificationTemplate.name self) w])%list
        ∧ users w' = users w ∧ templates w' = templates w ∧ batches w' = batches w.
Proof.
  intros Hr. unfold create_notification, bind, lift. rewrite Hr.
  destruct (objects_create_raises E (User.id user) (r_title r) (r_message r)
              (r_notification_type r) (r_is_priority r) (r_action_required r)
              (r_target_url r) ("template:" +:+ NotificationTemplate.name self) w)
    as (w' & -> & Hn & Hu & Ht & Hb & _).
  exists w'. auto.
Qed.

(** C5 (amended): for a template whose title and message templates are
    well-formed format strings (literal text, doubled braces, and
    replacement fields that are plain keyword names) and every context:
    when the context lacks a name the templates look up, rendering raises
    [KeyError] for a missing name and create-notification-from-template
    raises it with the world unchanged; when every such name is present,
    rendering succeeds with the formatted title and message. *)
Theorem create_notification_well_formed (self : NotificationTemplate.t) (user : User.t)
    (context : option (gmap string string)) (tk mk : list string) (w : world) :
  format_keys (NotificationTemplate.title_template self) = Some tk →
  format_keys (NotificationTemplate.message_template self) = Some mk →
  ((∃ k, k ∈ (tk ++ mk)%list ∧ default ∅ context !! k = None) →
   ∃ k, k ∈ (tk ++ mk)%list ∧ default ∅ context !! k = None
        ∧ NotificationTemplate.render self context = Raised (KeyError k)
        ∧ create_notification E self user context w = (Raised (KeyError k), w))
  ∧ ((∀ k, k ∈ (tk ++ mk)%list → is_Some (default ∅ context !! k)) →
     ∃ r,
       NotificationTemplate.render self context = Done r
       ∧ str_format (NotificationTemplate.title_template self) (default ∅ context)
         = Done (r_title r)
       ∧ str_format (NotificationTemplate.message_template self) (default ∅ context)
         = Done (r_message r)).
Proof.
  intros Ht Hm. split.
  - intros Hmiss.
    destruct (render_missing self context tk mk Ht Hm Hmiss) as (k & Hin & Hnone & Hr).
    exists k. repeat (split; [assumption|]).
    apply create_notification_render_raised, Hr.
  - intros Hall.
    destruct (render_done self context tk mk Ht Hm Hall) as (r & Hr).
    exists r. split; [exact Hr|].
    revert Hr. unfold NotificationTemplate.render.
    destruct (str_format (NotificationTemplate.title_template self) _) as [title| |];
      simpl; try discriminate.
    destruct (str_format (NotificationTemplate.message_template self) _) as [message| |];
      simpl; try discriminate.
    intros [= <-]. split; reflexivity.
Qed.

End TemplateUse.

(** C5, as stated, fails: the context provides [name], the one variable
    the templates use, yet create-notification-from-template raises
    [ValueError] on the stray brace of the title, and nothing changes. *)
Lemma create_notification_fails_with_all_variables :
  findall_placeholders (NotificationTemplate.title_template template_stray) = ["name"]
  ∧ findall_placeholders (NotificationTemplate.message_template template_stray) = ["name"]
  ∧ ({[ "name" := "Ada" ]} : gmap string string) !! "name" = Some "Ada"
  ∧ create_notification env_ok template_stray user_bob (Some {[ "name" := "Ada" ]})
      world_batch
    = (Raised (ValueError "Single '}' encountered in format string"), world_batch).
Proof. repeat split; vm_compute; reflexivity. Qed.

Lemma create_notification_well_formed_witness :
  format_keys (NotificationTemplate.title_template template_welcome) = Some ["user_name"]
  ∧ format_keys (NotificationTemplate.message_template template_welcome) = Some ["user_name"]
  ∧ ∃ r,
      NotificationTemplate.render template_welcome (Some {[ "user_name" := "Bob" ]}) = Done r
      ∧ str_format "Hi {user_name}" {[ "user_name" := "Bob" ]} = Done (r_title r).
Proof.
  split; [reflexivity|]. split; [reflexivity|].
  destruct (create_notification_well_formed env_ok template_welcome user_bob
              (Some {[ "user_name" := "Bob" ]}) ["user_name"] ["user_name"] world_batch
              eq_refl eq_refl) as [_ Hok].
  destruct Hok as (r & Hr & Htitle & _).
  - intros k Hin. simpl in Hin.
    apply elem_of_cons in Hin as [->|Hin]; [exists "Bob"; reflexivity|].
    apply elem_of_cons in Hin as [->|Hin]; [exists "Bob"; reflexivity|].
    apply elem_of_nil in Hin. contradiction.
  - exists r. split; [exact Hr|exact Htitle].
Defined.

(** ** Batch processing *)

Section ReturnsRules.

Context {S A B : Type}.

Lemma returns_ret (a : A) (s : S) (Q : A → S → Prop) (R : exn → S → Prop) :
  Q a s → returns (ret a) s Q R.
Proof. intros H. exact H. Qed.

Lemma returns_bind (m : M S A) (k : A → M S B) (s : S)
    (Q : B → S → Prop) (R : exn → S → Prop) :
  returns m s (λ a s', returns (k a) s' Q R) R → returns (bind m k) s Q R.
Proof.
  unfold returns, bind. destruct (m s) as [[a|e|] s']; intros H; exact H.
Qed.

Lemma returns_try_except (body : M S A) (handler : exn → M S A) (s : S)
    (Q : A → S → Prop) (R : exn → S → Prop) :
  returns body s Q (λ e s', returns (handler e) s' Q R) →
  returns (try_except body handler) s Q R.
Proof.
  unfold returns, try_except. destruct (body s) as [[a|e|] s']; intros H; exact H.
Qed.

Lemma returns_weaken (m : M S A) (s : S) (Q Q' : A → S → Prop) (R R' : exn → S → Prop) :
  returns m s Q R →
  (∀ a s', Q a s' → Q' a s') →
  (∀ e s', R e s' → R' e s') →
  returns m s Q' R'.
Proof.
  unfold returns. destruct (m s) as [[a|e|] s']; intros H HQ HR; auto.
Qed.

Lemma returns_modify (g : S → S) (s : S) (Q : unit → S → Prop) (R : exn → S → Prop) :
  Q tt (g s) → returns (modify g) s Q R.
Proof. intros H. exact H. Qed.

Lemma returns_gets (g : S → A) (s : S) (Q : A → S → Prop) (R : exn → S → Prop) :
  Q (g s) s → returns (gets g) s Q R.
Proof. intros H. exact H. Qed.

End ReturnsRules.

Lemma returns_in_world {A : Type} (m : M world A) (f : frame)
    (Q : A → frame → Prop) (R : exn → frame → Prop) :
  returns m (f_world f)
    (λ a w, Q a (mk_frame w (batch f) (template_cache f) (created_notifications f)))
    (λ e w, R e (mk_frame w (batch f) (template_cache f) (created_notifications f))) →
  returns (in_world m) f Q R.
Proof.
  unfold returns, in_world. destruct (m (f_world f)) as [[a|e|] w]; intros H; exact H.
Qed.

Lemma format_from_modelled (kwargs : gmap string string) (s : string) :
  ∀ (st : fstate) (out : string) (ks : list string),
    format_keys_from s st = Some ks →
    format_from s st out kwargs ≠ Unmodelled.
Proof.
  induction s as [|c rest IH]; intros st out ks Hk; simpl in *.
  - destruct st; discriminate.
  - destruct st as [| | |name].
    + repeat case_decide; eauto.
    + case_decide; [eauto|].
      destruct (classify c); try discriminate; eauto.
    + case_decide; [eauto|discriminate].
    + destruct (classify c); try discriminate; [|eauto].
      destruct (all_digits name) eqn:Hd; [discriminate|].
      destruct (format_keys_from rest Text) as [ks'|] eqn:Hrest; [|discriminate].
      unfold get_field. rewrite Hd.
      destruct (kwargs !! name); [eauto|discriminate].
Qed.

Lemma render_modelled (t : NotificationTemplate.t) (context : option (gmap string string)) :
  well_formed t → NotificationTemplate.render t context ≠ Unmodelled.
Proof.
  intros [[tk Ht] [mk Hm]]. unfold NotificationTemplate.render, str_format.
  pose proof (format_from_modelled (default ∅ context) _ Text "" tk Ht) as Htitle.
  destruct (format_from _ Text "" _) as [title| |]; simpl; [|discriminate|contradiction].
  pose proof (format_from_modelled (default ∅ context) _ Text "" mk Hm) as Hmessage.
  destruct (format_from _ Text "" _) as [message| |]; simpl;
    [discriminate|discriminate|contradiction].
Qed.

Section BatchRuns.

Variable E : env.
Variables bid total : Z.
Variable tpl : option Z.

Lemma batch_inv_same (P : Z → Z → Z → Prop) (st : batch_status) (f f' : frame) :
  batch_inv bid total tpl P st f →
  templates (f_world f') = templates (f_world f) →
  batches (f_world f') = batches (f_world f) →
  batch f' = batch f →
  created_notifications f' = created_notifications f →
  (∀ t, template_cache f' = Some t → well_formed t) →
  batch_inv bid total tpl P st f'.
Proof.
  intros (Hts & _ & b & row & Hb & Hrest) Ht' Hb' Hbo Hcr Hc'.
  split; [rewrite Ht'; exact Hts|]. split; [exact Hc'|].
  exists b, row. rewrite Hb', Hbo, Hcr. split; [exact Hb|exact Hrest].
Qed.

Lemma batch_update_inv (g : NotificationBatch.t → NotificationBatch.t)
    (write : NotificationBatch.t → NotificationBatch.t → NotificationBatch.t)
    (P P' : Z → Z → Z → Prop) (st st' : batch_status) (f : frame) :
  batch_inv bid total tpl P st f →
  (∀ b, NotificationBatch.id (g b) = NotificationBatch.id b
        ∧ NotificationBatch.template (g b) = NotificationBatch.template b) →
  (∀ b row, NotificationBatch.sent_count row = NotificationBatch.sent_count b →
            NotificationBatch.failed_count row = NotificationBatch.failed_count b →
            NotificationBatch.total_count (write (g b) row)
            = NotificationBatch.total_count row
            ∧ NotificationBatch.sent_count (write (g b) row)
              = NotificationBatch.sent_count (g b)
            ∧ NotificationBatch.failed_count (write (g b) row)
              = NotificationBatch.failed_count (g b)) →
  (∀ b row, NotificationBatch.status row = st →
            NotificationBatch.status (write (g b) row) = st') →
  (∀ b c, P (NotificationBatch.sent_count b) (NotificationBatch.failed_count b) c →
          P' (NotificationBatch.sent_count (g b)) (NotificationBatch.failed_count (g b)) c) →
  ∃ f', batch_update g write f = (Done tt, f') ∧ batch_inv bid total tpl P' st' f'.
Proof.
  intros (Hts & Hc & b & row & Hb & Hid & Htpl & Hrow & Ht & Hst & Hs & Hf & Hp)
    Hg Hw Hstatus HP.
  unfold batch_update, the_batch, bind_batch, in_world, bind, gets, modify, ret.
  simpl. rewrite Hb. simpl. rewrite Hid, Hrow. simpl. eexists. split; [reflexivity|].
  destruct (Hw b row Hs Hf) as (Hwt & Hws & Hwf). destruct (Hg b) as [Hgid Hgt].
  split; [exact Hts|]. split; [exact Hc|].
  exists (g b), (write (g b) row). simpl.
  rewrite lookup_alter_eq, Hrow. simpl.
  split; [reflexivity|]. split; [rewrite Hgid; exact Hid|].
  split; [rewrite Hgt; exact Htpl|]. split; [reflexivity|].
  split; [congruence|]. split; [apply (Hstatus b row Hst)|].
  split; [exact Hws|]. split; [exact Hwf|]. apply HP, Hp.
Qed.

Lemma returns_batch_update (g : NotificationBatch.t → NotificationBatch.t)
    (write : NotificationBatch.t → NotificationBatch.t → NotificationBatch.t)
    (P P' : Z → Z → Z → Prop) (st st' : batch_status) (f : frame)
    (Q : unit → frame → Prop) (R : exn → frame → Prop) :
  batch_inv bid total tpl P st f →
  (∀ b, NotificationBatch.id (g b) = NotificationBatch.id b
        ∧ NotificationBatch.template (g b) = NotificationBatch.template b) →
  (∀ b row, NotificationBatch.sent_count row = NotificationBatch.sent_count b →
            NotificationBatch.failed_count row = NotificationBatch.failed_count b →
            NotificationBatch.total_count (write (g b) row)
            = NotificationBatch.total_count row
            ∧ NotificationBatch.sent_count (write (g b) row)
              = NotificationBatch.sent_count (g b)
            ∧ NotificationBatch.failed_count (write (g b) row)
              = NotificationBatch.failed_count (g b)) →
  (∀ b row, NotificationBatch.status row = st →
            NotificationBatch.status (write (g b) row) = st') →
  (∀ b c, P (NotificationBatch.sent_count b) (NotificationBatch.failed_count b) c →
          P' (NotificationBatch.sent_count (g b)) (NotificationBatch.failed_count (g b)) c) →
  (∀ f', batch_inv bid total tpl P' st' f' → Q tt f') →
  returns (batch_update g write) f Q R.
Proof.
  intros Hinv Hg Hw Hstatus HP HQ.
  destruct (batch_update_inv g write P P' st st' f Hinv Hg Hw Hstatus HP)
    as (f' & Hrun & Hinv').
  unfold returns. rewrite Hrun. apply HQ, Hinv'.
Qed.

(** Either handler of the loop body counts the recipient as failed,
    once. *)
Lemma returns_recipient_handler (e : exn) (n : Z) (st : batch_status) (f : frame) :
  batch_inv bid total tpl (failed_only n) st f →
  returns (recipient_handler e) f
    (λ _ f', batch_inv bid total tpl (failed_only (n + 1)) st f') (λ _ _, False).
Proof.
  intros Hinv.
  assert (Hgo : ∀ l msg,
            returns (in_world (log l msg) ;;
                     batch_update NotificationBatch.incr_failed write_failed) f
              (λ _ f', batch_inv bid total tpl (failed_only (n + 1)) st f')
              (λ _ _, False)).
  { intros l msg. apply returns_bind, returns_in_world. unfold log, emit.
    apply returns_modify.
    apply (returns_batch_update _ _ (failed_only n) (failed_only (n + 1)) st st).
    - apply (batch_inv_same _ _ f); [exact Hinv|reflexivity..|].
      destruct Hinv as (_ & Hc & _). exact Hc.
    - intros b. split; reflexivity.
    - intros b row Hs Hf. simpl. auto.
    - intros b row Hst. exact Hst.
    - intros b c (H1 & H2 & H3). simpl. unfold failed_only. auto with lia.
    - auto. }
  destruct e as [[]| | | | | | | |]; apply Hgo.
Qed.

Lemma returns_User_objects_get (rid : recipient_id) (w : world)
    (Q : User.t → world → Prop) (R : exn → world → Prop) :
  (∀ u, Q u w) → (∀ e, R e w) → returns (User_objects_get rid) w Q R.
Proof.
  intros HQ HR. unfold returns, User_objects_get, bind, gets, ret, raise.
  destruct rid as [pk|raw]; simpl; [|apply HR].
  destruct (users w !! pk); [apply HQ|apply HR].
Qed.

Lemma returns_batch_template (P : Z → Z → Z → Prop) (st : batch_status) (f : frame)
    (Q : NotificationTemplate.t → frame → Prop) (R : exn → frame → Prop) :
  batch_inv bid total tpl P st f →
  (∀ t f', well_formed t → batch_inv bid total tpl P st f' → Q t f') →
  (∀ e, R e f) →
  returns batch_template f Q R.
Proof.
  intros Hinv HQ HR. pose proof Hinv as (Hts & Hc & b & row & Hb & _ & Htpl & _).
  unfold returns, batch_template, the_batch, in_world, bind, gets, modify, ret, raise.
  simpl. destruct (template_cache f) as [t|] eqn:Hcache.
  { apply HQ; [apply Hc; reflexivity|exact Hinv]. }
  rewrite Hb. destruct (NotificationBatch.template b) as [tid|] eqn:Htid; [|apply HR].
  simpl. destruct (templates (f_world f) !! tid) as [t|] eqn:Ht; simpl; [|].
  - assert (Hwf : well_formed t) by (apply (Hts tid t); [symmetry; exact Htpl|exact Ht]).
    apply HQ; [exact Hwf|].
    apply (batch_inv_same _ _ f); [exact Hinv|reflexivity..|].
    simpl. intros t' [= <-]. exact Hwf.
  - destruct f. apply HR.
Qed.

(** The creation inside the loop body never returns: it raises, with
    the batch and template tables as they were. *)
Lemma returns_create_notification (self : NotificationTemplate.t) (user : User.t)
    (context : option (gmap string string)) (w : world)
    (Q : Notification.t * NotificationTemplate.t → world → Prop)
    (R : exn → world → Prop) :
  well_formed self →
  (∀ e w', batches w' = batches w → templates w' = templates w → R e w') →
  returns (create_notification E self user context) w Q R.
Proof.
  intros Hwf HR. unfold returns.
  pose proof (render_modelled self context Hwf) as Hmod.
  destruct (NotificationTemplate.render self context) as [r|e|] eqn:Hr;
    [| |contradiction].
  - destruct (create_notification_rendered E self user context r w Hr)
      as (w' & -> & _ & _ & Ht & Hb). apply HR; assumption.
  - rewrite (create_notification_render_raised E self user context e w Hr).
    apply HR; reflexivity.
Qed.

(** One pass of the loop counts its recipient as failed, whoever it is. *)
Lemma process_recipient_failed (rid : recipient_id) (n : Z) (f : frame) :
  batch_inv bid total tpl (failed_only n) Sending f →
  returns (process_recipient E rid) f
    (λ _ f', batch_inv bid total tpl (failed_only (n + 1)) Sending f') (λ _ _, False).
Proof.
  intros Hinv. pose proof Hinv as (Hts & Hc & b & _ & Hb & _).
  unfold process_recipient. apply returns_try_except.
  apply (returns_weaken _ _ (λ _ _, False)
           _ (λ _ f', batch_inv bid total tpl (failed_only n) Sending f')).
  2:{ intros a f' []. }
  2:{ intros e f' Hinv'. apply returns_recipient_handler, Hinv'. }
  set (f0 := mk_frame (f_world f) (batch f) (template_cache f) (created_notifications f)).
  assert (Hinv0 : batch_inv bid total tpl (failed_only n) Sending f0)
    by (apply (batch_inv_same _ _ f); [exact Hinv|reflexivity..|exact Hc]).
  apply returns_bind, returns_in_world, returns_User_objects_get;
    [|intros e; exact Hinv0].
  intros user. fold f0.
  apply returns_bind. unfold the_batch. apply returns_bind, returns_gets.
  change (batch f0) with (batch f). rewrite Hb. apply returns_ret.
  apply returns_bind, (returns_batch_template (failed_only n) Sending f0 _ _ Hinv0);
    [|intros e; exact Hinv0].
  intros template f1 Hwf Hinv1. pose proof Hinv1 as (_ & Hc1 & _).
  apply returns_bind, returns_in_world, (returns_create_notification _ _ _ _ _ _ Hwf).
  intros e w' Hb' Ht'.
  apply (batch_inv_same _ _ f1); [exact Hinv1|assumption|assumption|reflexivity..|].
  exact Hc1.
Qed.

Lemma for_each_failed (l : list recipient_id) :
  ∀ (n : Z) (f : frame),
    batch_inv bid total tpl (failed_only n) Sending f →
    returns (for_each l (process_recipient E)) f
      (λ _ f', batch_inv bid total tpl
                 (failed_only (n + Z.of_nat (List.length l))) Sending f')
      (λ _ _, False).
Proof.
  induction l as [|rid l IH]; intros n f Hinv; simpl for_each.
  - apply returns_ret. simpl. rewrite Z.add_0_r. exact Hinv.
  - apply returns_bind.
    apply (returns_weaken _ _ _ _ _ _ (process_recipient_failed rid n f Hinv)); [|auto].
    intros _ f' Hinv'.
    apply (returns_weaken _ _ _ _ _ _ (IH (n + 1) f' Hinv')); [|auto].
    intros _ f'' Hinv''. simpl List.length.
    replace (n + Z.of_nat (Datatypes.S (List.length l)))
      with (n + 1 + Z.of_nat (List.length l)) by lia.
    exact Hinv''.
Qed.

(** The batch loaded and started. *)
Lemma batch_started (w : world) (b : NotificationBatch.t)
    (Q : unit → frame → Prop) (R : exn → frame → Prop) :
  (∀ tid t, tpl = Some tid → templates w !! tid = Some t → well_formed t) →
  batches w !! bid = Some b →
  NotificationBatch.id b = bid →
  NotificationBatch.template b = tpl →
  NotificationBatch.status b = Pending →
  NotificationBatch.total_count b = total →
  NotificationBatch.sent_count b = 0 →
  NotificationBatch.failed_count b = 0 →
  (∀ f', batch_inv bid total tpl (failed_only 0) Sending f' → Q tt f') →
  returns (batch_update (NotificationBatch.start_sending (now E)) write_started)
    (mk_frame w (Some b) None []) Q R.
Proof.
  intros Hts Hrow Hid Htpl Hstatus Htotal Hsent Hfailed HQ.
  assert (Hinv0 : batch_inv bid total tpl (failed_only 0) Pending
                    (mk_frame w (Some b) None [])).
  { split; [exact Hts|]. split; [simpl; discriminate|].
    exists b, b. simpl. unfold failed_only. rewrite Hsent, Hfailed. auto 12. }
  apply (returns_batch_update _ _ _ (failed_only 0) Pending Sending _ _ _ Hinv0).
  - intros b0. split; reflexivity.
  - intros b0 row0 Hs Hf. simpl. auto.
  - intros b0 row0 Hst. reflexivity.
  - intros b0 c H. exact H.
  - exact HQ.
Qed.

(** The run cut after [k] passes: [min k n] recipients are counted. *)
Lemma batch_prefix_run (w : world) (b : NotificationBatch.t) (l : list recipient_id)
    (k : nat) :
  (∀ tid t, tpl = Some tid → templates w !! tid = Some t → well_formed t) →
  batches w !! bid = Some b →
  NotificationBatch.id b = bid →
  NotificationBatch.template b = tpl →
  NotificationBatch.status b = Pending →
  NotificationBatch.user_ids b = Some l →
  NotificationBatch.total_count b = total →
  NotificationBatch.sent_count b = 0 →
  NotificationBatch.failed_count b = 0 →
  ∃ f' row,
    batch_prefix E bid k (mk_frame w None None []) = (Done tt, f')
    ∧ batches (f_world f') !! bid = Some row
    ∧ NotificationBatch.total_count row = total
    ∧ NotificationBatch.sent_count row = 0
    ∧ NotificationBatch.failed_count row = Z.of_nat (List.length (take k l)).
Proof.
  intros Hts Hrow Hid Htpl Hstatus Hids Htotal Hsent Hfailed.
  assert (Hrun : returns (batch_prefix E bid k) (mk_frame w None None [])
                   (λ _ f', batch_inv bid total tpl
                              (failed_only (Z.of_nat (List.length (take k l)))) Sending f')
                   (λ _ _, False)).
  { unfold batch_prefix.
    apply returns_bind, returns_in_world, returns_gets. simpl. rewrite Hrow.
    apply returns_bind. unfold bind_batch. apply returns_modify. simpl.
    apply returns_bind,
      (batch_started w b _ _ Hts Hrow Hid Htpl Hstatus Htotal Hsent Hfailed).
    intros f1 Hinv1. rewrite Hids. simpl default.
    apply (returns_weaken _ _ _ _ _ _ (for_each_failed (take k l) 0 f1 Hinv1)); auto. }
  revert Hrun. unfold returns.
  destruct (batch_prefix E bid k (mk_frame w None None [])) as [[[]|e|] f'];
    [|contradiction..].
  intros (_ & _ & b' & row & _ & _ & _ & Hrow' & Ht' & _ & Hs' & Hf' & H0 & Hn & _).
  exists f', row. split; [reflexivity|]. split; [exact Hrow'|].
  split; [exact Ht'|]. split; congruence.
Qed.

(** The whole run on a pending batch with recipients. *)
Lemma batch_run (w : world) (b : NotificationBatch.t) (l : list recipient_id) :
  (∀ tid t, tpl = Some tid → templates w !! tid = Some t → well_formed t) →
  batches w !! bid = Some b →
  NotificationBatch.id b = bid →
  NotificationBatch.template b = tpl →
  NotificationBatch.status b = Pending →
  NotificationBatch.user_ids b = Some l →
  l ≠ [] →
  NotificationBatch.total_count b = total →
  total = Z.of_nat (List.length l) →
  NotificationBatch.sent_count b = 0 →
  NotificationBatch.failed_count b = 0 →
  ∃ w' row,
    process_notification_batch E bid w
    = (Done (ok_report [("batch_id", bid); ("created_count", 0);
                        ("failed_count", total)]), w')
    ∧ batches w' !! bid = Some row
    ∧ NotificationBatch.status row = Completed
    ∧ NotificationBatch.total_count row = total
    ∧ NotificationBatch.sent_count row = 0
    ∧ NotificationBatch.failed_count row = total.
Proof.
  intros Hts Hrow Hid Htpl Hstatus Hids Hne Htotal Hlen Hsent Hfailed.
  assert (Hbody : returns (process_notification_batch_body E bid) (mk_frame w None None [])
                    (λ r f', ∃ row,
                       r = ok_report [("batch_id", bid); ("created_count", 0);
                                      ("failed_count", total)]
                       ∧ batches (f_world f') !! bid = Some row
                       ∧ NotificationBatch.status row = Completed
                       ∧ NotificationBatch.total_count row = total
                       ∧ NotificationBatch.sent_count row = 0
                       ∧ NotificationBatch.failed_count row = total)
                    (λ _ _, False)).
  { unfold process_notification_batch_body. apply returns_try_except.
    match goal with
    | |- returns _ _ ?Q _ =>
        apply (returns_weaken _ _ Q _ (λ _ _, False)); [|auto|intros e f' []]
    end.
    apply returns_bind, returns_in_world, returns_gets. simpl. rewrite Hrow.
    apply returns_bind. unfold bind_batch. apply returns_modify. simpl.
    rewrite Hstatus. simpl.
    apply returns_bind,
      (batch_started w b _ _ Hts Hrow Hid Htpl Hstatus Htotal Hsent Hfailed).
    intros f1 Hinv1. rewrite Hids. simpl default.
    destruct l as [|rid l]; [contradiction|].
    apply returns_bind.
    apply (returns_weaken _ _ _ _ _ _ (for_each_failed (rid :: l) 0 f1 Hinv1)); [|auto].
    intros _ f2 Hinv2. rewrite Z.add_0_l, <- Hlen in Hinv2.
    apply returns_bind,
      (returns_batch_update _ _ _ (failed_only total) Sending Completed _ _ _ Hinv2).
    { intros b0. split; reflexivity. }
    { intros b0 row0 Hs Hf. simpl. auto. }
    { intros b0 row0 Hst. reflexivity. }
    { intros b0 c H. exact H. }
    intros f3 Hinv3.
    apply returns_bind, returns_in_world. unfold log, emit. apply returns_modify.
    apply returns_bind, returns_gets. simpl.
    destruct Hinv3 as (_ & _ & b3 & row3 & Hb3 & Hid3 & _ & Hrow3 & Ht3 & Hst3 & Hs3 & Hf3
                       & H0 & Hn & Hc3).
    unfold the_batch. apply returns_bind, returns_bind, returns_gets. simpl.
    rewrite Hb3. apply returns_ret, returns_ret.
    exists row3. simpl. rewrite Hc3, Hn. split; [reflexivity|].
    split; [exact Hrow3|]. split; [exact Hst3|]. split; [exact Ht3|].
    split; congruence. }
  revert Hbody. unfold returns, process_notification_batch.
  destruct (process_notification_batch_body E bid (mk_frame w None None []))
    as [[r|e|] f']; simpl; [|contradiction..].
  intros (row & -> & Hrow' & Hrest). exists (f_world f'), row. auto.
Qed.

(** The whole run on a pending batch without recipients. *)
Lemma batch_run_empty (w : world) (b : NotificationBatch.t) :
  (∀ tid t, tpl = Some tid → templates w !! tid = Some t → well_formed t) →
  batches w !! bid = Some b →
  NotificationBatch.id b = bid →
  NotificationBatch.template b = tpl →
  NotificationBatch.status b = Pending →
  NotificationBatch.user_ids b = Some [] →
  NotificationBatch.total_count b = total →
  NotificationBatch.sent_count b = 0 →
  NotificationBatch.failed_count b = 0 →
  ∃ w' row,
    process_notification_batch E bid w = (Done (not_ok "No user IDs found"), w')
    ∧ batches w' !! bid = Some row
    ∧ NotificationBatch.status row = BatchFailed
    ∧ NotificationBatch.total_count row = total
    ∧ NotificationBatch.sent_count row = 0
    ∧ NotificationBatch.failed_count row = 0.
Proof.
  intros Hts Hrow Hid Htpl Hstatus Hids Htotal Hsent Hfailed.
  assert (Hbody : returns (process_notification_batch_body E bid) (mk_frame w None None [])
                    (λ r f', ∃ row,
                       r = not_ok "No user IDs found"
                       ∧ batches (f_world f') !! bid = Some row
                       ∧ NotificationBatch.status row = BatchFailed
                       ∧ NotificationBatch.total_count row = total
                       ∧ NotificationBatch.sent_count row = 0
                       ∧ NotificationBatch.failed_count row = 0)
                    (λ _ _, False)).
  { unfold process_notification_batch_body. apply returns_try_except.
    match goal with
    | |- returns _ _ ?Q _ =>
        apply (returns_weaken _ _ Q _ (λ _ _, False)); [|auto|intros e f' []]
    end.
    apply returns_bind, returns_in_world, returns_gets. simpl. rewrite Hrow.
    apply returns_bind. unfold bind_batch. apply returns_modify. simpl.
    rewrite Hstatus. simpl.
    apply returns_bind,
      (batch_started w b _ _ Hts Hrow Hid Htpl Hstatus Htotal Hsent Hfailed).
    intros f1 Hinv1. rewrite Hids. simpl default.
    apply returns_bind, returns_in_world. unfold log, emit. apply returns_modify.
    assert (Hinv2 : batch_inv bid total tpl (failed_only 0) Sending
                      (mk_frame
                         (with_trace (trace (f_world f1)
                                      ++ [Log Error "No user IDs found in batch"])%list
                            (f_world f1))
                         (batch f1) (template_cache f1) (created_notifications f1))).
    { apply (batch_inv_same _ _ f1); [exact Hinv1|reflexivity..|].
      destruct Hinv1 as (_ & Hc & _). exact Hc. }
    apply returns_bind,
      (returns_batch_update _ _ _ (failed_only 0) Sending BatchFailed _ _ _ Hinv2).
    { intros b0. split; reflexivity. }
    { intros b0 row0 Hs Hf. simpl. auto. }
    { intros b0 row0 Hst. reflexivity. }
    { intros b0 c H. exact H. }
    intros f3 (_ & _ & b3 & row3 & _ & _ & _ & Hrow3 & Ht3 & Hst3 & Hs3 & Hf3 & H0 & Hn & _).
    apply returns_ret. exists row3. split; [reflexivity|].
    split; [exact Hrow3|]. split; [exact Hst3|]. split; [exact Ht3|].
    split; congruence. }
  revert Hbody. unfold returns, process_notification_batch.
  destruct (process_notification_batch_body E bid (mk_frame w None None []))
    as [[r|e|] f']; simpl; [|contradiction..].
  intros (row & -> & Hrow' & Hrest). exists (f_world f'), row. auto.
Qed.

End BatchRuns.

(** C4: for a pending batch stored with [total_count] the length of its
    recipient list and zero counters (its template, if any, within the
    format strings modelled), whatever the ids are and whatever the
    environment does: cut after any number of passes of the loop, the
    stored row has [sent_count + failed_count] equal to the number of
    recipients processed so far, which is at most [total_count]; and the
    task returns with [sent_count + failed_count = total_count] in the
    stored row. *)
Theorem batch_counters_add_up (E : env) (bid : Z) (w : world)
    (b : NotificationBatch.t) (l : list recipient_id) :
  (∀ tid t, NotificationBatch.template b = Some tid → templates w !! tid = Some t →
            well_formed t) →
  batches w !! bid = Some b →
  NotificationBatch.id b = bid →
  NotificationBatch.status b = Pending →
  NotificationBatch.user_ids b = Some l →
  NotificationBatch.total_count b = Z.of_nat (List.length l) →
  NotificationBatch.sent_count b = 0 →
  NotificationBatch.failed_count b = 0 →
  (∀ k, ∃ f' row,
     batch_prefix E bid k (mk_frame w None None []) = (Done tt, f')
     ∧ batches (f_world f') !! bid = Some row
     ∧ NotificationBatch.sent_count row + NotificationBatch.failed_count row
       = Z.of_nat (k `min` List.length l)
     ∧ NotificationBatch.sent_count row + NotificationBatch.failed_count row
       <= NotificationBatch.total_count row)
  ∧ ∃ r w' row,
      process_notification_batch E bid w = (Done r, w')
      ∧ batches w' !! bid = Some row
      ∧ NotificationBatch.total_count row = Z.of_nat (List.length l)
      ∧ NotificationBatch.sent_count row + NotificationBatch.failed_count row
        = NotificationBatch.total_count row.
Proof.
  intros Hts Hrow Hid Hstatus Hids Htotal Hsent Hfailed. split.
  - intros k.
    destruct (batch_prefix_run E bid (Z.of_nat (List.length l))
                (NotificationBatch.template b) w b l k Hts Hrow Hid eq_refl Hstatus Hids
                Htotal Hsent Hfailed)
      as (f' & row & Hrun & Hrow' & Ht' & Hs' & Hf').
    exists f', row. split; [exact Hrun|]. split; [exact Hrow'|].
    rewrite Hs', Hf', Ht', length_take. split; lia.
  - destruct l as [|rid l].
    + destruct (batch_run_empty E bid 0 (NotificationBatch.template b) w b Hts Hrow Hid
                  eq_refl Hstatus Hids Htotal Hsent Hfailed)
        as (w' & row & Hrun & Hrow' & _ & Ht' & Hs' & Hf').
      eexists _, w', row. split; [exact Hrun|]. split; [exact Hrow'|].
      rewrite Hs', Hf', Ht'. split; reflexivity.
    + destruct (batch_run E bid (Z.of_nat (List.length (rid :: l)))
                  (NotificationBatch.template b) w b (rid :: l) Hts Hrow Hid eq_refl
                  Hstatus Hids ltac:(discriminate) Htotal eq_refl Hsent Hfailed)
        as (w' & row & Hrun & Hrow' & _ & Ht' & Hs' & Hf').
      eexists _, w', row. split; [exact Hrun|]. split; [exact Hrow'|].
      split; [exact Ht'|]. rewrite Hs', Hf', Ht'. reflexivity.
Qed.

Lemma welcome_well_formed (tpl : option Z) (ts : gmap Z NotificationTemplate.t) :
  ts = {[ 1 := template_welcome ]} →
  ∀ tid t, tpl = Some tid → ts !! tid = Some t → well_formed t.
Proof.
  intros -> tid t _ Ht. apply lookup_singleton_Some in Ht as [_ <-].
  split; eexists; reflexivity.
Qed.

Lemma batch_counters_add_up_witness :
  ∃ r w' row,
    process_notification_batch env_ok 5 world_three = (Done r, w')
    ∧ batches w' !! 5 = Some row
    ∧ NotificationBatch.total_count row = 3
    ∧ NotificationBatch.sent_count row + NotificationBatch.failed_count row
      = NotificationBatch.total_count row.
Proof.
  destruct (batch_counters_add_up env_ok 5 world_three
              (new_batch 5 "Batch" 1 ∅ [Pk 8; Pk 99; Pk 9] 900) [Pk 8; Pk 99; Pk 9])
    as [_ Hrun];
    [apply welcome_well_formed; reflexivity|reflexivity|reflexivity|reflexivity
    |reflexivity|reflexivity|reflexivity|reflexivity|].
  exact Hrun.
Defined.

(** X18: in every environment (broker, channel layer or mail down, users
    or preference rows missing), a pending batch with recipients is
    completed with every recipient counted as failed: the task returns a
    success report with [created_count] 0 and [failed_count] the number
    of recipients, and the stored batch is ['completed'] with
    [sent_count] 0 and [failed_count = total_count]. *)
Theorem batch_marks_every_recipient_failed (E : env) (bid : Z) (w : world)
    (b : NotificationBatch.t) (l : list recipient_id) :
  (∀ tid t, NotificationBatch.template b = Some tid → templates w !! tid = Some t →
            well_formed t) →
  batches w !! bid = Some b →
  NotificationBatch.id b = bid →
  NotificationBatch.status b = Pending →
  NotificationBatch.user_ids b = Some l →
  l ≠ [] →
  NotificationBatch.total_count b = Z.of_nat (List.length l) →
  NotificationBatch.sent_count b = 0 →
  NotificationBatch.failed_count b = 0 →
  ∃ w' row,
    process_notification_batch E bid w
    = (Done (ok_report [("batch_id", bid); ("created_count", 0);
                        ("failed_count", Z.of_nat (List.length l))]), w')
    ∧ batches w' !! bid = Some row
    ∧ NotificationBatch.status row = Completed
    ∧ NotificationBatch.sent_count row = 0
    ∧ NotificationBatch.failed_count row = NotificationBatch.total_count row
    ∧ NotificationBatch.total_count row = Z.of_nat (List.length l).
Proof.
  intros Hts Hrow Hid Hstatus Hids Hne Htotal Hsent Hfailed.
  destruct (batch_run E bid (Z.of_nat (List.length l)) (NotificationBatch.template b)
              w b l Hts Hrow Hid eq_refl Hstatus Hids Hne Htotal eq_refl Hsent Hfailed)
    as (w' & row & Hrun & Hrow' & Hst & Ht & Hs & Hf).
  exists w', row. rewrite Ht, Hf. auto 10.
Qed.

(** X19: a batch is processed once: after the task has run on a pending
    batch, a second run in any environment is refused with 'Batch not in
    pending status' and changes nothing but the log. *)
Theorem processed_batch_is_refused (E E' : env) (bid : Z) (w : world)
    (b : NotificationBatch.t) (l : list recipient_id) :
  (∀ tid t, NotificationBatch.template b = Some tid → templates w !! tid = Some t →
            well_formed t) →
  batches w !! bid = Some b →
  NotificationBatch.id b = bid →
  NotificationBatch.status b = Pending →
  NotificationBatch.user_ids b = Some l →
  NotificationBatch.total_count b = Z.of_nat (List.length l) →
  NotificationBatch.sent_count b = 0 →
  NotificationBatch.failed_count b = 0 →
  ∃ r w',
    process_notification_batch E bid w = (Done r, w')
    ∧ process_notification_batch E' bid w'
      = (Done (not_ok "Batch not in pending status"),
         with_trace (trace w' ++ [Log Error "Batch is not in pending status"]) w').
Proof.
  intros Hts Hrow Hid Hstatus Hids Htotal Hsent Hfailed.
  assert (Hrun : ∃ r w' row,
            process_notification_batch E bid w = (Done r, w')
            ∧ batches w' !! bid = Some row
            ∧ NotificationBatch.status row ≠ Pending).
  { destruct l as [|rid l].
    - destruct (batch_run_empty E bid 0 (NotificationBatch.template b) w b Hts Hrow Hid
                  eq_refl Hstatus Hids Htotal Hsent Hfailed)
        as (w' & row & Hrun & Hrow' & Hst & _).
      eexists _, w', row. rewrite Hst.
      split; [exact Hrun|]. split; [exact Hrow'|discriminate].
    - destruct (batch_run E bid (Z.of_nat (List.length (rid :: l)))
                  (NotificationBatch.template b) w b (rid :: l) Hts Hrow Hid eq_refl
                  Hstatus Hids ltac:(discriminate) Htotal eq_refl Hsent Hfailed)
        as (w' & row & Hrun & Hrow' & Hst & _).
      eexists _, w', row. rewrite Hst.
      split; [exact Hrun|]. split; [exact Hrow'|discriminate]. }
  destruct Hrun as (r & w' & row & Hrun & Hrow' & Hst).
  exists r, w'. split; [exact Hrun|].
  unfold process_notification_batch, process_notification_batch_body, try_except,
    in_world, bind_batch, log, emit, bind, gets, modify, ret.
  simpl. rewrite Hrow'. simpl. rewrite bool_decide_eq_true_2 by exact Hst. reflexivity.
Qed.

Lemma batch_marks_every_recipient_failed_witness :
  ∃ w' row,
    process_notification_batch env_broker_down 5 world_three
    = (Done (ok_report [("batch_id", 5); ("created_count", 0); ("failed_count", 3)]), w')
    ∧ batches w' !! 5 = Some row
    ∧ NotificationBatch.status row = Completed
    ∧ NotificationBatch.sent_count row = 0
    ∧ NotificationBatch.failed_count row = 3.
Proof.
  destruct (batch_marks_every_recipient_failed env_broker_down 5 world_three
              (new_batch 5 "Batch" 1 ∅ [Pk 8; Pk 99; Pk 9] 900) [Pk 8; Pk 99; Pk 9])
    as (w' & row & Hrun & Hrow & Hst & Hs & Hf & Ht);
    [apply welcome_well_formed; reflexivity|reflexivity|reflexivity|reflexivity
    |reflexivity|discriminate|reflexivity|reflexivity|reflexivity|].
  exists w', row. rewrite Hf, Ht. auto.
Defined.

Lemma processed_batch_is_refused_witness :
  ∃ r w',
    process_notification_batch env_ok 5 world_three = (Done r, w')
    ∧ process_notification_batch env_broker_down 5 w'
      = (Done (not_ok "Batch not in pending status"),
         with_trace (trace w' ++ [Log Error "Batch is not in pending status"]) w').
Proof.
  apply (processed_batch_is_refused env_ok env_broker_down 5 world_three
           (new_batch 5 "Batch" 1 ∅ [Pk 8; Pk 99; Pk 9] 900) [Pk 8; Pk 99; Pk 9]);
    [apply welcome_well_formed; reflexivity|reflexivity|reflexivity|reflexivity
    |reflexivity|reflexivity|reflexivity|reflexivity].
Defined.

(** ** Retention sweep *)

Lemma eval_names_cleanup_summary (w : world) :
  eval_names cleanup_scope ["expired_count"; "old_history_count"; "archared_count"] w
  = (Raised (NameError "archared_count"), w).
Proof. reflexivity. Qed.

(** C9 (code at every input): the three sweeps run, then the summary
    line interpolates the unbound name [archared_count]; the [NameError]
    is caught by the task's handler, so the task reports a failure and no
    counts, for every store and every time. *)
Theorem cleanup_reports_failure (E : env) (w : world) :
  (cleanup_old_notifications E w).1
  = Done {| success := false;
            reason := Some "name 'archared_count' is not defined";
            counts := [] |}.
Proof.
  unfold cleanup_old_notifications, try_except, bind, delete_notifications,
    delete_history.
  rewrite eval_names_cleanup_summary. reflexivity.
Qed.

(** *** The store effect

    The report is lost to the [NameError] above, but the three deletions
    are made, and a second run at the same time finds nothing to delete. *)

Section Sweeps.

Variable E : env.

Lemma swept_notifications (w : world) :
  notifications (swept E w)
  = List.filter (λ n, negb (old_archived E n))
      (List.filter (λ n, negb (expired E n)) (notifications w)).
Proof. reflexivity. Qed.

Lemma swept_clean (w : world) :
  List.Forall (λ n, expired E n = false) (notifications (swept E w))
  ∧ List.Forall (λ n, old_archived E n = false) (notifications (swept E w))
  ∧ List.Forall (λ h, old_history E h = false) (history (swept E w)).
Proof.
  split; [|split].
  - rewrite swept_notifications. apply Forall_filter_keep, Forall_filter_negb.
  - rewrite swept_notifications. apply Forall_filter_negb.
  - unfold swept, cleanup_old_notifications, try_except, bind, delete_notifications,
      delete_history. simpl.
    apply Forall_filter_keep. apply (Forall_filter_negb (old_history E)).
Qed.

Lemma delete_notifications_nothing (doomed : Notification.t → bool) (w : world) :
  List.Forall (λ n, doomed n = false) (notifications w) →
  delete_notifications doomed w = (Done 0, w).
Proof.
  intros Hnone. unfold delete_notifications.
  rewrite (filter_none doomed _ Hnone), (filter_all doomed _ Hnone). simpl.
  rewrite filter_const_false, filter_const_true.
  destruct w; reflexivity.
Qed.

Lemma delete_history_nothing (doomed : NotificationHistory.t → bool) (w : world) :
  List.Forall (λ h, doomed h = false) (history w) →
  delete_history doomed w = (Done 0, w).
Proof.
  intros Hnone. unfold delete_history.
  rewrite (filter_none doomed _ Hnone), (filter_all doomed _ Hnone).
  destruct w; reflexivity.
Qed.

(** Run twice at the same time, the second run's three sweeps each
    delete 0 rows and leave the store as the first run left it. *)
Lemma second_sweep_deletes_nothing (w : world) :
  delete_notifications (expired E) (swept E w) = (Done 0, swept E w)
  ∧ delete_history (old_history E) (swept E w) = (Done 0, swept E w)
  ∧ delete_notifications (old_archived E) (swept E w) = (Done 0, swept E w)
  ∧ notifications (swept E (swept E w)) = notifications (swept E w)
  ∧ history (swept E (swept E w)) = history (swept E w).
Proof.
  destruct (swept_clean w) as (Hexp & Harch & Hold).
  pose proof (delete_notifications_nothing _ _ Hexp) as H1.
  pose proof (delete_history_nothing _ _ Hold) as H2.
  pose proof (delete_notifications_nothing _ _ Harch) as H3.
  do 3 (split; [assumption|]).
  assert (Hrun : swept E (swept E w)
                 = with_trace (trace (swept E w)
                               ++ [Log Error "Error in cleanup_old_notifications task"])
                     (swept E w)).
  { revert H1 H2 H3. generalize (swept E w). intros w1 H1 H2 H3.
    unfold swept, cleanup_old_notifications, try_except, bind.
    rewrite H1, H2, H3. reflexivity. }
  rewrite Hrun. split; reflexivity.
Qed.

End Sweeps.

(** * Further properties *)

(** ** Strings *)

Lemma string_app_cons (c : ascii) (a b : string) :
  String c a +:+ b = String c (a +:+ b).
Proof. reflexivity. Qed.

Lemma string_app_nil_l (a : string) : "" +:+ a = a.
Proof. reflexivity. Qed.

Lemma string_app_nil_r (s : string) : s +:+ "" = s.
Proof.
  induction s as [|c s IH]; [reflexivity|]. rewrite string_app_cons. f_equal. exact IH.
Qed.

Lemma string_app_assoc (a b c : string) : (a +:+ b) +:+ c = a +:+ (b +:+ c).
Proof.
  induction a as [|x a IH]; [reflexivity|]. rewrite !string_app_cons. f_equal. exact IH.
Qed.

Lemma snoc_app (a : string) (c : ascii) (b : string) :
  snoc a c +:+ b = a +:+ String c b.
Proof. unfold snoc. rewrite string_app_assoc. reflexivity. Qed.

Lemma all_word_app (a b : string) :
  all_word (a +:+ b) = all_word a && all_word b.
Proof.
  induction a as [|c a IH]; [reflexivity|]. rewrite string_app_cons. simpl.
  rewrite IH. apply andb_assoc.
Qed.

Lemma snoc_not_empty (a : string) (c : ascii) : snoc a c ≠ "".
Proof. destruct a; discriminate. Qed.

(** ** The placeholders validation extracts *)

(** What one pass emits is made of word characters, is not empty, and
    stands between braces in the text read so far ([p]) followed by the
    text still to read. *)
Lemma findall_from_sound (s : string) :
  ∀ (st : option string) (p v : string),
    (∀ acc, st = Some acc → all_word acc = true ∧ ∃ p0, p = p0 +:+ "{" +:+ acc) →
    v ∈ findall_from s st →
    v ≠ "" ∧ all_word v = true
    ∧ ∃ pre post, p +:+ s = pre +:+ "{" +:+ v +:+ "}" +:+ post.
Proof.
  induction s as [|c rest IH]; intros st p v Hst Hin; simpl in Hin.
  { apply elem_of_nil in Hin. contradiction. }
  assert (Hnext : ∀ st', v ∈ findall_from rest st' →
            (∀ acc, st' = Some acc →
                    all_word acc = true ∧ ∃ p0, snoc p c = p0 +:+ "{" +:+ acc) →
            v ≠ "" ∧ all_word v = true
            ∧ ∃ pre post, p +:+ String c rest = pre +:+ "{" +:+ v +:+ "}" +:+ post).
  { intros st' Hin' Hst'. rewrite <- snoc_app. apply (IH st' (snoc p c) v Hst' Hin'). }
  assert (Hopen : ∀ acc, Some "" = Some acc →
            c = "{"%char →
            all_word acc = true ∧ ∃ p0, snoc p c = p0 +:+ "{" +:+ acc).
  { intros acc [= <-] ->. split; [reflexivity|]. exists p. reflexivity. }
  assert (Hnone : ∀ acc, None = Some acc →
            all_word acc = true ∧ ∃ p0, snoc p c = p0 +:+ "{" +:+ acc)
    by (intros acc [=]).
  destruct st as [acc|].
  - destruct (Hst acc eq_refl) as (Hacc & p0 & ->).
    destruct (is_word c) eqn:Hw.
    + apply (Hnext _ Hin). intros acc' [= <-]. split.
      * unfold snoc. rewrite all_word_app, Hacc. simpl. rewrite Hw. reflexivity.
      * exists p0. unfold snoc. rewrite !string_app_assoc. reflexivity.
    + destruct (bool_decide (c = "}"%char) && negb (bool_decide (acc = ""))) eqn:Hclose.
      * apply andb_true_iff in Hclose as [Hc Hne].
        apply bool_decide_eq_true in Hc. apply negb_true_iff, bool_decide_eq_false in Hne.
        subst c. apply elem_of_cons in Hin as [->|Hin].
        -- split; [exact Hne|]. split; [exact Hacc|].
           exists p0, rest. rewrite !string_app_assoc. reflexivity.
        -- apply (Hnext _ Hin Hnone).
      * destruct (decide (c = "{"%char)) as [Hc|Hc].
        -- apply (Hnext _ Hin). intros acc' Heq. apply (Hopen acc' Heq Hc).
        -- apply (Hnext _ Hin Hnone).
  - destruct (decide (c = "{"%char)) as [Hc|Hc].
    + apply (Hnext _ Hin). intros acc' Heq. apply (Hopen acc' Heq Hc).
    + apply (Hnext _ Hin Hnone).
Qed.

(** Reading a prefix only adds to what the rest of the text yields. *)
Lemma findall_from_app (pre rest : string) :
  ∀ st, ∃ out st', findall_from (pre +:+ rest) st = (out ++ findall_from rest st')%list.
Proof.
  induction pre as [|c pre IH]; intros st.
  { exists [], st. reflexivity. }
  rewrite string_app_cons. simpl.
  destruct st as [acc|].
  - destruct (is_word c); [apply IH|].
    destruct (bool_decide (c = "}"%char) && negb (bool_decide (acc = ""))).
    + destruct (IH None) as (out & st' & ->). exists (acc :: out), st'. reflexivity.
    + destruct (decide (c = "{"%char)); apply IH.
  - destruct (decide (c = "{"%char)); apply IH.
Qed.

Lemma findall_from_word_run (v : string) :
  ∀ (acc rest : string),
    all_word v = true →
    findall_from (v +:+ rest) (Some acc) = findall_from rest (Some (acc +:+ v)).
Proof.
  induction v as [|c v IH]; intros acc rest Hv.
  { rewrite string_app_nil_r. reflexivity. }
  rewrite string_app_cons. simpl.
  simpl in Hv. apply andb_true_iff in Hv as [Hc Hv]. rewrite Hc.
  rewrite (IH _ _ Hv). unfold snoc. rewrite string_app_assoc. reflexivity.
Qed.

Lemma findall_from_open_brace (rest : string) (st : option string) :
  findall_from (String "{" rest) st = findall_from rest (Some "").
Proof. destruct st as [acc|]; reflexivity. Qed.

(** A non-empty run of word characters between braces is extracted. *)
Lemma findall_placeholders_braced (pre v post : string) :
  v ≠ "" → all_word v = true →
  v ∈ findall_placeholders (pre +:+ "{" +:+ v +:+ "}" +:+ post).
Proof.
  intros Hne Hv. unfold findall_placeholders.
  destruct (findall_from_app pre ("{" +:+ v +:+ "}" +:+ post) None) as (out & st' & ->).
  apply elem_of_app. right.
  change ("{" +:+ v +:+ "}" +:+ post) with (String "{" (v +:+ "}" +:+ post)).
  rewrite findall_from_open_brace, (findall_from_word_run v "" _ Hv).
  rewrite string_app_nil_l, string_app_cons. simpl.
  rewrite (bool_decide_eq_false_2 _ Hne). simpl. apply list_elem_of_here.
Qed.

(** X1: the placeholders the validator extracts from a text are exactly
    the non-empty runs of word characters that stand between an opening
    and a closing brace in it. *)
Theorem findall_placeholders_spec (s v : string) :
  v ∈ findall_placeholders s
  ↔ v ≠ "" ∧ all_word v = true ∧ ∃ pre post, s = pre +:+ "{" +:+ v +:+ "}" +:+ post.
Proof.
  split.
  - intros Hin. unfold findall_placeholders in Hin.
    apply (findall_from_sound s None "" v); [intros acc [=]|exact Hin].
  - intros (Hne & Hv & pre & post & ->). apply findall_placeholders_braced; assumption.
Qed.

(** ** Rendering *)

Lemma format_from_no_braces (kwargs : gmap string string) (s : string) :
  ∀ out, no_braces s = true → format_from s Text out kwargs = Done (out +:+ s).
Proof.
  induction s as [|c rest IH]; intros out Hs; simpl.
  { rewrite string_app_nil_r. reflexivity. }
  simpl in Hs. apply andb_true_iff in Hs as [Hc Hrest].
  apply andb_true_iff in Hc as [Ho Hcl].
  apply negb_true_iff, bool_decide_eq_false in Ho.
  apply negb_true_iff, bool_decide_eq_false in Hcl.
  destruct (decide (c = "{"%char)) as [|_]; [contradiction|].
  destruct (decide (c = "}"%char)) as [|_]; [contradiction|].
  rewrite (IH _ Hrest), snoc_app. reflexivity.
Qed.

(** X2: a title and message without braces render to themselves,
    whatever the context holds. *)
Theorem render_plain_text (self : NotificationTemplate.t)
    (context : option (gmap string string)) :
  no_braces (NotificationTemplate.title_template self) = true →
  no_braces (NotificationTemplate.message_template self) = true →
  ∃ r, NotificationTemplate.render self context = Done r
       ∧ r_title r = NotificationTemplate.title_template self
       ∧ r_message r = NotificationTemplate.message_template self.
Proof.
  intros Ht Hm. unfold NotificationTemplate.render, str_format.
  rewrite (format_from_no_braces _ _ "" Ht), (format_from_no_braces _ _ "" Hm).
  simpl. eexists. split; [reflexivity|]. split; reflexivity.
Qed.

Lemma format_from_agree (k1 k2 : gmap string string) (s : string) :
  ∀ (st : fstate) (out : string) (ks : list string),
    format_keys_from s st = Some ks →
    (∀ k, k ∈ ks → k1 !! k = k2 !! k) →
    format_from s st out k1 = format_from s st out k2.
Proof.
  induction s as [|c rest IH]; intros st out ks Hk Hagree; simpl in *.
  - reflexivity.
  - destruct st as [| | |name].
    + repeat case_decide; eauto.
    + case_decide; [eauto|].
      destruct (classify c); try discriminate; eauto.
    + case_decide; [eauto|discriminate].
    + destruct (classify c); try discriminate; [|eauto].
      destruct (all_digits name) eqn:Hd; [discriminate|].
      destruct (format_keys_from rest Text) as [ks'|] eqn:Hrest; [|discriminate].
      simpl in Hk. injection Hk as <-.
      unfold get_field. rewrite Hd.
      rewrite <- (Hagree name (list_elem_of_here _ _)).
      destruct (k1 !! name) as [v|]; [|reflexivity].
      apply (IH Text _ ks' Hrest). intros k Hin. apply Hagree, list_elem_of_further, Hin.
Qed.

(** X3: rendering a well-formed template depends on the context only
    through the names its title and message look up and through
    [target_url]: two contexts that agree there render alike. *)
Theorem render_depends_on_used_keys (self : NotificationTemplate.t)
    (c1 c2 : gmap string string) (tk mk : list string) :
  format_keys (NotificationTemplate.title_template self) = Some tk →
  format_keys (NotificationTemplate.message_template self) = Some mk →
  (∀ k, k ∈ (tk ++ mk)%list → c1 !! k = c2 !! k) →
  c1 !! "target_url" = c2 !! "target_url" →
  NotificationTemplate.render self (Some c1) = NotificationTemplate.render self (Some c2).
Proof.
  intros Ht Hm Hagree Hurl. unfold NotificationTemplate.render, str_format. simpl.
  rewrite (format_from_agree c1 c2 _ Text "" tk Ht),
          (format_from_agree c1 c2 _ Text "" mk Hm), Hurl; [reflexivity| |].
  - intros k Hin. apply Hagree, elem_of_app. right. exact Hin.
  - intros k Hin. apply Hagree, elem_of_app. left. exact Hin.
Qed.

(** A name a well-formed format string looks up is not numeric and
    stands between braces in it. *)
Lemma format_keys_from_braced (s : string) :
  ∀ (st : fstate) (p k : string) (ks : list string),
    format_keys_from s st = Some ks →
    (st = Open → ∃ p0, p = p0 +:+ "{") →
    (∀ name, st = Field name → ∃ p0, p = p0 +:+ "{" +:+ name) →
    k ∈ ks →
    all_digits k = false
    ∧ ∃ pre post, p +:+ s = pre +:+ "{" +:+ k +:+ "}" +:+ post.
Proof.
  induction s as [|c rest IH]; intros st p k ks Hk Hopen Hfield Hin; simpl in Hk.
  { destruct st; try discriminate. injection Hk as <-.
    apply elem_of_nil in Hin. contradiction. }
  assert (Hnext : ∀ st' ks',
            format_keys_from rest st' = Some ks' → k ∈ ks' →
            (st' = Open → ∃ p0, snoc p c = p0 +:+ "{") →
            (∀ name, st' = Field name → ∃ p0, snoc p c = p0 +:+ "{" +:+ name) →
            all_digits k = false
            ∧ ∃ pre post, p +:+ String c rest = pre +:+ "{" +:+ k +:+ "}" +:+ post).
  { intros st' ks' Hk' Hin' Ho Hf. rewrite <- snoc_app.
    apply (IH st' (snoc p c) k ks' Hk' Ho Hf Hin'). }
  assert (Hplain : ∀ st', st' = Text ∨ st' = Close →
            (st' = Open → ∃ p0, snoc p c = p0 +:+ "{")
            ∧ (∀ name, st' = Field name → ∃ p0, snoc p c = p0 +:+ "{" +:+ name)).
  { intros st' [->| ->]; split; intros; discriminate. }
  assert (Hfieldstep : ∀ name p0, p = p0 +:+ "{" +:+ name →
            match classify c with
            | FieldEnd =>
                if all_digits name then None
                else cons name <$> format_keys_from rest Text
            | FieldBrace | FieldBeyond => None
            | FieldPlain => format_keys_from rest (Field (snoc name c))
            end = Some ks →
            all_digits k = false
            ∧ ∃ pre post, p +:+ String c rest = pre +:+ "{" +:+ k +:+ "}" +:+ post).
  { intros name p0 -> Hstep. unfold classify in Hstep.
    destruct (decide (c = "}"%char)) as [->|Hc1].
    - destruct (all_digits name) eqn:Hd; [discriminate|].
      destruct (format_keys_from rest Text) as [ks'|] eqn:Hrest; [|discriminate].
      simpl in Hstep. injection Hstep as <-.
      apply elem_of_cons in Hin as [->|Hin].
      + split; [exact Hd|]. exists p0, rest. rewrite !string_app_assoc. reflexivity.
      + destruct (Hplain Text (or_introl eq_refl)) as [Ho Hf].
        apply (Hnext Text ks' Hrest Hin Ho Hf).
    - destruct (decide (c = "{"%char)); [discriminate|].
      destruct (bool_decide (c = "["%char) || bool_decide (c = "."%char)
                || bool_decide (c = "!"%char) || bool_decide (c = ":"%char));
        [discriminate|].
      apply (Hnext _ ks Hstep Hin); [intros; discriminate|].
      intros name' [= <-]. exists p0. unfold snoc. rewrite !string_app_assoc. reflexivity. }
  destruct st as [| | |name].
  - destruct (decide (c = "{"%char)) as [->|].
    + apply (Hnext Open ks Hk Hin); [|intros; discriminate].
      intros _. exists p. reflexivity.
    + destruct (Hplain Text (or_introl eq_refl)) as [Ho Hf].
      destruct (Hplain Close (or_intror eq_refl)) as [Ho' Hf'].
      destruct (decide (c = "}"%char)); eauto.
  - destruct (decide (c = "{"%char)) as [->|].
    + destruct (Hplain Text (or_introl eq_refl)) as [Ho Hf]. eauto.
    + destruct (Hopen eq_refl) as [p0 Hp0].
      apply (Hfieldstep "" p0); [rewrite Hp0, string_app_nil_r; reflexivity|exact Hk].
  - destruct (decide (c = "}"%char)); [|discriminate].
    destruct (Hplain Text (or_introl eq_refl)) as [Ho Hf]. eauto.
  - destruct (Hfield name eq_refl) as [p0 Hp0]. apply (Hfieldstep name p0 Hp0 Hk).
Qed.

Lemma all_digits_empty_name (k : string) : all_digits k = false → k ≠ "".
Proof. intros Hd ->. discriminate. Qed.

(** The names a well-formed format string looks up, when made of word
    characters, are among the placeholders validation extracts. *)
Lemma format_keys_extracted (s k : string) (ks : list string) :
  format_keys s = Some ks → k ∈ ks → all_word k = true → k ∈ findall_placeholders s.
Proof.
  intros Hk Hin Hw.
  destruct (format_keys_from_braced s Text "" k ks Hk) as (Hd & pre & post & Heq);
    try (intros; discriminate); [exact Hin|].
  simpl in Heq. rewrite string_app_nil_l in Heq. rewrite Heq.
  apply findall_placeholders_braced; [apply all_digits_empty_name, Hd|exact Hw].
Qed.

(** X4: a template definition that validation accepts against a
    non-empty declared map renders without error in every context that
    provides the declared variables, when the template is well-formed and
    its fields are word names. *)
Theorem validated_template_renders (self : NotificationTemplate.t)
    (declared context : gmap string string) (tk mk : list string) :
  format_keys (NotificationTemplate.title_template self) = Some tk →
  format_keys (NotificationTemplate.message_template self) = Some mk →
  (∀ k, k ∈ (tk ++ mk)%list → all_word k = true) →
  declared ≠ ∅ →
  NotificationTemplateForm_clean (NotificationTemplate.title_template self)
    (NotificationTemplate.message_template self) (Some declared) = inr tt →
  (∀ k, is_Some (declared !! k) → is_Some (context !! k)) →
  ∃ r, NotificationTemplate.render self (Some context) = Done r.
Proof.
  intros Ht Hm Hword Hne Hclean Hctx.
  apply (render_done self (Some context) tk mk Ht Hm).
  intros k Hin. simpl. apply Hctx.
  assert (Hex : k ∈ template_placeholders (NotificationTemplate.title_template self)
                      (NotificationTemplate.message_template self)).
  { apply elem_of_template_placeholders.
    apply elem_of_app in Hin as Hin'. destruct Hin' as [Hin'|Hin'].
    - left. apply (format_keys_extracted _ k tk Ht Hin' (Hword k Hin)).
    - right. apply (format_keys_extracted _ k mk Hm Hin' (Hword k Hin)). }
  revert Hclean. unfold NotificationTemplateForm_clean, dict_truthy.
  rewrite (bool_decide_eq_false_2 _ Hne). simpl.
  destruct (bool_decide _) eqn:Hmissing; [discriminate|]. intros _.
  apply bool_decide_eq_false in Hmissing.
  apply elem_of_dom.
  destruct (decide (k ∈ dom declared)) as [Hd|Hd]; [exact Hd|].
  exfalso. apply Hmissing. intros Hempty.
  assert (Hk : k ∈ template_placeholders (NotificationTemplate.title_template self)
                     (NotificationTemplate.message_template self) ∖ dom declared)
    by (apply elem_of_difference; split; assumption).
  rewrite Hempty in Hk. apply elem_of_empty in Hk. exact Hk.
Qed.

Lemma render_plain_text_witness :
  ∃ r, NotificationTemplate.render template_plain (Some {[ "user_name" := "Bob" ]}) = Done r
       ∧ r_title r = "Maintenance tonight"
       ∧ r_message r = "The service restarts at 22:00.".
Proof.
  apply (render_plain_text template_plain (Some {[ "user_name" := "Bob" ]}));
    reflexivity.
Defined.

Lemma render_depends_on_used_keys_witness :
  NotificationTemplate.render template_welcome (Some {[ "user_name" := "Bob" ]})
  = NotificationTemplate.render template_welcome
      (Some (<["unused" := "x"]> {[ "user_name" := "Bob" ]})).
Proof.
  apply (render_depends_on_used_keys template_welcome _ _ ["user_name"] ["user_name"]);
    [reflexivity|reflexivity| |reflexivity].
  intros k Hin. simpl in Hin.
  apply elem_of_cons in Hin as [->|Hin]; [reflexivity|].
  apply elem_of_cons in Hin as [->|Hin]; [reflexivity|].
  apply elem_of_nil in Hin. contradiction.
Defined.

Lemma validated_template_renders_witness :
  NotificationTemplateForm_clean "Hi {user_name}" "Welcome, {user_name}!"
    (Some {[ "user_name" := "display name" ]}) = inr tt
  ∧ ∃ r, NotificationTemplate.render template_welcome (Some {[ "user_name" := "Bob" ]})
         = Done r.
Proof.
  split; [reflexivity|].
  apply (validated_template_renders template_welcome {[ "user_name" := "display name" ]}
           {[ "user_name" := "Bob" ]} ["user_name"] ["user_name"]).
  - reflexivity.
  - reflexivity.
  - intros k Hin. simpl in Hin.
    apply elem_of_cons in Hin as [->|Hin]; [reflexivity|].
    apply elem_of_cons in Hin as [->|Hin]; [reflexivity|].
    apply elem_of_nil in Hin. contradiction.
  - intros H. apply (f_equal (λ m : gmap string string, m !! "user_name")) in H.
    vm_compute in H. discriminate.
  - reflexivity.
  - intros k [v Hk]. apply lookup_singleton_Some in Hk as [<- _].
    exists "Bob". reflexivity.
Defined.

(** ** Quiet hours *)

Lemma mod_day_wrap (x : Z) :
  - usec_per_day <= x < usec_per_day →
  x `mod` usec_per_day = if bool_decide (0 <= x) then x else x + usec_per_day.
Proof.
  intros Hx. assert (Hd : 0 < usec_per_day) by reflexivity.
  case_bool_decide.
  - apply Z.mod_small. lia.
  - rewrite <- (Z.mod_add x 1 usec_per_day) by lia.
    apply Z.mod_small. lia.
Qed.

(** X5: with both bounds inside the day, the two branches of the
    quiet-hours check are one rule on the clock face: a time of day is
    quiet exactly when, going forward from the start, it comes no later
    than the end. *)
Theorem quiet_hours_on_clock_face (p : NotificationPreference.t) (qs qe : time)
    (t : datetime) :
  NotificationPreference.quiet_hours_enabled p = true →
  NotificationPreference.quiet_start p = Some qs →
  NotificationPreference.quiet_end p = Some qe →
  0 <= qs < usec_per_day →
  0 <= qe < usec_per_day →
  NotificationPreference.quiet_hours_block p t
  = bool_decide ((t - qs) `mod` usec_per_day <= (qe - qs) `mod` usec_per_day).
Proof.
  intros Hen Hs He Hqs Hqe.
  unfold NotificationPreference.quiet_hours_block. rewrite Hen, Hs, He.
  assert (Hd : 0 < usec_per_day) by reflexivity.
  assert (Ht : 0 <= datetime_time t < usec_per_day)
    by (apply Z.mod_pos_bound; exact Hd).
  assert (Hshift : (t - qs) `mod` usec_per_day
                   = (datetime_time t - qs) `mod` usec_per_day).
  { unfold datetime_time. rewrite Zminus_mod_idemp_l. reflexivity. }
  rewrite Hshift.
  rewrite (mod_day_wrap (datetime_time t - qs)), (mod_day_wrap (qe - qs)) by lia.
  cbv zeta. set (u := datetime_time t) in *.
  repeat case_bool_decide; simpl; try reflexivity; lia.
Qed.

Lemma quiet_hours_on_clock_face_witness :
  NotificationPreference.quiet_hours_block
    (pref_quiet (22 * usec_per_hour) (7 * usec_per_hour)) (23 * usec_per_hour)
  = bool_decide ((23 * usec_per_hour - 22 * usec_per_hour) `mod` usec_per_day
                 <= (7 * usec_per_hour - 22 * usec_per_hour) `mod` usec_per_day).
Proof.
  apply (quiet_hours_on_clock_face (pref_quiet (22 * usec_per_hour) (7 * usec_per_hour)));
    [reflexivity|reflexivity|reflexivity|split; vm_compute; congruence
    |split; vm_compute; congruence].
Defined.

(** ** Scheduling times of a new notification *)

(** X6: when both time validators of the notification form accept, the
    values are returned unchanged, a scheduled time lies after the clock
    reading it was checked against, and an expiry lies after that same
    reading and after the scheduled time if there is one. *)
Theorem accepted_times_are_ordered (scheduled_time expires_at : option datetime)
    (now1 now2 : datetime) (s e : option datetime) :
  now1 <= now2 →
  NotificationForm_clean_times scheduled_time expires_at now1 now2 = (inr s, inr e) →
  s = scheduled_time ∧ e = expires_at
  ∧ (∀ t, s = Some t → now1 < t)
  ∧ (∀ x, e = Some x → now1 < x ∧ ∀ t, s = Some t → t < x).
Proof.
  intros Hclock. unfold NotificationForm_clean_times, clean_scheduled_time, clean_expires_at.
  destruct scheduled_time as [t|], expires_at as [x|]; simpl;
    repeat case_bool_decide; intros [= <- <-];
    (split; [reflexivity|]); (split; [reflexivity|]);
    (split; [intros t' [= <-] || intros t' [=]; try lia|]);
    try (intros x' [= <-]; split; [lia|]; intros t' Ht'; inversion Ht'; subst; lia);
    try (intros x' [=]).
Qed.

Lemma accepted_times_are_ordered_witness :
  NotificationForm_clean_times (Some 2000) (Some 3000) 1000 1001
  = (inr (Some 2000), inr (Some 3000))
  ∧ (∀ x, Some 3000 = Some x → 1000 < x ∧ ∀ t, Some 2000 = Some t → t < x).
Proof.
  split; [reflexivity|].
  apply (accepted_times_are_ordered (Some 2000) (Some 3000) 1000 1001
           (Some 2000) (Some 3000)); [lia|reflexivity].
Defined.

(** ** The channel senders *)

Section Senders.

Variable E : env.

Ltac run :=
  unfold sender, send_notification_email, send_notification_push,
    send_realtime_notification, preference_gate, sender_handler,
    User_objects_get, Notification_objects_get, user_preference,
    NotificationHistory_objects_create, task_delay, group_send, send_mail,
    external, log, emit, try_except, bind, ret, raise, gets, modify, lift;
  simpl.

(** X7: a sender whose preference block refuses, because the channel's
    master switch is off or because the preference method answers no,
    reports the refusal and leaves the store and the trace exactly as
    they were. *)
Theorem sender_refused_changes_nothing (c : Channel) (notification_id user_id : Z)
    (n : Notification.t) (user : User.t) (p : NotificationPreference.t) (w : world) :
  List.find (λ n, bool_decide (Notification.id n = notification_id)) (notifications w)
  = Some n →
  users w !! user_id = Some user →
  User.notificationpreference user = Some p →
  master_switch c p
  && NotificationPreference.should_send_notification p
       (Notification.notification_type n) None (now E) = false →
  sender E c notification_id user_id w = (Done (not_ok (disabled_reason c)), w).
Proof.
  intros Hn Hu Hp Hgate. destruct c; simpl in Hgate; run;
    rewrite Hn, Hu, Hp; simpl; rewrite Hgate; reflexivity.
Qed.

(** X8: an email that passes the preference block leaves exactly one new
    history row on the email channel: [sent] with a success report when
    the mail transport accepts the message, [failed] with the error text
    in the row and in the report when it raises. *)
Theorem email_attempt_is_recorded (notification_id user_id : Z)
    (n : Notification.t) (user : User.t) (p : NotificationPreference.t) (w : world) :
  List.find (λ n, bool_decide (Notification.id n = notification_id)) (notifications w)
  = Some n →
  users w !! user_id = Some user →
  User.notificationpreference user = Some p →
  NotificationPreference.email_notifications p = true →
  NotificationPreference.should_send_notification p
    (Notification.notification_type n) None (now E) = true →
  ∃ r w',
    send_notification_email E notification_id user_id w = (Done r, w')
    ∧ notifications w' = notifications w
    ∧ match send_mail_error E with
      | None =>
          success r = true
          ∧ history w'
            = (history w ++ [NotificationHistory.new notification_id user_id
                               Email Sent ∅ (now E)])%list
          ∧ trace w'
            = (trace w ++ [SendMail (Notification.title n) (Notification.message n)
                             (User.email user);
                           Log Info "Email notification sent"])%list
      | Some e =>
          success r = false ∧ reason r = Some (exn_str e)
          ∧ history w'
            = (history w ++ [NotificationHistory.new notification_id user_id
                               Email Failed {[ "error" := exn_str e ]} (now E)])%list
          ∧ trace w' = (trace w ++ [Log Error "Failed to send email"])%list
      end.
Proof.
  intros Hn Hu Hp Hmail Hsend. run. rewrite Hn, Hu, Hp. simpl.
  rewrite Hmail, Hsend. simpl.
  destruct (send_mail_error E) as [e|]; simpl.
  - do 2 eexists. split; [reflexivity|]. simpl. auto.
  - do 2 eexists. split; [reflexivity|]. simpl.
    rewrite <- app_assoc. auto.
Qed.

(** X9: when the channel layer raises, the real-time sender reports the
    failure and writes no history row: unlike a failed email, a failed
    in-app delivery leaves no record. *)
Theorem realtime_failure_is_not_recorded (notification_id user_id : Z)
    (n : Notification.t) (user : User.t) (p : NotificationPreference.t) (e : exn)
    (w : world) :
  List.find (λ n, bool_decide (Notification.id n = notification_id)) (notifications w)
  = Some n →
  users w !! user_id = Some user →
  User.notificationpreference user = Some p →
  NotificationPreference.in_app_notifications p = true →
  NotificationPreference.should_send_notification p
    (Notification.notification_type n) None (now E) = true →
  group_send_error E = Some e →
  ∃ r w',
    send_realtime_notification E notification_id user_id w = (Done r, w')
    ∧ success r = false
    ∧ history w' = history w
    ∧ notifications w' = notifications w
    ∧ List.filter (λ ev, negb (is_log ev)) (trace w')
      = List.filter (λ ev, negb (is_log ev)) (trace w).
Proof.
  intros Hn Hu Hp Hin Hsend Herr. run. rewrite Hn, Hu, Hp. simpl.
  rewrite Hin, Hsend, Herr. simpl.
  assert (Hfilter : ∀ l msg,
            List.filter (λ ev, negb (is_log ev)) (trace w ++ [Log l msg])
            = List.filter (λ ev, negb (is_log ev)) (trace w)).
  { intros l msg. rewrite List.filter_app. simpl. apply app_nil_r. }
  destruct e as [[]| | | | | | | |]; simpl;
    do 2 eexists; (split; [reflexivity|]); simpl; auto.
Qed.

(** X10: the push sender never reaches a transport: past the preference
    block it adds only log lines to the trace, and it records a [sent]
    row exactly when the user has a non-empty push token. *)
Theorem push_is_recorded_not_sent (notification_id user_id : Z)
    (n : Notification.t) (user : User.t) (p : NotificationPreference.t) (w : world) :
  List.find (λ n, bool_decide (Notification.id n = notification_id)) (notifications w)
  = Some n →
  users w !! user_id = Some user →
  User.notificationpreference user = Some p →
  NotificationPreference.push_notifications p = true →
  NotificationPreference.should_send_notification p
    (Notification.notification_type n) None (now E) = true →
  ∃ r w',
    send_notification_push E notification_id user_id w = (Done r, w')
    ∧ success r = has_push_token user
    ∧ history w'
      = (history w
         ++ (if has_push_token user
             then [NotificationHistory.new notification_id user_id Push Sent ∅ (now E)]
             else []))%list
    ∧ List.filter (λ ev, negb (is_log ev)) (trace w')
      = List.filter (λ ev, negb (is_log ev)) (trace w).
Proof.
  intros Hn Hu Hp Hpush Hsend. run. rewrite Hn, Hu, Hp. simpl.
  rewrite Hpush, Hsend. simpl.
  destruct (has_push_token user); simpl;
    do 2 eexists; (split; [reflexivity|]); simpl;
    rewrite List.filter_app, ?app_nil_r; simpl; rewrite ?app_nil_r; auto.
Qed.

(** X11: a sender called with the id of a notification, or of a user,
    that is not stored reports which of the two is missing (the
    notification first) and changes nothing but the log. *)
Theorem sender_reports_missing_row (c : Channel) (notification_id user_id : Z)
    (w : world) :
  List.find (λ n, bool_decide (Notification.id n = notification_id)) (notifications w)
  = None
  ∨ users w !! user_id = None →
  ∃ why,
    sender E c notification_id user_id w
    = (Done (not_ok why), with_trace (trace w ++ [Log Error why]) w)
    ∧ why = match List.find (λ n, bool_decide (Notification.id n = notification_id))
                    (notifications w) with
            | Some _ => "User not found"
            | None => "Notification not found"
            end.
Proof.
  intros Hmissing.
  destruct (List.find _ (notifications w)) as [n|] eqn:Hn.
  - destruct Hmissing as [Hmissing|Hu]; [discriminate|].
    exists "User not found". split; [|reflexivity].
    destruct c; run; rewrite Hn, Hu; reflexivity.
  - exists "Notification not found". split; [|reflexivity].
    destruct c; run; rewrite Hn; reflexivity.
Qed.

End Senders.

Lemma sender_refused_changes_nothing_witness :
  sender env_ok Email 3 9 (world_hello user_ada_defaults)
  = (Done (not_ok "Email notifications disabled for this type"),
     world_hello user_ada_defaults).
Proof.
  apply (sender_refused_changes_nothing env_ok Email 3 9 (notification_for 3 9)
           user_carol pref_dnd_hour); reflexivity.
Defined.

Lemma email_attempt_is_recorded_witness :
  ∃ r w',
    send_notification_email env_ok 2 8 (world_hello user_ada_defaults) = (Done r, w')
    ∧ success r = true
    ∧ List.length (history w') = 4%nat.
Proof.
  destruct (email_attempt_is_recorded env_ok 2 8 (notification_for 2 8) user_bob
              NotificationPreference.defaults (world_hello user_ada_defaults)
              eq_refl eq_refl eq_refl eq_refl eq_refl)
    as (r & w' & Hrun & _ & Hok & Hh & _).
  exists r, w'. split; [exact Hrun|]. split; [exact Hok|].
  rewrite Hh. reflexivity.
Defined.

Lemma realtime_failure_is_not_recorded_witness :
  ∃ r w',
    send_realtime_notification env_channel_down 2 8 (world_hello user_ada_defaults)
    = (Done r, w')
    ∧ success r = false
    ∧ history w' = history (world_hello user_ada_defaults).
Proof.
  destruct (realtime_failure_is_not_recorded env_channel_down 2 8 (notification_for 2 8)
              user_bob NotificationPreference.defaults (TransportError "channel layer down")
              (world_hello user_ada_defaults)
              eq_refl eq_refl eq_refl eq_refl eq_refl eq_refl)
    as (r & w' & Hrun & Hfail & Hh & _).
  exists r, w'. auto.
Defined.

Lemma push_is_recorded_not_sent_witness :
  ∃ r w',
    send_notification_push env_ok 2 8 (world_hello user_ada_defaults) = (Done r, w')
    ∧ success r = false
    ∧ history w' = history (world_hello user_ada_defaults).
Proof.
  destruct (push_is_recorded_not_sent env_ok 2 8 (notification_for 2 8) user_bob
              NotificationPreference.defaults (world_hello user_ada_defaults)
              eq_refl eq_refl eq_refl eq_refl eq_refl)
    as (r & w' & Hrun & Hok & Hh & _).
  exists r, w'. split; [exact Hrun|]. split; [exact Hok|].
  rewrite Hh. apply app_nil_r.
Defined.

Lemma sender_reports_missing_row_witness :
  ∃ why,
    sender env_ok Push 99 8 (world_hello user_ada_defaults)
    = (Done (not_ok why),
       with_trace (trace (world_hello user_ada_defaults) ++ [Log Error why])
         (world_hello user_ada_defaults))
    ∧ why = "Notification not found".
Proof.
  apply (sender_reports_missing_row env_ok Push 99 8 (world_hello user_ada_defaults)).
  left. reflexivity.
Defined.

(** ** Reading, un-reading and archiving a notification *)

Lemma find_unique (l : list Notification.t) (n : Notification.t) :
  NoDup (List.map Notification.id l) → n ∈ l →
  List.find (has_pk (Notification.id n)) l = Some n.
Proof.
  induction l as [|m l IH]; intros Hnd Hin.
  - apply elem_of_nil in Hin. contradiction.
  - simpl in Hnd. apply NoDup_cons in Hnd as [Hm Hnd]. simpl. unfold has_pk at 1.
    apply elem_of_cons in Hin as [->|Hin].
    + rewrite bool_decide_eq_true_2 by reflexivity. reflexivity.
    + rewrite bool_decide_eq_false_2; [apply IH; assumption|].
      intros Heq. apply Hm. rewrite Heq.
      apply list_elem_of_fmap_2. exact Hin.
Qed.

Lemma find_has_pk (pk : Z) (l : list Notification.t) (row : Notification.t) :
  List.find (has_pk pk) l = Some row → Notification.id row = pk ∧ row ∈ l.
Proof.
  intros H. apply List.find_some in H as [Hin Hpk].
  split; [apply bool_decide_eq_true in Hpk; exact Hpk|apply list_elem_of_In; exact Hin].
Qed.

Lemma existsb_find (pk : Z) (l : list Notification.t) (row : Notification.t) :
  List.find (has_pk pk) l = Some row → existsb (has_pk pk) l = true.
Proof.
  intros H. apply List.find_some in H as [Hin Hpk].
  apply List.existsb_exists. exists row. split; assumption.
Qed.

Lemma find_update_rows (pk : Z) (f : Notification.t → Notification.t)
    (l : list Notification.t) (row : Notification.t) :
  (∀ r, Notification.id (f r) = Notification.id r) →
  List.find (has_pk pk) l = Some row →
  List.find (has_pk pk) (update_rows pk f l) = Some (f row).
Proof.
  intros Hid. induction l as [|m l IH]; simpl; [discriminate|].
  destruct (has_pk pk m) eqn:Hm.
  - intros [= <-]. unfold has_pk in *. rewrite Hid, Hm. reflexivity.
  - intros H. rewrite Hm. apply IH, H.
Qed.

Lemma find_update_rows_at (pk : Z) (f : Notification.t → Notification.t)
    (l : list Notification.t) (row : Notification.t) :
  (∀ r, Notification.id r = pk → Notification.id (f r) = pk) →
  List.find (has_pk pk) l = Some row →
  List.find (has_pk pk) (update_rows pk f l) = Some (f row).
Proof.
  intros Hid. induction l as [|m l IH]; simpl; [discriminate|].
  destruct (has_pk pk m) eqn:Hm.
  - intros [= <-]. unfold has_pk in *. apply bool_decide_eq_true in Hm.
    rewrite (bool_decide_eq_true_2 _ (Hid m Hm)). reflexivity.
  - intros H. rewrite Hm. apply IH, H.
Qed.

Lemma update_rows_id (pk : Z) (f : Notification.t → Notification.t)
    (l : list Notification.t) :
  (∀ r, r ∈ l → Notification.id r = pk → f r = r) → update_rows pk f l = l.
Proof.
  intros Hf. induction l as [|m l IH]; simpl; [reflexivity|].
  rewrite IH by (intros r Hr; apply Hf, list_elem_of_further, Hr).
  unfold has_pk. case_bool_decide as Hm; [|reflexivity].
  rewrite (Hf m (list_elem_of_here _ _) Hm). reflexivity.
Qed.

Lemma update_rows_compose (pk : Z) (f g : Notification.t → Notification.t)
    (l : list Notification.t) :
  (∀ r, Notification.id (f r) = Notification.id r) →
  update_rows pk g (update_rows pk f l) = update_rows pk (λ r, g (f r)) l.
Proof.
  intros Hid. induction l as [|m l IH]; simpl; [reflexivity|].
  rewrite IH. f_equal. unfold has_pk.
  destruct (bool_decide (Notification.id m = pk)) eqn:Hm.
  - rewrite Hid, Hm. reflexivity.
  - rewrite Hm. reflexivity.
Qed.


(** The query reads the history table only. *)
Lemma history_get_at (n u : Z) (s : Status) (w w1 : world)
    (r : outcome (nat * NotificationHistory.t)) :
  history w1 = history w →
  NotificationHistory_objects_get n u s w = (r, w) →
  NotificationHistory_objects_get n u s w1 = (r, w1).
Proof.
  unfold NotificationHistory_objects_get, bind, gets, ret, raise. simpl.
  intros ->. destruct (List.filter _ _) as [|ir [|ir' l]]; intros [= <-]; reflexivity.
Qed.

Section Reading.

Variable E : env.

Ltac run :=
  unfold mark_as_read, mark_as_unread, archive, unarchive, Notification_save,
    Notification_save_all, mark_notification_as_read, post_save,
    handle_notification_status_change, create_notification_history,
    send_notification_via_channels, handle_scheduled_notifications,
    instance_user, User_objects_get, Notification_objects_get,
    NotificationHistory_save, group_send, external, log, emit,
    try_except, bind, ret, raise, gets, modify, lift;
  simpl.

(** The pre-save receiver does nothing unless an unread stored row meets
    a read instance. *)
Lemma status_change_quiet (instance : Notification.t) (w : world) :
  Notification.is_read instance = false
  ∨ (∃ row, List.find (has_pk (Notification.id instance)) (notifications w) = Some row
            ∧ Notification.is_read row = true) →
  handle_notification_status_change E instance w = (Done tt, w).
Proof.
  intros Hquiet. run. case_bool_decide; [reflexivity|].
  change (λ n : Notification.t, bool_decide (Notification.id n = Notification.id instance))
    with (has_pk (Notification.id instance)).
  destruct Hquiet as [Hi|(row & -> & Hr)].
  - rewrite Hi. destruct (List.find _ _) as [row|]; simpl;
      rewrite ?andb_false_r; reflexivity.
  - simpl. rewrite Hr. reflexivity.
Qed.

(** The receiver on a read instance whose stored row is unread. *)
Lemma status_change_read (instance row : Notification.t) (u : User.t) (w : world) :
  Notification.id instance ≠ 0 →
  List.find (has_pk (Notification.id instance)) (notifications w) = Some row →
  Notification.is_read row = false →
  Notification.is_read instance = true →
  users w !! Notification.user instance = Some u →
  handle_notification_status_change E instance w
  = match group_send_error E with
    | Some e =>
        match e with
        | DoesNotExist MNotification =>
            (Done tt, with_trace (trace w ++ [Log Info "Notification marked as read"]) w)
        | _ => (Raised e,
                with_trace (trace w ++ [Log Info "Notification marked as read"]) w)
        end
    | None =>
        let w1 := with_trace
                    (trace w ++ [Log Info "Notification marked as read";
                                 GroupSend (User.id u) (Notification.id instance)]) w in
        match NotificationHistory_objects_get
                (Notification.id instance) (User.id u) Delivered w1 with
        | (Done ir, _) =>
            (Done tt,
             with_history (<[ir.1 := NotificationHistory.mark_read (now E) ir.2]>
                             (history w)) w1)
        | (Raised (DoesNotExist MHistory), _) =>
            (Done tt, with_trace (trace w1 ++ [Log Warning "No history record found"]) w1)
        | (Raised e, _) => (Raised e, w1)
        | (Unmodelled, _) => (Unmodelled, w1)
        end
    end.
Proof.
  intros Hpk Hfind Hrow Hinst Hu. run.
  rewrite (bool_decide_eq_false_2 _ Hpk).
  change (λ n : Notification.t, bool_decide (Notification.id n = Notification.id instance))
    with (has_pk (Notification.id instance)).
  rewrite Hfind. simpl. rewrite Hrow, Hinst. simpl. rewrite Hu. simpl.
  destruct (group_send_error E) as [e|]; simpl.
  { destruct e as [[]| | | | | | | |]; reflexivity. }
  rewrite <- app_assoc. simpl.
  unfold NotificationHistory_objects_get, bind, gets, ret, raise. simpl.
  destruct (List.filter _ _) as [|ir [|ir' l]]; reflexivity.
Qed.

(** The exact run of [mark_as_read] on an unread notification whose
    delivery was recorded. *)
Lemma mark_as_read_run (self row : Notification.t) (u : User.t) (i : nat)
    (h : NotificationHistory.t) (w : world) :
  Notification.id self ≠ 0 →
  List.find (has_pk (Notification.id self)) (notifications w) = Some row →
  Notification.is_read self = false →
  Notification.is_read row = false →
  users w !! Notification.user self = Some u →
  group_send_error E = None →
  NotificationHistory_objects_get (Notification.id self) (User.id u) Delivered w
  = (Done (i, h), w) →
  mark_as_read E self w
  = (Done (set_read true (Some (now E)) self),
     with_notifications
       (update_rows (Notification.id self)
          (write_read (set_read true (Some (now E)) self)) (notifications w))
       (notification_seq w)
       (with_history (<[i := NotificationHistory.mark_read (now E) h]> (history w))
          (with_trace (trace w ++ [Log Info "Notification marked as read";
                                   GroupSend (User.id u) (Notification.id self)]) w))).
Proof.
  intros Hpk Hfind Hself Hrow Hu Hsend Hget.
  unfold mark_as_read. rewrite Hself. simpl.
  unfold Notification_save, bind at 1 2.
  rewrite (status_change_read (set_read true (Some (now E)) self) row u w
             Hpk Hfind Hrow eq_refl Hu).
  rewrite Hsend. cbv zeta. simpl.
  rewrite (history_get_at _ _ _ w (with_trace _ w) (Done (i, h)) eq_refl Hget).
  simpl. unfold gets, bind. simpl.
  rewrite (existsb_find _ _ _ Hfind). run. reflexivity.
Qed.

(** The exact run of a save that the pre-save receiver lets pass. *)
Lemma save_quiet_run (instance row : Notification.t)
    (write : Notification.t → Notification.t → Notification.t) (w : world) :
  List.find (has_pk (Notification.id instance)) (notifications w) = Some row →
  Notification.is_read instance = false ∨ Notification.is_read row = true →
  Notification_save E instance write w
  = (Done tt,
     with_notifications
       (update_rows (Notification.id instance) (write instance) (notifications w))
       (notification_seq w) w).
Proof.
  intros Hfind Hquiet. unfold Notification_save, bind at 1 2.
  rewrite status_change_quiet
    by (destruct Hquiet as [H|H]; [left; exact H|right; exists row; auto]).
  unfold gets, bind. simpl. rewrite (existsb_find _ _ _ Hfind). run. reflexivity.
Qed.


(** X13: when the channel layer is down, marking as read fails with the
    transport's error and the notification stays unread: neither the
    stored row nor the history changes. *)
Theorem mark_as_read_needs_channel_layer (self row : Notification.t) (u : User.t)
    (msg : string) (w : world) :
  Notification.id self ≠ 0 →
  List.find (has_pk (Notification.id self)) (notifications w) = Some row →
  Notification.is_read self = false →
  Notification.is_read row = false →
  users w !! Notification.user self = Some u →
  group_send_error E = Some (TransportError msg) →
  ∃ w',
    mark_as_read E self w = (Raised (TransportError msg), w')
    ∧ notifications w' = notifications w
    ∧ history w' = history w.
Proof.
  intros Hpk Hfind Hself Hrow Hu Hsend.
  unfold mark_as_read. rewrite Hself. simpl.
  unfold Notification_save, bind at 1 2.
  rewrite (status_change_read (set_read true (Some (now E)) self) row u w
             Hpk Hfind Hrow eq_refl Hu).
  rewrite Hsend. eexists. split; [reflexivity|]. split; reflexivity.
Qed.

(** X14: read, then unread: the stored notification is back to unread
    with no read time, but the history row that recorded the read stays
    [read], and the second step tells nobody. *)
Theorem unread_keeps_history_read (self row : Notification.t) (u : User.t)
    (i : nat) (h : NotificationHistory.t) (w : world) :
  Notification.id self ≠ 0 →
  List.find (has_pk (Notification.id self)) (notifications w) = Some row →
  Notification.is_read self = false →
  Notification.is_read row = false →
  users w !! Notification.user self = Some u →
  group_send_error E = None →
  NotificationHistory_objects_get (Notification.id self) (User.id u) Delivered w
  = (Done (i, h), w) →
  ∃ self1 w1 self2 w2,
    mark_as_read E self w = (Done self1, w1)
    ∧ mark_as_unread E self1 w1 = (Done self2, w2)
    ∧ List.find (has_pk (Notification.id self)) (notifications w2)
      = Some (set_read false None row)
    ∧ history w2 = <[i := NotificationHistory.mark_read (now E) h]> (history w)
    ∧ trace w2 = trace w1.
Proof.
  intros Hpk Hfind Hself Hrow Hu Hsend Hget.
  do 4 eexists. split; [apply (mark_as_read_run self row u i h w); assumption|].
  unfold mark_as_unread. simpl. unfold bind at 1.
  erewrite save_quiet_run.
  - split; [reflexivity|]. simpl. split; [|split; reflexivity].
    rewrite update_rows_compose by reflexivity.
    apply (find_update_rows _ _ _ row); [reflexivity|exact Hfind].
  - simpl. apply (find_update_rows _ _ _ row); [reflexivity|exact Hfind].
  - left. reflexivity.
Qed.

(** X15: archiving and then unarchiving an object that is in step with
    its stored row on [is_read] writes only the archive flag: the read
    state, the history and the trace are as before, and the stored row is
    the original one when it was not archived. *)
Theorem archive_round_trip (self row : Notification.t) (w : world) :
  List.find (has_pk (Notification.id self)) (notifications w) = Some row →
  Notification.is_read self = Notification.is_read row →
  Notification.is_archived row = false →
  ∃ self1 w1 self2 w2,
    archive E self w = (Done self1, w1)
    ∧ List.find (has_pk (Notification.id self)) (notifications w1)
      = Some (set_archived true row)
    ∧ unarchive E self1 w1 = (Done self2, w2)
    ∧ List.find (has_pk (Notification.id self)) (notifications w2) = Some row
    ∧ history w2 = history w ∧ trace w2 = trace w.
Proof.
  intros Hfind Hread Harch.
  assert (Hquiet : Notification.is_read self = false ∨ Notification.is_read row = true).
  { rewrite Hread. destruct (Notification.is_read row); auto. }
  assert (Hfind1 : List.find (has_pk (Notification.id self))
                     (update_rows (Notification.id self)
                        (write_archived (set_archived true self)) (notifications w))
                   = Some (set_archived true row)).
  { apply (find_update_rows _ _ _ row); [reflexivity|exact Hfind]. }
  do 4 eexists. unfold archive, unarchive, bind at 1.
  rewrite (save_quiet_run (set_archived true self) row write_archived w Hfind Hquiet).
  split; [reflexivity|]. split; [exact Hfind1|].
  unfold bind at 1. simpl.
  erewrite save_quiet_run; [| exact Hfind1 | exact Hquiet].
  split; [reflexivity|]. simpl. split; [|split; reflexivity].
  rewrite update_rows_compose by reflexivity.
  erewrite (find_update_rows _ _ _ row); [|reflexivity|exact Hfind].
  f_equal. destruct row. simpl in *. rewrite Harch. reflexivity.
Qed.

End Reading.

Lemma filter_unique (Q : Notification.t → bool) (l : list Notification.t)
    (n : Notification.t) :
  NoDup (List.map Notification.id l) → n ∈ l → Q n = true →
  (∀ m, Q m = true → Notification.id m = Notification.id n) →
  List.filter Q l = [n].
Proof.
  intros Hnd Hin Hn Hq. induction l as [|m l IH].
  - apply elem_of_nil in Hin. contradiction.
  - simpl in Hnd. apply NoDup_cons in Hnd as [Hm Hnd]. simpl.
    apply elem_of_cons in Hin as [<-|Hin].
    + rewrite Hn. f_equal. apply filter_none. apply List.Forall_forall.
      intros m Hml. destruct (Q m) eqn:Hqm; [|reflexivity].
      exfalso. apply Hm. rewrite <- (Hq m Hqm).
      apply list_elem_of_fmap_2, list_elem_of_In, Hml.
    + destruct (Q m) eqn:Hqm; [|apply IH; assumption].
      exfalso. apply Hm. rewrite (Hq m Hqm).
      apply list_elem_of_fmap_2, Hin.
Qed.

Section Consumer.

Variable E : env.

(** X16: marking a notification as read over the user's web socket
    sets the read flag and moves the history row to [read], but writes
    no read time: the stored row keeps the [read_at] it had. *)
Theorem socket_read_writes_no_read_time (user notification_id : Z)
    (n : Notification.t) (u : User.t) (i : nat) (h : NotificationHistory.t)
    (w : world) :
  unique_ids w →
  n ∈ notifications w →
  Notification.id n = notification_id →
  notification_id ≠ 0 →
  Notification.user n = user →
  Notification.is_read n = false →
  users w !! user = Some u →
  group_send_error E = None →
  NotificationHistory_objects_get notification_id (User.id u) Delivered w
  = (Done (i, h), w) →
  ∃ w',
    mark_notification_as_read E user notification_id w = (Done true, w')
    ∧ List.find (has_pk notification_id) (notifications w')
      = Some (set_read true (Notification.read_at n) n)
    ∧ history w' = <[i := NotificationHistory.mark_read (now E) h]> (history w).
Proof.
  intros Hnd Hin Hid Hpk Huser Hread Hu Hsend Hget. subst notification_id user.
  assert (Hfind : List.find (has_pk (Notification.id n)) (notifications w) = Some n)
    by (apply find_unique; assumption).
  unfold mark_notification_as_read, try_except, bind at 1, gets.
  rewrite (filter_unique _ (notifications w) n Hnd Hin).
  2:{ unfold has_pk. rewrite !bool_decide_eq_true_2 by reflexivity.
      rewrite Hread. reflexivity. }
  2:{ intros m Hm. apply andb_true_iff in Hm as [Hm _].
      apply andb_true_iff in Hm as [Hm _]. apply bool_decide_eq_true in Hm. exact Hm. }
  unfold Notification_save_all, bind at 1 2.
  rewrite (status_change_read E (set_read true (Notification.read_at n) n) n u w
             Hpk Hfind Hread eq_refl Hu).
  rewrite Hsend. cbv zeta. simpl.
  rewrite (history_get_at _ _ _ w (with_trace _ w) (Done (i, h)) eq_refl Hget).
  simpl. unfold gets, bind. simpl. rewrite (existsb_find _ _ _ Hfind).
  unfold post_save, create_notification_history, send_notification_via_channels,
    handle_scheduled_notifications, modify, bind, ret. simpl.
  eexists. split; [reflexivity|]. simpl. split; [|reflexivity].
  apply (find_update_rows_at _ (write_all (set_read true (Notification.read_at n) n)) _ n);
    [reflexivity|exact Hfind].
Qed.

End Consumer.

Lemma mark_all_rows (user : Z) (ns : list Notification.t) :
  let ns' := List.map (λ n, if bool_decide (Notification.user n = user)
                               && negb (Notification.is_read n)
                            then set_read true (Notification.read_at n) n else n) ns in
  List.filter (λ n, bool_decide (Notification.user n = user)
                    && negb (Notification.is_read n)) ns' = []
  ∧ (∀ v, v ≠ user →
       List.filter (λ n, bool_decide (Notification.user n = v)
                         && negb (Notification.is_read n)) ns'
       = List.filter (λ n, bool_decide (Notification.user n = v)
                           && negb (Notification.is_read n)) ns)
  ∧ List.map Notification.read_at ns' = List.map Notification.read_at ns
  ∧ List.map Notification.id ns' = List.map Notification.id ns.
Proof.
  induction ns as [|n ns (IH1 & IH2 & IH3 & IH4)]; simpl; [auto|].
  split; [|split; [|split]].
  - destruct (bool_decide (Notification.user n = user)) eqn:Hu; simpl.
    + destruct (Notification.is_read n) eqn:Hr; simpl.
      * rewrite Hu, Hr. simpl. exact IH1.
      * rewrite Hu. simpl. exact IH1.
    + rewrite Hu. simpl. exact IH1.
  - intros v Hv. rewrite (IH2 v Hv).
    destruct (bool_decide (Notification.user n = user)) eqn:Hu; simpl; [|reflexivity].
    destruct (Notification.is_read n) eqn:Hr; simpl; [rewrite Hr; reflexivity|].
    apply bool_decide_eq_true in Hu.
    rewrite (bool_decide_eq_false_2 (Notification.user n = v)) by congruence.
    reflexivity.
  - rewrite IH3. f_equal.
    destruct (bool_decide _ && negb _); reflexivity.
  - rewrite IH4. f_equal.
    destruct (bool_decide _ && negb _); reflexivity.
Qed.

(** X17: the socket's mark-all-as-read leaves the user no unread
    notification and touches nobody else's, but it is a bare update: no
    read time is written, no history row moves to [read], and nothing is
    sent. *)
Theorem mark_all_bypasses_history (user : Z) (w : world) :
  ∃ w',
    mark_all_notifications_as_read user w = (Done tt, w')
    ∧ unread_notifications user w' = []
    ∧ (∀ v, v ≠ user → unread_notifications v w' = unread_notifications v w)
    ∧ List.map Notification.read_at (notifications w')
      = List.map Notification.read_at (notifications w)
    ∧ history w' = history w
    ∧ trace w' = trace w.
Proof.
  eexists. split; [reflexivity|].
  destruct (mark_all_rows user (notifications w)) as (H1 & H2 & H3 & _).
  unfold unread_notifications. simpl. auto.
Qed.


Lemma mark_as_read_needs_channel_layer_witness :
  ∃ w',
    mark_as_read env_channel_down (notification_for 2 8) world_delivered
    = (Raised (TransportError "channel layer down"), w')
    ∧ notifications w' = notifications world_delivered
    ∧ history w' = history world_delivered.
Proof.
  apply (mark_as_read_needs_channel_layer env_channel_down (notification_for 2 8)
           (notification_for 2 8) user_bob "channel layer down" world_delivered);
    [discriminate|reflexivity|reflexivity|reflexivity|reflexivity|reflexivity].
Defined.

Lemma unread_keeps_history_read_witness :
  ∃ self1 w1 self2 w2,
    mark_as_read env_ok (notification_for 2 8) world_delivered = (Done self1, w1)
    ∧ mark_as_unread env_ok self1 w1 = (Done self2, w2)
    ∧ notifications w2 = notifications world_delivered
    ∧ NotificationHistory.status <$> history w2 = [Read].
Proof.
  destruct (unread_keeps_history_read env_ok (notification_for 2 8)
              (notification_for 2 8) user_bob 0%nat
              (NotificationHistory.mark_delivered 1000
                 (NotificationHistory.new 2 8 InApp Created ∅ 1000))
              world_delivered)
    as (self1 & w1 & self2 & w2 & Hrun1 & Hrun2 & _);
    [discriminate|reflexivity|reflexivity|reflexivity|reflexivity|reflexivity
    |reflexivity|].
  exists self1, w1, self2, w2. split; [exact Hrun1|]. split; [exact Hrun2|].
  vm_compute in Hrun1. injection Hrun1 as <- <-.
  vm_compute in Hrun2. injection Hrun2 as <- <-.
  split; reflexivity.
Defined.

Lemma archive_round_trip_witness :
  ∃ self1 w1 self2 w2,
    archive env_ok (notification_for 2 8) world_delivered = (Done self1, w1)
    ∧ List.find (has_pk 2) (notifications w1)
      = Some (set_archived true (notification_for 2 8))
    ∧ unarchive env_ok self1 w1 = (Done self2, w2)
    ∧ List.find (has_pk 2) (notifications w2) = Some (notification_for 2 8).
Proof.
  destruct (archive_round_trip env_ok (notification_for 2 8) (notification_for 2 8)
              world_delivered eq_refl eq_refl eq_refl)
    as (self1 & w1 & self2 & w2 & H1 & H2 & H3 & H4 & _).
  exists self1, w1, self2, w2. auto.
Defined.

Lemma socket_read_writes_no_read_time_witness :
  ∃ w',
    mark_notification_as_read env_ok 8 2 world_delivered = (Done true, w')
    ∧ List.find (has_pk 2) (notifications w')
      = Some (set_read true None (notification_for 2 8)).
Proof.
  destruct (socket_read_writes_no_read_time env_ok 8 2 (notification_for 2 8) user_bob
              0%nat
              (NotificationHistory.mark_delivered 1000
                 (NotificationHistory.new 2 8 InApp Created ∅ 1000))
              world_delivered)
    as (w' & Hrun & Hrow & _);
    [ apply NoDup_singleton | apply list_elem_of_here | reflexivity | discriminate
    | reflexivity | reflexivity | reflexivity | reflexivity | reflexivity | ].
  exists w'. auto.
Defined.

(** ** What the retention sweep keeps *)

Section Retention.

Variable E : env.

Lemma expired_is_expired (n : Notification.t) :
  expired E n = Notification.is_expired n (now E).
Proof.
  unfold expired, Notification.is_expired.
  destruct (Notification.expires_at n) as [e|]; [|reflexivity].
  apply bool_decide_ext. lia.
Qed.

Lemma swept_history (w : world) :
  history (swept E w)
  = List.filter
      (λ h, negb (bool_decide
                    (NotificationHistory.notification h
                     ∈ List.map Notification.id
                         (List.filter (old_archived E)
                            (List.filter (λ n, negb (expired E n)) (notifications w))))))
      (List.filter (λ h, negb (old_history E h))
         (List.filter
            (λ h, negb (bool_decide
                          (NotificationHistory.notification h
                           ∈ List.map Notification.id
                               (List.filter (expired E) (notifications w)))))
            (history w))).
Proof. reflexivity. Qed.

Lemma swept_notification_elem (w : world) (n : Notification.t) :
  n ∈ notifications (swept E w)
  ↔ n ∈ notifications w ∧ expired E n = false ∧ old_archived E n = false.
Proof.
  rewrite swept_notifications, !list_elem_of_In, !List.filter_In, !negb_true_iff.
  tauto.
Qed.

(** X21: the sweep removes exactly the stale notifications: a stored
    notification survives if and only if it is not expired at the time
    of the run and is not an archived one created more than 180 days
    before; no live notification is ever deleted. *)
Theorem sweep_removes_exactly_stale (w : world) (n : Notification.t) :
  n ∈ notifications (swept E w)
  ↔ n ∈ notifications w
    ∧ Notification.is_expired n (now E) = false
    ∧ ¬ (Notification.is_archived n = true
         ∧ Notification.created_at n < now E - timedelta_days 180).
Proof.
  rewrite swept_notification_elem, expired_is_expired. unfold old_archived.
  rewrite andb_false_iff, bool_decide_eq_false.
  destruct (Notification.is_archived n); intuition congruence.
Qed.

(** X22: the sweep keeps the history consistent: if every history row
    referred to a stored notification before the run, then every history
    row left after it refers to a notification that is still stored and
    not expired. *)
Theorem sweep_keeps_references (w : world) :
  (∀ h, h ∈ history w →
        ∃ n, n ∈ notifications w
             ∧ Notification.id n = NotificationHistory.notification h) →
  ∀ h, h ∈ history (swept E w) →
       ∃ n, n ∈ notifications (swept E w)
            ∧ Notification.id n = NotificationHistory.notification h
            ∧ Notification.is_expired n (now E) = false.
Proof.
  intros Href h Hh. rewrite swept_history in Hh.
  apply list_elem_of_In in Hh.
  apply List.filter_In in Hh as [Hh Harch]. apply List.filter_In in Hh as [Hh _].
  apply List.filter_In in Hh as [Hh Hexp].
  apply negb_true_iff, bool_decide_eq_false in Harch, Hexp.
  destruct (Href h) as (n & Hn & Hid); [apply list_elem_of_In; exact Hh|].
  assert (Hlive : expired E n = false).
  { destruct (expired E n) eqn:Hx; [|reflexivity]. exfalso. apply Hexp.
    rewrite <- Hid. apply list_elem_of_fmap_2, list_elem_of_In, List.filter_In.
    split; [apply list_elem_of_In; exact Hn|exact Hx]. }
  assert (Hkept : old_archived E n = false).
  { destruct (old_archived E n) eqn:Hx; [|reflexivity]. exfalso. apply Harch.
    rewrite <- Hid. apply list_elem_of_fmap_2, list_elem_of_In, List.filter_In.
    split; [|exact Hx]. apply List.filter_In.
    split; [apply list_elem_of_In; exact Hn|rewrite Hlive; reflexivity]. }
  exists n. split; [apply swept_notification_elem; auto|].
  split; [exact Hid|]. rewrite <- expired_is_expired. exact Hlive.
Qed.

(** X23: the sweep is idempotent: run again at the same time it deletes
    nothing, and the tables are as the first run left them. *)
Theorem sweep_twice_is_sweep_once (w : world) :
  notifications (swept E (swept E w)) = notifications (swept E w)
  ∧ history (swept E (swept E w)) = history (swept E w)
  ∧ delete_notifications (expired E) (swept E w) = (Done 0, swept E w)
  ∧ delete_history (old_history E) (swept E w) = (Done 0, swept E w)
  ∧ delete_notifications (old_archived E) (swept E w) = (Done 0, swept E w).
Proof.
  destruct (second_sweep_deletes_nothing E w) as (H1 & H2 & H3 & H4 & H5). auto.
Qed.

End Retention.

Lemma sweep_keeps_references_witness :
  ∃ n, n ∈ notifications (swept env_ok world_stale)
       ∧ Notification.id n = 2
       ∧ Notification.is_expired n (now env_ok) = false.
Proof.
  apply (sweep_keeps_references env_ok world_stale
           ltac:(intros h Hh; simpl in Hh;
                 apply elem_of_cons in Hh as [->|Hh];
                 [eexists; split; [apply list_elem_of_here|reflexivity]|];
                 apply elem_of_cons in Hh as [->|Hh];
                 [eexists; split;
                  [apply list_elem_of_further, list_elem_of_here|reflexivity]|];
                 apply elem_of_nil in Hh; contradiction)
           (NotificationHistory.new 2 8 InApp Created ∅ 1000)).
  replace (history (swept env_ok world_stale))
    with [NotificationHistory.new 2 8 InApp Created ∅ 1000]
    by (vm_compute; reflexivity).
  apply list_elem_of_here.
Defined.

(** ** Preferences of a new user *)

Lemma all_true_lookup (m : gmap string bool) (ty : string) :
  map_Forall (λ _ b, b = true) m → type_allowed m ty = true.
Proof.
  intros Hm. unfold type_allowed. destruct (m !! ty) as [b|] eqn:Hb; [|reflexivity].
  apply (Hm ty b Hb).
Qed.

Lemma six_types_true : map_Forall (λ _ b, b = true) six_types.
Proof.
  unfold six_types. repeat (apply map_Forall_insert_2; [reflexivity|]).
  apply map_Forall_empty.
Qed.

Lemma ten_types_true : map_Forall (λ _ b, b = true) ten_types.
Proof.
  unfold ten_types. repeat (apply map_Forall_insert_2; [reflexivity|]).
  apply map_Forall_empty.
Qed.

(** X24: the preference row a new user gets lets everything through:
    every channel's master switch is on, email is immediate, every type
    is allowed on every channel, and the preference method answers yes
    for any notification type at any time. *)
Theorem signup_preferences_allow_everything (instance : User.t) :
  ∃ p,
    User.notificationpreference (create_default_notification_preferences instance true)
    = Some p
    ∧ (∀ c, master_switch c p = true)
    ∧ NotificationPreference.email_frequency p = "immediate"
    ∧ (∀ c ty, type_allowed (channel_types p c) ty = true)
    ∧ (∀ ty t now, NotificationPreference.should_send_notification p ty t now = true)
    ∧ (∀ ty c t, should_deliver p ty c t = true).
Proof.
  exists signup_preferences. split; [reflexivity|].
  split; [intros []; reflexivity|]. split; [reflexivity|].
  split; [intros [] ty; apply all_true_lookup;
          [apply six_types_true|apply six_types_true|apply ten_types_true]|].
  assert (Hsend : ∀ ty t now,
            NotificationPreference.should_send_notification signup_preferences ty t now
            = true).
  { intros ty t now. unfold NotificationPreference.should_send_notification. simpl.
    apply (all_true_lookup ten_types ty ten_types_true). }
  split; [exact Hsend|]. intros ty c t. apply Hsend.
Qed.

(** ** Sequences of history updates *)

Lemma apply_mark_keeps (op : mark_op) (t : datetime) (h : NotificationHistory.t) :
  NotificationHistory.status (apply_mark op t h) = mark_target op
  ∧ NotificationHistory.notification (apply_mark op t h) = NotificationHistory.notification h
  ∧ NotificationHistory.user (apply_mark op t h) = NotificationHistory.user h
  ∧ NotificationHistory.channel (apply_mark op t h) = NotificationHistory.channel h
  ∧ NotificationHistory.created_at (apply_mark op t h) = NotificationHistory.created_at h
  ∧ NotificationHistory.metadata (apply_mark op t h) = NotificationHistory.metadata h
  ∧ ∀ op', is_Some (stamp_of op' h) → is_Some (stamp_of op' (apply_mark op t h)).
Proof.
  destruct op; simpl;
    unfold NotificationHistory.mark_delivered, NotificationHistory.mark_read,
      NotificationHistory.mark_clicked, NotificationHistory.mark_dismissed;
    case_decide as Hs; simpl;
    repeat (split; [reflexivity || (destruct (decide _); [assumption|tauto]) || idtac|]);
    try (apply dec_stable in Hs; rewrite Hs; repeat (split; [reflexivity|]));
    try (intros []; simpl; eauto); eauto.
Qed.

(** X25: whatever updates a history row goes through, in whatever
    order, the row keeps its notification, user, channel, creation time
    and metadata, a time stamp once set is never cleared, and the status
    is the one of the last update. *)
Theorem marks_keep_row_and_stamps (ops : list (mark_op * datetime))
    (h : NotificationHistory.t) :
  NotificationHistory.notification (apply_marks ops h) = NotificationHistory.notification h
  ∧ NotificationHistory.user (apply_marks ops h) = NotificationHistory.user h
  ∧ NotificationHistory.channel (apply_marks ops h) = NotificationHistory.channel h
  ∧ NotificationHistory.created_at (apply_marks ops h) = NotificationHistory.created_at h
  ∧ NotificationHistory.metadata (apply_marks ops h) = NotificationHistory.metadata h
  ∧ (∀ op, is_Some (stamp_of op h) → is_Some (stamp_of op (apply_marks ops h)))
  ∧ (∀ op t, last ops = Some (op, t) →
             NotificationHistory.status (apply_marks ops h) = mark_target op).
Proof.
  induction ops as [|[op t] ops IH] using rev_ind.
  - simpl. repeat (split; [reflexivity|]). split; [auto|]. intros op t [=].
  - unfold apply_marks in *. rewrite foldl_app. simpl.
    destruct IH as (H1 & H2 & H3 & H4 & H5 & H6 & _).
    destruct (apply_mark_keeps op t (foldl (λ h o, apply_mark o.1 o.2 h) h ops))
      as (K0 & K1 & K2 & K3 & K4 & K5 & K6).
    rewrite K1, K2, K3, K4, K5, H1, H2, H3, H4, H5.
    repeat (split; [reflexivity|]). split; [intros op' Hop'; apply K6, H6, Hop'|].
    intros op' t' Hlast. rewrite last_snoc in Hlast. injection Hlast as <- <-. exact K0.
Qed.

(** ** Creating a notification from a named template *)

Lemma filter_NoDup_unique {A : Type} (P : A → bool) (l : list A) (x : A) :
  NoDup l → x ∈ l → P x = true → (∀ y, y ∈ l → P y = true → y = x) →
  List.filter P l = [x].
Proof.
  intros Hnd Hin Hx Huniq. induction l as [|y l IH].
  - apply elem_of_nil in Hin. contradiction.
  - apply NoDup_cons in Hnd as [Hy Hnd]. simpl.
    apply elem_of_cons in Hin as [<-|Hin].
    + rewrite Hx. f_equal. apply filter_none, List.Forall_forall.
      intros z Hz. destruct (P z) eqn:Hpz; [|reflexivity]. exfalso. apply Hy.
      apply list_elem_of_In in Hz.
      rewrite <- (Huniq z (list_elem_of_further _ _ _ Hz) Hpz). exact Hz.
    + destruct (P y) eqn:Hpy.
      * exfalso. apply Hy. rewrite (Huniq y (list_elem_of_here _ _) Hpy). exact Hin.
      * apply IH; [exact Hnd|exact Hin|].
        intros z Hz. apply Huniq, list_elem_of_further, Hz.
Qed.

Section FromTemplate.

Variable E : env.

(** X27: asking for a template name that no stored template has raises
    [ValueError] with the name in its text, and nothing is created or
    changed. *)
Theorem unknown_template_is_value_error (user : User.t) (template_name : string)
    (context : option (gmap string string)) (w : world) :
  (∀ tid t, templates w !! tid = Some t → NotificationTemplate.name t ≠ template_name) →
  create_notification_from_template E user template_name context w
  = (Raised (ValueError ("Template '" +:+ template_name +:+ "' not found")), w).
Proof.
  intros Hnone.
  unfold create_notification_from_template, try_except, bind at 1,
    NotificationTemplate_objects_get, bind at 1, gets.
  rewrite filter_none; [reflexivity|].
  apply List.Forall_forall. intros [tid t] Hin. simpl.
  apply bool_decide_eq_false. apply (Hnone tid t).
  apply elem_of_map_to_list, list_elem_of_In, Hin.
Qed.

(** X28: with exactly one stored template of the given name, whose
    texts are well-formed and whose fields the context provides, the
    call for a stored user inserts a notification with the rendered
    title and message and then raises the [AttributeError] of the
    creation: no notification is returned and the stored templates,
    usage count included, are as before. *)
Theorem named_template_inserts_then_raises (user : User.t) (template_name : string)
    (context : option (gmap string string)) (tid : Z) (t : NotificationTemplate.t)
    (tk mk : list string) (w : world) :
  users w !! User.id user = Some user →
  templates w !! tid = Some t →
  NotificationTemplate.name t = template_name →
  (∀ tid' t', templates w !! tid' = Some t' →
              NotificationTemplate.name t' = template_name → tid' = tid) →
  format_keys (NotificationTemplate.title_template t) = Some tk →
  format_keys (NotificationTemplate.message_template t) = Some mk →
  (∀ k, k ∈ (tk ++ mk)%list → is_Some (default ∅ context !! k)) →
  ∃ r w',
    NotificationTemplate.render t (Some (default ∅ context)) = Done r
    ∧ create_notification_from_template E user template_name context w
      = (Raised scheduled_time_error, w')
    ∧ notifications w'
      = (notifications w
         ++ [created_row E (User.id user) (r_title r) (r_message r)
               (r_notification_type r) (r_is_priority r) (r_action_required r)
               (r_target_url r) ("template:" +:+ template_name) w])%list
    ∧ templates w' = templates w.
Proof.
  intros _ Ht Hname Huniq Hkt Hkm Hctx.
  destruct (render_done t (Some (default ∅ context)) tk mk Hkt Hkm) as [r Hr];
    [exact Hctx|].
  destruct (create_notification_rendered E t user (Some (default ∅ context)) r w Hr)
    as (w' & Hrun & Hns & _ & Hts & _).
  exists r, w'. split; [exact Hr|].
  split.
  { unfold create_notification_from_template, try_except, bind at 1,
      NotificationTemplate_objects_get, bind at 1, gets.
    rewrite (filter_NoDup_unique _ (map_to_list (templates w)) (tid, t)).
    - unfold ret at 1, bind at 1. simpl. rewrite Hrun. reflexivity.
    - apply NoDup_map_to_list.
    - apply elem_of_map_to_list, Ht.
    - simpl. apply bool_decide_eq_true_2, Hname.
    - intros [tid' t'] Hin Hp. simpl in Hp. apply bool_decide_eq_true in Hp.
      apply elem_of_map_to_list in Hin.
      pose proof (Huniq tid' t' Hin Hp) as ->.
      rewrite Ht in Hin. injection Hin as <-. reflexivity. }
  split; [rewrite <- Hname; exact Hns|exact Hts].
Qed.

End FromTemplate.

Lemma unknown_template_is_value_error_witness :
  create_notification_from_template env_ok user_bob "goodbye" None world_batch
  = (Raised (ValueError "Template 'goodbye' not found"), world_batch).
Proof.
  apply (unknown_template_is_value_error env_ok user_bob "goodbye" None world_batch).
  intros tid t Ht.
  change (templates world_batch)
    with ({[ 1 := template_welcome ]} : gmap Z NotificationTemplate.t) in Ht.
  apply lookup_singleton_Some in Ht as [_ <-]. discriminate.
Defined.

Lemma named_template_inserts_then_raises_witness :
  ∃ w',
    create_notification_from_template env_ok user_bob "welcome"
      (Some {[ "user_name" := "Bob" ]}) world_batch = (Raised scheduled_time_error, w')
    ∧ List.map Notification.title (notifications w') = ["Hi Bob"]
    ∧ templates w' = templates world_batch.
Proof.
  destruct (named_template_inserts_then_raises env_ok user_bob "welcome"
              (Some {[ "user_name" := "Bob" ]}) 1 template_welcome
              ["user_name"] ["user_name"] world_batch)
    as (r & w' & Hr & Hrun & Hns & Hts).
  - reflexivity.
  - reflexivity.
  - reflexivity.
  - intros tid' t' Ht' _.
    change (templates world_batch)
      with ({[ 1 := template_welcome ]} : gmap Z NotificationTemplate.t) in Ht'.
    apply lookup_singleton_Some in Ht' as [<- _]. reflexivity.
  - reflexivity.
  - reflexivity.
  - intros k Hin. simpl in Hin.
    apply elem_of_cons in Hin as [->|Hin]; [exists "Bob"; reflexivity|].
    apply elem_of_cons in Hin as [->|Hin]; [exists "Bob"; reflexivity|].
    apply elem_of_nil in Hin. contradiction.
  - exists w'. split; [exact Hrun|]. split; [|exact Hts].
    rewrite Hns. vm_compute in Hr. injection Hr as <-. reflexivity.
Defined.

(** ** Creation and its receivers *)

(** X30: creating a notification for a stored user always ends in an
    error, after the insert: in every environment the call raises the
    [AttributeError] of the scheduled-delivery receiver, which reads an
    attribute the model does not declare; the new unread row with the
    given title and message stays in the table, and users, templates and
    batches are untouched. *)
Theorem creation_raises_after_insert (E : env) (user : User.t)
    (title message notification_type : string) (is_priority action_required : bool)
    (target_url source : string) (w : world) :
  users w !! User.id user = Some user →
  ∃ w',
    Notification_objects_create E (User.id user) title message notification_type
      is_priority action_required target_url source w
    = (Raised (AttributeError "'Notification' object has no attribute 'scheduled_time'"),
       w')
    ∧ notifications w'
      = (notifications w
         ++ [{| Notification.id := notification_seq w + 1;
                Notification.user := User.id user;
                Notification.title := title; Notification.message := message;
                Notification.notification_type := notification_type;
                Notification.is_read := false;
                Notification.is_priority := is_priority;
                Notification.is_archived := false;
                Notification.created_at := now E;
                Notification.read_at := None; Notification.expires_at := None;
                Notification.source := source;
                Notification.target_url := target_url;
                Notification.action_required := action_required |}])%list
    ∧ users w' = users w ∧ templates w' = templates w ∧ batches w' = batches w.
Proof.
  intros _.
  destruct (objects_create_raises E (User.id user) title message notification_type
              is_priority action_required target_url source w)
    as (w' & Hrun & Hns & Hu & Ht & Hb & _).
  exists w'. split; [exact Hrun|]. split; [exact Hns|]. auto.
Qed.

Lemma creation_raises_after_insert_witness :
  ∃ w',
    Notification_objects_create env_channel_down 8 "Hello" "Hello Bob" "info"
      false false "" "test" world_batch
    = (Raised (AttributeError "'Notification' object has no attribute 'scheduled_time'"),
       w')
    ∧ List.map Notification.title (notifications w') = ["Hello"]
    ∧ users w' = users world_batch.
Proof.
  destruct (creation_raises_after_insert env_channel_down user_bob "Hello" "Hello Bob"
              "info" false false "" "test" world_batch)
    as (w' & Hrun & Hns & Hu & _); [reflexivity|].
  exists w'. split; [exact Hrun|]. rewrite Hns. split; [reflexivity|exact Hu].
Defined.
